(** * SignalSafe AI service: the stateful risk-scoring engine

    A shallow embedding of [ai-service/app]: the cluster statistics of
    [services/clustering_service.py], the anomaly detector of
    [services/anomaly_service.py], the escalation metrics of
    [services/escalation_service.py] and the batch endpoint of
    [routers/analyze.py].

    Numbers.  Python [int] is [Z] (or [nat] for lengths).  Python and numpy
    floats are modelled by exact rationals [Q]: the statements below are about
    the formulas the code evaluates, not about binary rounding error, and they
    are stated up to [Qeq] ([==]).  The one irrational operation, the square
    root inside [np.std], is a parameter (class [Numpy]).

    Objects.  Every service object is a record; a method is a function from
    the record (and its arguments) to the result and the new record. *)

From Stdlib Require Import Ascii String QArith Qabs Qround Qminmax ZArith Lia Lqa.
From stdpp Require Import gmap strings list sorting pretty.

(** ** Python and numpy primitives *)

Module Py.
Local Open Scope Q_scope.

(** [a < b] on floats, as a boolean. *)
Definition Qltb (a b : Q) : bool :=
  match Qcompare a b with Lt => true | _ => false end.

#[export] Instance Qlt_decision (a b : Q) : Decision (a < b) :=
  match Qlt_le_dec a b with
  | left H => left H
  | right H => right (Qle_not_lt _ _ H)
  end.

(** [sum(xs)] *)
Definition Qsum (xs : list Q) : Q := foldr Qplus 0 xs.

(** [np.mean(xs)]: the sum divided by the number of elements.  On an empty
    sequence numpy answers [nan]; every call site below passes a non-empty
    sequence. *)
Definition np_mean (xs : list Q) : Q :=
  Qsum xs / inject_Z (Z.of_nat (length xs)).

(** The square root numpy uses inside [np.std]. *)
Class Numpy := { np_sqrt : Q -> Q }.

(** [np.std(xs)] with the default [ddof=0]: the square root of the mean of the
    squared deviations from the mean (the population standard deviation). *)
Definition np_var (xs : list Q) : Q :=
  let m := np_mean xs in np_mean (map (fun x => (x - m) * (x - m)) xs).

Definition np_std `{Numpy} (xs : list Q) : Q := np_sqrt (np_var xs).

(** [round(x)] to the nearest integer, ties to the even one. *)
Definition round_half_even (x : Q) : Z :=
  let f := Qfloor x in
  match Qcompare (x - inject_Z f)%Q (1 # 2)%Q with
  | Lt => f
  | Gt => (f + 1)%Z
  | Eq => if Z.even f then f else (f + 1)%Z
  end.

(** [round(x, 2)] *)
Definition round2 (x : Q) : Q := inject_Z (round_half_even (x * 100)) / 100.

(** [collections.deque(maxlen=n)]: [append] drops from the left once the
    length exceeds [n]; [extend] appends the items one by one. *)
Definition deque_append {A} (maxlen : nat) (d : list A) (x : A) : list A :=
  drop (length d + 1 - maxlen) (d ++ [x]).

Definition deque_extend {A} (maxlen : nat) (d : list A) (xs : list A) : list A :=
  fold_left (deque_append maxlen) xs d.

(** [l[-i]] for [1 <= i <= len(l)]. *)
Definition neg_index (l : list Q) (i : nat) : Q :=
  default 0 (l !! (length l - i)%nat).

(** [l[-n:]]; for [n = 0] the slice [l[-0:]] is the whole list. *)
Definition last_n {A} (n : nat) (l : list A) : list A :=
  match n with
  | O => l
  | S _ => drop (length l - n) l
  end.

End Py.

(** ** clustering_service.py *)

Module Clustering.
Local Open Scope Q_scope.

(** The dictionary [get_cluster_info] builds for one cluster. *)
Record ClusterInfo := {
  clusterId : string;
  keywords : list string;
  size : Z;
  avgSentiment : Q;
  growthRate : Q;
  volatilityIndex : Q
}.

(** [ClusteringService]: [previous_sizes] is the only field the methods
    update; the clusterer object is the external provider below. *)
Record ClusteringService := {
  previous_sizes : gmap string Z
}.

Definition init : ClusteringService := {| previous_sizes := ∅ |}.

(** The external clustering provider: [self.clusterer.fit_predict], [None]
    when it raises. *)
Class Clusterer := { fit_predict : list (list Q) -> option (list Z) }.

(** Iteration over [set(labels)]: every distinct label once, in the order of
    the hash table, which the code does not choose. *)
Class PySet := {
  set_iter : list Z -> list Z;
  set_iter_NoDup : forall l, NoDup (set_iter l);
  set_iter_elem : forall l x, x ∈ set_iter l <-> x ∈ l
}.

(** [np.zeros(n, dtype=int)] *)
Definition np_zeros (n : nat) : list Z := replicate n 0%Z.

Definition cluster `{Clusterer} `{PySet} (embeddings : list (list Q)) : list Z * Z :=
  if (length embeddings <? 3)%nat then (np_zeros (length embeddings), 0%Z)
  else
    match fit_predict embeddings with
    | Some labels =>
        let n_clusters :=
          (Z.of_nat (length (set_iter labels))
           - (if decide ((-1)%Z ∈ labels) then 1 else 0))%Z in
        (labels, n_clusters)
    | None => (np_zeros (length embeddings), 0%Z)
    end.

(** *** Keyword extraction *)

Definition is_upper (c : ascii) : bool :=
  let n := nat_of_ascii c in (65 <=? n)%nat && (n <=? 90)%nat.
Definition is_lower (c : ascii) : bool :=
  let n := nat_of_ascii c in (97 <=? n)%nat && (n <=? 122)%nat.
Definition is_digit (c : ascii) : bool :=
  let n := nat_of_ascii c in (48 <=? n)%nat && (n <=? 57)%nat.

(** The class [[a-zA-Z]]. *)
Definition is_letter (c : ascii) : bool := is_upper c || is_lower c.

(** The class [\w] on ASCII text: letters, digits and the underscore.  Texts
    are taken to be ASCII: a code above 127 counts as a non-word character and
    is left alone by [lower]. *)
Definition is_word (c : ascii) : bool :=
  is_letter c || is_digit c || (nat_of_ascii c =? 95)%nat.

(** [text.lower()] *)
Definition lower_char (c : ascii) : ascii :=
  if is_upper c then ascii_of_nat (nat_of_ascii c + 32) else c.
Definition lower (s : list ascii) : list ascii := map lower_char s.

(** The longest run of letters at the head of [s], and what follows it. *)
Fixpoint span_letters (s : list ascii) : list ascii * list ascii :=
  match s with
  | [] => ([], [])
  | c :: s' =>
      if is_letter c
      then let '(run, rest) := span_letters s' in (c :: run, rest)
      else ([], s)
  end.

(** [\b] between two neighbouring characters ([None] beyond either end of the
    text): exactly one of them is a word character. *)
Definition word_boundary (before after : option ascii) : bool :=
  xorb (from_option is_word false before) (from_option is_word false after).

(** One attempt of [\b[a-zA-Z]{4,}\b] at the head of [s], [prev] being the
    character before it.  The greedy [{4,}] takes the whole run of letters; a
    shorter take would end between two letters, where [\b] fails, so the
    attempt succeeds only with the whole run. *)
Definition match_here (prev : option ascii) (s : list ascii) : option (list ascii) :=
  let '(run, rest) := span_letters s in
  if word_boundary prev (head s) && (4 <=? length run)%nat
     && word_boundary (last run) (head rest)
  then Some run else None.

(** [re.findall]: attempts from left to right; after a match the scan resumes
    behind it ([skip] counts the characters of the match still to pass). *)
Fixpoint findall_from (prev : option ascii) (skip : nat) (s : list ascii)
    : list (list ascii) :=
  match s with
  | [] => []
  | c :: s' =>
      match skip with
      | S k => findall_from (Some c) k s'
      | O =>
          match match_here prev s with
          | Some tok => tok :: findall_from (Some c) (length tok - 1) s'
          | None => findall_from (Some c) 0 s'
          end
      end
  end.

(** [re.findall(r'\b[a-zA-Z]{4,}\b', text.lower())] *)
Definition findall_words (text : string) : list string :=
  map string_of_list_ascii
      (findall_from None 0 (lower (list_ascii_of_string text))).

Definition stop_words : list string :=
  ["this"; "that"; "with"; "from"; "have"; "been"; "will"; "just"; "about"]%string.

(** [word_freq[word] = word_freq.get(word, 0) + 1] on a dictionary kept in
    insertion order: a known key is updated in place, a new one goes last. *)
Fixpoint dict_incr (word : string) (d : list (string * nat)) : list (string * nat) :=
  match d with
  | [] => [(word, 1%nat)]
  | (k, v) :: d' =>
      if decide (k = word) then (k, (v + 1)%nat) :: d'
      else (k, v) :: dict_incr word d'
  end.

(** The words of one text that are counted. *)
Definition counted_words (text : string) : list string :=
  filter (fun w => w ∉ stop_words) (findall_words text).

Definition count_text (d : list (string * nat)) (text : string) : list (string * nat) :=
  fold_left (fun d w => dict_incr w d) (counted_words text) d.

(** [sorted(items, key=lambda x: x[1], reverse=True)]: a stable sort, so items
    of equal count keep their order. *)
Fixpoint insert_desc (x : string * nat) (l : list (string * nat)) : list (string * nat) :=
  match l with
  | [] => [x]
  | y :: l' => if (snd x <? snd y)%nat then y :: insert_desc x l' else x :: l
  end.

Definition sorted_desc (items : list (string * nat)) : list (string * nat) :=
  foldr insert_desc [] items.

Definition _extract_keywords (texts : list string) : list string :=
  let word_freq := fold_left count_text texts [] in
  let sorted_words := sorted_desc word_freq in
  map fst (take 5 sorted_words).

(** *** Cluster summaries *)

(** [np.where(labels == label)[0]], counting positions from [i]. *)
Fixpoint np_where_eq (labels : list Z) (label : Z) (i : nat) : list nat :=
  match labels with
  | [] => []
  | l :: ls =>
      if (l =? label)%Z then i :: np_where_eq ls label (S i)
      else np_where_eq ls label (S i)
  end.

Definition cluster_id_of (label : Z) : string := "cluster-" +:+ pretty label.

(** The body of the loop of [get_cluster_info] for one label that is not
    [-1]; [None] when an index is out of range ([IndexError]), in which case
    nothing has been written yet. *)
Definition summarize_label `{Py.Numpy} (prev : gmap string Z)
    (labels : list Z) (texts : list string) (sentiments : list Q) (label : Z)
    : option (ClusterInfo * gmap string Z) :=
  let indices := np_where_eq labels label 0 in
  cluster_texts ← mapM (fun i => texts !! i) indices;
  cluster_sentiments ← mapM (fun i => sentiments !! i) indices;
  let avg_sentiment := Py.np_mean cluster_sentiments in
  let keywords := _extract_keywords cluster_texts in
  let size := Z.of_nat (length indices) in
  let cluster_id := cluster_id_of label in
  let prev_size := default 0%Z (prev !! cluster_id) in
  let growth_rate :=
    inject_Z (size - prev_size) / inject_Z (Z.max prev_size 1) * 100 in
  let volatility := Py.np_std cluster_sentiments in
  Some ({| clusterId := cluster_id; keywords := keywords; size := size;
           avgSentiment := avg_sentiment; growthRate := growth_rate;
           volatilityIndex := volatility |},
        <[cluster_id := size]> prev).

(** The loop over the labels; an exception leaves the updates made so far. *)
Fixpoint cluster_loop `{Py.Numpy} (prev : gmap string Z)
    (labels : list Z) (texts : list string) (sentiments : list Q)
    (todo : list Z) (clusters : list ClusterInfo)
    : option (list ClusterInfo) * gmap string Z :=
  match todo with
  | [] => (Some clusters, prev)
  | label :: rest =>
      if (label =? -1)%Z then cluster_loop prev labels texts sentiments rest clusters
      else
        match summarize_label prev labels texts sentiments label with
        | None => (None, prev)
        | Some (c, prev') =>
            cluster_loop prev' labels texts sentiments rest (clusters ++ [c])
        end
  end.

Definition get_cluster_info `{Py.Numpy} `{PySet} (self : ClusteringService)
    (labels : list Z) (texts : list string) (sentiments : list Q)
    : option (list ClusterInfo) * ClusteringService :=
  let '(r, prev) :=
    cluster_loop (previous_sizes self) labels texts sentiments (set_iter labels) [] in
  (r, {| previous_sizes := prev |}).

End Clustering.

(** ** escalation_service.py *)

Module Escalation.
Import Py Clustering.
Local Open Scope Q_scope.

(** [EscalationService]: two [deque(maxlen=20)]. *)
Record EscalationService := {
  sentiment_history : list Q;
  volume_history : list Z
}.

Definition init : EscalationService :=
  {| sentiment_history := []; volume_history := [] |}.

(** The dictionary [compute_metrics] returns. *)
Record Metrics := {
  sentimentAcceleration : Q;
  clusterGrowthRate : Q;
  narrativeSpreadSpeed : Q
}.

Definition compute_sentiment_acceleration
    (self : EscalationService) (sentiments : list Q) : Q * EscalationService :=
  if (length sentiments <? 2)%nat then (0, self)
  else
    let h := deque_extend 20 (sentiment_history self) sentiments in
    let self' := {| sentiment_history := h; volume_history := volume_history self |} in
    let recent_avg := np_mean (last_n 10 h) in
    let tail :=
      if Qltb recent_avg (- (3 # 10)) then Qmin 100 (Qabs recent_avg * 100) else 0 in
    if (5 <=? length h)%nat then
      let first_derivative :=
        map (fun i => neg_index h i - neg_index h (i + 1))
            (seq 1 (Nat.min 5 (length h) - 1)) in
      match first_derivative with
      | [] => (tail, self')
      | _ :: _ =>
          let acceleration := Qabs (np_mean first_derivative) in
          (Qmin 100 (acceleration * 200), self')
      end
    else (tail, self').

Definition compute_cluster_growth_rate (clusters : list ClusterInfo) : Q :=
  match clusters with
  | [] => 0
  | _ :: _ => np_mean (map growthRate clusters)
  end.

Definition compute_narrative_spread_speed
    (clusters : list ClusterInfo) (volume : Z) : Q :=
  match clusters with
  | [] => 0
  | _ :: _ =>
      if (volume =? 0)%Z then 0
      else
        let num_clusters := Z.of_nat (length clusters) in
        let total_posts := foldr Z.add 0%Z (map size clusters) in
        let cluster_factor := Qmin 50 (inject_Z (num_clusters * 10)) in
        let size_factor :=
          Qmin 30 (inject_Z total_posts / inject_Z volume * 30) in
        let viral_factor :=
          Qmin 20 (inject_Z
            (foldr Z.add 0%Z
               (map (fun _ => 1%Z)
                    (filter (fun c => Qltb 50 (growthRate c) = true) clusters)) * 5)) in
        cluster_factor + size_factor + viral_factor
  end.

Definition compute_metrics (self : EscalationService) (sentiments : list Q)
    (clusters : list ClusterInfo) (current_volume : Z) : Metrics * EscalationService :=
  let '(sentiment_acceleration, self') :=
    compute_sentiment_acceleration self sentiments in
  let cluster_growth_rate := compute_cluster_growth_rate clusters in
  let narrative_spread_speed :=
    compute_narrative_spread_speed clusters current_volume in
  ({| sentimentAcceleration := sentiment_acceleration;
      clusterGrowthRate := cluster_growth_rate;
      narrativeSpreadSpeed := narrative_spread_speed |}, self').

End Escalation.

(** ** anomaly_service.py *)

Module Anomaly.
Import Py.
Local Open Scope Q_scope.

(** What the module takes from scikit-learn.  [SKLEARN_AVAILABLE] is the
    module-level flag; the two constructors may raise; [scaler_fit_transform]
    is [StandardScaler.fit_transform]; [iforest_fit_score train x] is
    [fit(train)], [predict(x)] and [score_samples(x)[0]] of the isolation
    forest, the raw outlier score of [x].  [None] stands for a raised
    exception. *)
Class Sklearn := {
  SKLEARN_AVAILABLE : bool;
  scaler_constructs : bool;
  iforest_constructs : bool;
  scaler_fit_transform : list (list Q) -> option (list (list Q));
  iforest_fit_score : list (list Q) -> list Q -> option Q
}.

(** [AdvancedAnomalyService].  [scaler] and [isolation_forest] record whether
    the attribute holds an object ([true]) or [None] ([false]). *)
Record AdvancedAnomalyService := {
  window_size : nat;
  contamination : Q;
  volume_history : list Z;
  sentiment_accel_history : list Q;
  growth_rate_history : list Q;
  mean_volume : Q;
  std_volume : Q;
  scaler : bool;
  isolation_forest : bool;
  feature_buffer : list (list Q);
  min_samples_for_iforest : nat;
  use_fallback : bool
}.

Definition set_histories (self : AdvancedAnomalyService)
    (v : list Z) (sa gr : list Q) : AdvancedAnomalyService :=
  {| window_size := window_size self; contamination := contamination self;
     volume_history := v; sentiment_accel_history := sa; growth_rate_history := gr;
     mean_volume := mean_volume self; std_volume := std_volume self;
     scaler := scaler self; isolation_forest := isolation_forest self;
     feature_buffer := feature_buffer self;
     min_samples_for_iforest := min_samples_for_iforest self;
     use_fallback := use_fallback self |}.

Definition set_stats (self : AdvancedAnomalyService) (m s : Q) : AdvancedAnomalyService :=
  {| window_size := window_size self; contamination := contamination self;
     volume_history := volume_history self;
     sentiment_accel_history := sentiment_accel_history self;
     growth_rate_history := growth_rate_history self;
     mean_volume := m; std_volume := s;
     scaler := scaler self; isolation_forest := isolation_forest self;
     feature_buffer := feature_buffer self;
     min_samples_for_iforest := min_samples_for_iforest self;
     use_fallback := use_fallback self |}.

Definition set_feature_buffer (self : AdvancedAnomalyService)
    (b : list (list Q)) : AdvancedAnomalyService :=
  {| window_size := window_size self; contamination := contamination self;
     volume_history := volume_history self;
     sentiment_accel_history := sentiment_accel_history self;
     growth_rate_history := growth_rate_history self;
     mean_volume := mean_volume self; std_volume := std_volume self;
     scaler := scaler self; isolation_forest := isolation_forest self;
     feature_buffer := b;
     min_samples_for_iforest := min_samples_for_iforest self;
     use_fallback := use_fallback self |}.

Definition set_models (self : AdvancedAnomalyService)
    (sc ifo fb : bool) : AdvancedAnomalyService :=
  {| window_size := window_size self; contamination := contamination self;
     volume_history := volume_history self;
     sentiment_accel_history := sentiment_accel_history self;
     growth_rate_history := growth_rate_history self;
     mean_volume := mean_volume self; std_volume := std_volume self;
     scaler := sc; isolation_forest := ifo;
     feature_buffer := feature_buffer self;
     min_samples_for_iforest := min_samples_for_iforest self;
     use_fallback := fb |}.

Definition set_use_fallback (self : AdvancedAnomalyService) (fb : bool)
    : AdvancedAnomalyService :=
  set_models self (scaler self) (isolation_forest self) fb.

(** The [try] block shared by [__init__] and [reset]: build the scaler, then
    the forest; an exception keeps what was assigned before it and turns the
    fallback on. *)
Definition construct_models `{Sklearn} (self : AdvancedAnomalyService)
    : AdvancedAnomalyService :=
  if scaler_constructs then
    if iforest_constructs then set_models self true true (use_fallback self)
    else set_models self true (isolation_forest self) true
  else set_use_fallback self true.

(** [__init__(window_size, contamination)] *)
Definition new `{Sklearn} (window_size : nat) (contamination : Q)
    : AdvancedAnomalyService :=
  let self :=
    {| window_size := window_size; contamination := contamination;
       volume_history := []; sentiment_accel_history := [];
       growth_rate_history := [];
       mean_volume := 0; std_volume := 1;
       scaler := false; isolation_forest := false;
       feature_buffer := []; min_samples_for_iforest := 10;
       use_fallback := negb SKLEARN_AVAILABLE |} in
  if negb (use_fallback self) then construct_models self else self.

(** The global instance [anomaly_service = AdvancedAnomalyService()]. *)
Definition anomaly_service `{Sklearn} : AdvancedAnomalyService := new 50 (1 # 10).

Definition _detect_zscore `{Numpy} (self : AdvancedAnomalyService)
    (current_volume : Z) : Q * AdvancedAnomalyService :=
  if (length (volume_history self) <? 5)%nat then (0, self)
  else
    let mean := np_mean (map inject_Z (volume_history self)) in
    let std := np_std (map inject_Z (volume_history self)) in
    let self' := set_stats self mean std in
    if Qltb std (1 # 10) then (0, self')
    else
      let z_score := (inject_Z current_volume - mean) / std in
      let anomaly_score := Qmin 100 (Qmax 0 (Qabs z_score / 3 * 100)) in
      (round2 anomaly_score, self').

Definition detect `{Numpy} (self : AdvancedAnomalyService) (current_volume : Z)
    : Q * AdvancedAnomalyService :=
  _detect_zscore self current_volume.

Definition _extract_features (volume : Z) (sentiment_accel growth_rate : Q) : list Q :=
  [inject_Z volume; sentiment_accel; growth_rate].

Definition _normalize_features `{Sklearn} (self : AdvancedAnomalyService)
    (features : list (list Q)) : list (list Q) :=
  if scaler self then
    match scaler_fit_transform features with
    | Some normalized => normalized
    | None => features
    end
  else features.

(** The raw outlier score of the newest vector of the feature buffer: the
    buffer is normalized, the forest is fitted on all rows but the last and
    scores the last one.  [None] when any of this raises. *)
Definition raw_outlier_score `{Sklearn} (self : AdvancedAnomalyService) : option Q :=
  let normalized := _normalize_features self (feature_buffer self) in
  if isolation_forest self then
    match last normalized with
    | Some current_normalized =>
        iforest_fit_score (removelast normalized) current_normalized
    | None => None
    end
  else None.

(** The state after the three [append]s that open [detect_advanced]. *)
Definition record_observation (self : AdvancedAnomalyService)
    (current_volume : Z) (sentiment_acceleration cluster_growth_rate : Q)
    : AdvancedAnomalyService :=
  set_histories self
    (deque_append (window_size self) (volume_history self) current_volume)
    (deque_append (window_size self) (sentiment_accel_history self) sentiment_acceleration)
    (deque_append (window_size self) (growth_rate_history self) cluster_growth_rate).

(** The feature buffer after its [append] and the cut to the window size. *)
Definition push_features (self : AdvancedAnomalyService) (features : list Q)
    : AdvancedAnomalyService :=
  let buf := feature_buffer self ++ [features] in
  set_feature_buffer self
    (if (window_size self <? length buf)%nat then last_n (window_size self) buf else buf).

Definition detect_advanced `{Numpy} `{Sklearn} (self : AdvancedAnomalyService)
    (current_volume : Z) (sentiment_acceleration cluster_growth_rate : Q)
    : Q * AdvancedAnomalyService :=
  let self1 :=
    record_observation self current_volume sentiment_acceleration cluster_growth_rate in
  let features :=
    _extract_features current_volume sentiment_acceleration cluster_growth_rate in
  if negb (use_fallback self1)
     && (min_samples_for_iforest self1 <=? length (volume_history self1))%nat
  then
    let self2 := push_features self1 features in
    if (min_samples_for_iforest self2 <=? length (feature_buffer self2))%nat then
      match raw_outlier_score self2 with
      | Some anomaly_score_raw =>
          let anomaly_score :=
            Qmax 0 (Qmin 100 (((1 # 2) - anomaly_score_raw) * 200)) in
          (round2 anomaly_score, self2)
      | None => _detect_zscore (set_use_fallback self2 true) current_volume
      end
    else _detect_zscore self2 current_volume
  else _detect_zscore self1 current_volume.

Definition reset `{Sklearn} (self : AdvancedAnomalyService) : AdvancedAnomalyService :=
  let self1 :=
    set_stats (set_feature_buffer (set_histories self [] [] []) []) 0 1 in
  if negb (use_fallback self1) && SKLEARN_AVAILABLE
  then construct_models self1
  else self1.

(** [detect_simple] *)
Definition detect_simple `{Numpy} (self : AdvancedAnomalyService) (current_volume : Z)
    : Q * AdvancedAnomalyService :=
  _detect_zscore self current_volume.

(** The loop of [detect_batch], [i] being the index of the next volume: a
    feature list too short for [i] gives 0. *)
Fixpoint detect_batch_loop `{Numpy} `{Sklearn} (self : AdvancedAnomalyService)
    (i : nat) (volumes : list Z) (sentiment_accelerations growth_rates : list Q)
    : list Q * AdvancedAnomalyService :=
  match volumes with
  | [] => ([], self)
  | volume :: rest =>
      let '(score, self') :=
        detect_advanced self volume
          (default 0 (sentiment_accelerations !! i))
          (default 0 (growth_rates !! i)) in
      let '(scores, self'') :=
        detect_batch_loop self' (S i) rest sentiment_accelerations growth_rates in
      (score :: scores, self'')
  end.

(** [detect_batch]; an argument left out ([None]) is a list of zeros. *)
Definition detect_batch `{Numpy} `{Sklearn} (self : AdvancedAnomalyService)
    (volumes : list Z) (sentiment_accelerations growth_rates : option (list Q))
    : list Q * AdvancedAnomalyService :=
  let sentiment_accelerations :=
    match sentiment_accelerations with
    | None => replicate (length volumes) 0
    | Some l => l
    end in
  let growth_rates :=
    match growth_rates with
    | None => replicate (length volumes) 0
    | Some l => l
    end in
  detect_batch_loop self 0 volumes sentiment_accelerations growth_rates.

(** The dictionary [get_stats] returns. *)
Record Stats := {
  stats_mean_volume : Q;
  stats_std_volume : Q;
  history_size : nat;
  using_isolation_forest : bool;
  sklearn_available : bool
}.

Definition get_stats `{Sklearn} (self : AdvancedAnomalyService) : Stats :=
  {| stats_mean_volume := mean_volume self;
     stats_std_volume := std_volume self;
     history_size := length (volume_history self);
     using_isolation_forest := negb (use_fallback self);
     sklearn_available := SKLEARN_AVAILABLE |}.

End Anomaly.

(** ** anomaly_service.py: the backwards-compatible [AnomalyService] *)

Module AnomalyCompat.
Import Py.
Local Open Scope Q_scope.

Record AnomalyService := {
  window_size : nat;
  _service : Anomaly.AdvancedAnomalyService
}.

(** [__init__(window_size)]: the wrapped service takes the default
    contamination. *)
Definition new `{Anomaly.Sklearn} (window_size : nat) : AnomalyService :=
  {| window_size := window_size; _service := Anomaly.new window_size (1 # 10) |}.

Definition detect `{Numpy} (self : AnomalyService) (current_volume : Z)
    : Q * AnomalyService :=
  let '(r, s) := Anomaly.detect (_service self) current_volume in
  (r, {| window_size := window_size self; _service := s |}).

(** [[self._service.detect(v) for v in volumes]] *)
Fixpoint detect_batch `{Numpy} (self : AnomalyService) (volumes : list Z)
    : list Q * AnomalyService :=
  match volumes with
  | [] => ([], self)
  | v :: rest =>
      let '(r, self') := detect self v in
      let '(rs, self'') := detect_batch self' rest in
      (r :: rs, self'')
  end.

Definition detect_advanced `{Numpy} `{Anomaly.Sklearn} (self : AnomalyService)
    (current_volume : Z) (sentiment_acceleration cluster_growth_rate : Q)
    : Q * AnomalyService :=
  let '(r, s) :=
    Anomaly.detect_advanced (_service self) current_volume
      sentiment_acceleration cluster_growth_rate in
  (r, {| window_size := window_size self; _service := s |}).

Definition get_stats `{Anomaly.Sklearn} (self : AnomalyService) : Anomaly.Stats :=
  Anomaly.get_stats (_service self).

Definition reset `{Anomaly.Sklearn} (self : AnomalyService) : AnomalyService :=
  {| window_size := window_size self; _service := Anomaly.reset (_service self) |}.

End AnomalyCompat.

(** ** sentiment_service.py *)

Module Sentiment.
Local Open Scope Q_scope.

(** The transformers pipeline [self.classifier]: for each text a label and a
    score. *)
Class Classifier := { classifier : list string -> list (string * Q) }.

(** [text[:512]] *)
Definition truncate (text : string) : string := substring 0 512 text.

(** The polarity of one result: the score, negated for the label
    ["NEGATIVE"]. *)
Definition polarity (result : string * Q) : Q :=
  if decide (fst result = "NEGATIVE"%string) then - snd result else snd result.

Definition analyze `{Classifier} (texts : list string) : list Q :=
  match texts with
  | [] => []
  | _ :: _ =>
      let truncated_texts := map truncate texts in
      let results := classifier truncated_texts in
      map polarity results
  end.

(** [analyze_single]; [None] when the pipeline returns no result
    ([IndexError]). *)
Definition analyze_single `{Classifier} (text : string) : option Q :=
  match classifier [truncate text] with
  | [] => None
  | result :: _ => Some (polarity result)
  end.

End Sentiment.

(** ** embedding_service.py *)

Module Embedding.

(** [self.model.encode] of sentence-transformers. *)
Class Encoder := { model_encode : list string -> list (list Q) }.

Definition encode `{Encoder} (texts : list string) : list (list Q) :=
  match texts with
  | [] => []
  | _ :: _ => model_encode texts
  end.

(** [encode_single]; [None] when the model returns no row. *)
Definition encode_single `{Encoder} (text : string) : option (list Q) :=
  head (model_encode [text]).

End Embedding.

(** ** routers/analyze.py *)

Module Router.
Import Py.
Local Open Scope Q_scope.

(** The embedding and sentiment providers. *)
Class Models := {
  encode : list string -> list (list Q);
  analyze : list string -> list Q
}.

Record PostInput := { id : string; text : string }.

Record EnrichedPost := {
  post_id : string;
  post_text : string;
  sentimentScore : Q;
  embedding : list Q
}.

Record MetricsOutput := {
  sentimentAcceleration : Q;
  clusterGrowthRate : Q;
  anomalyScore : Q;
  narrativeSpreadSpeed : Q
}.

Record AnalyzeResponse := {
  enrichedPosts : list EnrichedPost;
  clusters : list Clustering.ClusterInfo;
  metrics : MetricsOutput
}.

(** The global service instances the router imports. *)
Record Services := {
  clustering_service : Clustering.ClusteringService;
  anomaly_service : Anomaly.AdvancedAnomalyService;
  escalation_service : Escalation.EscalationService
}.

Definition startup `{Anomaly.Sklearn} : Services :=
  {| clustering_service := Clustering.init;
     anomaly_service := Anomaly.anomaly_service;
     escalation_service := Escalation.init |}.

(** [analyze_posts]: the response, [None] when an exception escapes the
    handler, and the services after the call. *)
Definition analyze_posts `{Numpy} `{Models} `{Clustering.Clusterer} `{Clustering.PySet}
    (s : Services) (posts : list PostInput) : option AnalyzeResponse * Services :=
  match posts with
  | [] =>
      (Some {| enrichedPosts := []; clusters := [];
               metrics := {| sentimentAcceleration := 0; clusterGrowthRate := 0;
                             anomalyScore := 0; narrativeSpreadSpeed := 0 |} |}, s)
  | _ :: _ =>
      let texts := map text posts in
      let embeddings := encode texts in
      let sentiments := analyze texts in
      let '(labels, n_clusters) := Clustering.cluster embeddings in
      let '(info, cs) :=
        Clustering.get_cluster_info (clustering_service s) labels texts sentiments in
      match info with
      | None =>
          (None, {| clustering_service := cs;
                    anomaly_service := anomaly_service s;
                    escalation_service := escalation_service s |})
      | Some clusters =>
          let current_volume := Z.of_nat (length posts) in
          let '(anomaly_score, an) := Anomaly.detect (anomaly_service s) current_volume in
          let '(escalation_metrics, es) :=
            Escalation.compute_metrics (escalation_service s)
              sentiments clusters current_volume in
          let enriched_posts :=
            imap (fun i post =>
                    {| post_id := id post; post_text := text post;
                       sentimentScore := default 0 (sentiments !! i);
                       embedding := default [] (embeddings !! i) |}) posts in
          (Some {| enrichedPosts := enriched_posts;
                   clusters := clusters;
                   metrics :=
                     {| sentimentAcceleration :=
                          Escalation.sentimentAcceleration escalation_metrics;
                        clusterGrowthRate :=
                          Escalation.clusterGrowthRate escalation_metrics;
                        anomalyScore := anomaly_score;
                        narrativeSpreadSpeed :=
                          Escalation.narrativeSpreadSpeed escalation_metrics |} |},
           {| clustering_service := cs; anomaly_service := an;
              escalation_service := es |})
      end
  end.

(** A run of the service: the batches are handled one after the other on the
    same service objects. *)
Fixpoint serve `{Numpy} `{Models} `{Clustering.Clusterer} `{Clustering.PySet}
    (s : Services) (batches : list (list PostInput))
    : list (option AnalyzeResponse) * Services :=
  match batches with
  | [] => ([], s)
  | posts :: rest =>
      let '(r, s') := analyze_posts s posts in
      let '(rs, s'') := serve s' rest in
      (r :: rs, s'')
  end.

(** The providers the router imports are the two service objects. *)
Definition service_models `{Embedding.Encoder} `{Sentiment.Classifier} : Models :=
  {| encode := Embedding.encode; analyze := Sentiment.analyze |}.

End Router.

(** ** Concrete collaborators, for running the model *)

Module Demo.
Local Open Scope Q_scope.

(** A square root on [Q], exact on the squares of the multiples of 1/1000:
    the integer square root of the argument scaled by [10^6], over 1000. *)
Definition sqrt_milli (x : Q) : Q :=
  inject_Z (Z.sqrt (Qfloor (x * 1000000))) / 1000.

#[export] Instance numpy : Py.Numpy := {| Py.np_sqrt := sqrt_milli |}.

#[export] Instance pyset : Clustering.PySet :=
  {| Clustering.set_iter := remove_dups;
     Clustering.set_iter_NoDup := NoDup_remove_dups;
     Clustering.set_iter_elem := fun l x => elem_of_remove_dups l x |}.

(** A provider that puts every post in cluster 0. *)
#[export] Instance clusterer : Clustering.Clusterer :=
  {| Clustering.fit_predict := fun e => Some (replicate (length e) 0%Z) |}.

(** scikit-learn present and working; the forest scores every point [-1/2]. *)
#[export] Instance sklearn : Anomaly.Sklearn :=
  {| Anomaly.SKLEARN_AVAILABLE := true;
     Anomaly.scaler_constructs := true;
     Anomaly.iforest_constructs := true;
     Anomaly.scaler_fit_transform := fun f => Some f;
     Anomaly.iforest_fit_score := fun _ _ => Some (- (1 # 2)) |}.

(** scikit-learn present, but the forest raises when it is fitted. *)
Definition sklearn_failing : Anomaly.Sklearn :=
  {| Anomaly.SKLEARN_AVAILABLE := true;
     Anomaly.scaler_constructs := true;
     Anomaly.iforest_constructs := true;
     Anomaly.scaler_fit_transform := fun f => Some f;
     Anomaly.iforest_fit_score := fun _ _ => None |}.

(** Providers for the two-post scenario: sentiments [0.9, -0.9]. *)
#[export] Instance models : Router.Models :=
  {| Router.encode := fun texts => map (fun _ => [0]) texts;
     Router.analyze := fun texts =>
       take (length texts) [9 # 10; - (9 # 10)] ++ replicate (length texts - 2) 0 |}.

(** A pipeline that calls a text negative, with score 3/4, when it starts
    with ["bad"], and positive, with score 1/2, when not. *)
#[export] Instance classifier : Sentiment.Classifier :=
  {| Sentiment.classifier := fun texts =>
       map (fun t => if String.prefix "bad" t
                     then ("NEGATIVE"%string, 3 # 4)
                     else ("POSITIVE"%string, 1 # 2)) texts |}.

(** An embedding of one coordinate, the length of the text. *)
#[export] Instance encoder : Embedding.Encoder :=
  {| Embedding.model_encode := fun texts =>
       map (fun t => [inject_Z (Z.of_nat (String.length t))]) texts |}.

End Demo.

(** * Notions used in the statements *)

Section EscalationNotions.
Import Py Escalation.
Local Open Scope Q_scope.

(** The mean of the absolute values of the four first differences of five
    consecutive window entries, the quantity the specification names. *)
Definition mean_abs_delta (a b c d e : Q) : Q :=
  (Qabs (b - a) + Qabs (c - b) + Qabs (d - c) + Qabs (e - d)) / 4.

(** The absolute value of the mean of the same four differences, the quantity
    the code computes. *)
Definition abs_mean_delta (a b c d e : Q) : Q :=
  Qabs (((b - a) + (c - b) + (d - c) + (e - d)) / 4).

End EscalationNotions.

Section AnomalyNotions.
Import Py Anomaly.
Local Open Scope Q_scope.

(** [clamp(lo, hi, x)] *)
Definition clamp (lo hi x : Q) : Q := Qmax lo (Qmin hi x).

(** The detector after [n] calls of [detect_advanced] with volume 10 and no
    other signal. *)
Definition after_calls `{Numpy} `{Sklearn} (n : nat) : AdvancedAnomalyService :=
  Nat.iter n (fun self => snd (detect_advanced self 10 0 0)) anomaly_service.

End AnomalyNotions.

Section ClusterNotions.
Import Py Clustering.
Local Open Scope Q_scope.

(** The number of members of a label, as the claim counts them. *)
Definition member_count (labels : list Z) (label : Z) : Z :=
  Z.of_nat (length (filter (fun l => l = label) labels)).

(** The growth rate of the specification. *)
Definition growth_of (S P : Z) : Q :=
  inject_Z (S - P) / inject_Z (Z.max P 1) * 100.

(** What one summary says about its label, given the memory [prev0] the call
    started from. *)
Definition summarizes (labels : list Z) (prev0 : gmap string Z)
    (label : Z) (c : ClusterInfo) : Prop :=
  clusterId c = cluster_id_of label
  /\ size c = member_count labels label
  /\ growthRate c
     = growth_of (member_count labels label)
                 (default 0%Z (prev0 !! cluster_id_of label)).

End ClusterNotions.

Section KeywordNotions.
Import Clustering.

(** A string of at least four lower-case letters. *)
Definition lowercase_word (w : string) : Prop :=
  (4 <= String.length w)%nat
  /\ Forall (fun c => is_lower c = true) (list_ascii_of_string w).

(** How often [w] occurs in a stream of words. *)
Definition occurrences (w : string) (ws : list string) : nat :=
  length (filter (fun x => x = w) ws).

(** Where [w] occurs first in a stream of words (the length of the stream if
    nowhere). *)
Fixpoint first_index (w : string) (ws : list string) : nat :=
  match ws with
  | [] => 0
  | x :: ws' => if decide (x = w) then 0 else S (first_index w ws')
  end.

(** The first occurrence of [a] in the stream [ws] comes before that of [b]. *)
Definition earlier (ws : list string) (a b : string) : Prop :=
  first_index a ws < first_index b ws.

(** The dictionary built from the stream [ws]: one entry per distinct word,
    holding its number of occurrences, in the order of first occurrence. *)
Definition dict_inv (ws : list string) (d : list (string * nat)) : Prop :=
  NoDup d.*1
  /\ (forall k c, (k, c) ∈ d -> k ∈ ws /\ c = occurrences k ws)
  /\ (forall k, k ∈ ws -> k ∈ d.*1)
  /\ StronglySorted (earlier ws) d.*1.

(** [x] goes before [y] in the keyword ranking over the stream [ws]: a higher
    count, or the same count and an earlier first occurrence. *)
Definition precedes (ws : list string) (x y : string * nat) : Prop :=
  snd y < snd x \/ (snd x = snd y /\ earlier ws (fst x) (fst y)).

(** All the words the tokenizer finds in the texts of a cluster, in scan
    order. *)
Definition all_tokens (texts : list string) : list string :=
  concat (map findall_words texts).

End KeywordNotions.

Section RouterNotions.
Import Py Clustering Router.
Local Open Scope Q_scope.

(** The providers keep the number of items. *)
Definition providers_keep_length `{Models} `{Clusterer} : Prop :=
  (forall texts, length (encode texts) = length texts)
  /\ (forall texts, length (analyze texts) = length texts)
  /\ (forall e labels, fit_predict e = Some labels -> length labels = length e).

(** A post whose id is its text. *)
Definition demo_post (t : string) : PostInput := {| id := t; text := t |}.

(** Three batches, of 2, 3 and 6 posts. *)
Definition demo_batches : list (list PostInput) :=
  [ map demo_post ["fire downtown"; "all calm"];
    map demo_post ["smoke rising"; "smoke rising fast"; "smoke everywhere"];
    map demo_post ["one"; "two"; "three"; "four"; "five"; "six"] ]%string.

End RouterNotions.

Section AnomalyRunNotions.
Import Py Anomaly.
Local Open Scope Q_scope.

(** One call on the detector, as a client can make it. *)
Inductive Call :=
| CallDetect (volume : Z)
| CallDetectSimple (volume : Z)
| CallDetectAdvanced (volume : Z) (accel growth : Q)
| CallDetectBatch (volumes : list Z) (accels growths : option (list Q))
| CallReset.

(** The detector after one call, and after a sequence of calls. *)
Definition call_step `{Numpy} `{Sklearn} (self : AdvancedAnomalyService) (c : Call)
    : AdvancedAnomalyService :=
  match c with
  | CallDetect v => (detect self v).2
  | CallDetectSimple v => (detect_simple self v).2
  | CallDetectAdvanced v sa gr => (detect_advanced self v sa gr).2
  | CallDetectBatch vs sas grs => (detect_batch self vs sas grs).2
  | CallReset => reset self
  end.

Definition run_calls `{Numpy} `{Sklearn} (calls : list Call)
    (self : AdvancedAnomalyService) : AdvancedAnomalyService :=
  fold_left call_step calls self.

(** What every detector built by [new] satisfies: the three histories have
    one length, within the window size; the feature buffer is within the
    window size and holds vectors of three features; the sample threshold is
    10; and in multivariate mode the scaler and the forest exist. *)
Definition well_formed (self : AdvancedAnomalyService) : Prop :=
  min_samples_for_iforest self = 10%nat
  /\ length (sentiment_accel_history self) = length (volume_history self)
  /\ length (growth_rate_history self) = length (volume_history self)
  /\ (length (volume_history self) <= window_size self)%nat
  /\ (length (feature_buffer self) <= window_size self)%nat
  /\ Forall (fun f => length f = 3%nat) (feature_buffer self)
  /\ (use_fallback self = false -> scaler self = true /\ isolation_forest self = true).

(** Everything in the detector but the two stored statistics. *)
Definition frame (self : AdvancedAnomalyService) :=
  (window_size self, contamination self, min_samples_for_iforest self,
   volume_history self, sentiment_accel_history self, growth_rate_history self,
   scaler self, isolation_forest self, feature_buffer self, use_fallback self).

End AnomalyRunNotions.

Section EscalationRunNotions.
Import Py Clustering Escalation.
Local Open Scope Q_scope.

(** The compositor after one call of [compute_metrics] with the given
    sentiments, clusters and volume, and after a sequence of such calls. *)
Definition metrics_step (self : EscalationService)
    (call : list Q * list ClusterInfo * Z) : EscalationService :=
  (compute_metrics self call.1.1 call.1.2 call.2).2.

Definition run_metrics (calls : list (list Q * list ClusterInfo * Z))
    (self : EscalationService) : EscalationService :=
  fold_left metrics_step calls self.

End EscalationRunNotions.

Section KeywordCaseNotions.
Import Clustering.

(** [text.lower()] on a string. *)
Definition str_lower (text : string) : string :=
  string_of_list_ascii (lower (list_ascii_of_string text)).

End KeywordCaseNotions.

(** * Properties *)

(** ** Python primitives *)

Section PyFacts.
Import Py.
Local Open Scope Q_scope.

Lemma Qltb_lt (a b : Q) : Qltb a b = true <-> a < b.
Proof.
  unfold Qltb. rewrite Qlt_alt. destruct (Qcompare a b); split; congruence.
Qed.

Lemma Qltb_ge (a b : Q) : Qltb a b = false <-> b <= a.
Proof.
  split; intros H.
  - apply Qnot_lt_le. intros Hlt. apply Qltb_lt in Hlt. congruence.
  - destruct (Qltb a b) eqn:E; [|reflexivity].
    apply Qltb_lt in E. exfalso. exact (Qlt_not_le _ _ E H).
Qed.

Lemma deque_append_length {A} (maxlen : nat) (d : list A) (x : A) :
  (length (deque_append maxlen d x) <= maxlen)%nat.
Proof.
  unfold deque_append. rewrite length_drop, length_app. simpl. lia.
Qed.

Lemma deque_append_drop {A} (maxlen : nat) (d xs : list A) (x : A) :
  drop (length (deque_append maxlen d x ++ xs) - maxlen) (deque_append maxlen d x ++ xs)
  = drop (length (d ++ x :: xs) - maxlen) (d ++ x :: xs).
Proof.
  unfold deque_append.
  set (k := (length d + 1 - maxlen)%nat).
  assert (Hk : (k <= length (d ++ [x]))%nat)
    by (rewrite length_app; simpl; unfold k; lia).
  replace (drop k (d ++ [x]) ++ xs) with (drop k ((d ++ [x]) ++ xs))
    by (rewrite drop_app_le by exact Hk; reflexivity).
  rewrite drop_drop. rewrite <- app_assoc. simpl. f_equal.
  rewrite length_drop, !length_app. simpl.
  rewrite length_app in Hk. simpl in Hk. unfold k in *. lia.
Qed.

(** [extend] keeps the last [maxlen] items of the old content followed by the
    new items. *)
Lemma deque_extend_drop {A} (maxlen : nat) (xs d : list A) :
  (length d <= maxlen)%nat ->
  deque_extend maxlen d xs = drop (length (d ++ xs) - maxlen) (d ++ xs).
Proof.
  unfold deque_extend. revert d.
  induction xs as [|x xs IH]; intros d Hd; simpl.
  - rewrite app_nil_r.
    replace (length d - maxlen)%nat with 0%nat by lia. reflexivity.
  - rewrite IH by apply deque_append_length. apply deque_append_drop.
Qed.

(** With at least one new item the old content need not respect the bound. *)
Lemma deque_extend_cons_drop {A} (maxlen : nat) (x : A) (xs d : list A) :
  deque_extend maxlen d (x :: xs)
  = drop (length (d ++ x :: xs) - maxlen) (d ++ x :: xs).
Proof.
  change (deque_extend maxlen d (x :: xs))
    with (deque_extend maxlen (deque_append maxlen d x) xs).
  rewrite deque_extend_drop by apply deque_append_length.
  apply deque_append_drop.
Qed.

Lemma neg_index_app (pre suf : list Q) (i : nat) :
  (1 <= i <= length suf)%nat ->
  neg_index (pre ++ suf) i = neg_index suf i.
Proof.
  intros Hi. unfold neg_index. rewrite length_app.
  rewrite lookup_app_r by lia. do 2 f_equal. lia.
Qed.

End PyFacts.

(** ** Escalation metrics *)

Section EscalationFacts.
Import Py Escalation.
Local Open Scope Q_scope.

(** The state [compute_metrics] leaves is the one
    [compute_sentiment_acceleration] leaves. *)
Lemma compute_metrics_state self sentiments clusters volume :
  snd (compute_metrics self sentiments clusters volume)
  = snd (compute_sentiment_acceleration self sentiments).
Proof.
  unfold compute_metrics.
  destruct (compute_sentiment_acceleration self sentiments); reflexivity.
Qed.

Lemma compute_metrics_acceleration self sentiments clusters volume :
  sentimentAcceleration (fst (compute_metrics self sentiments clusters volume))
  = fst (compute_sentiment_acceleration self sentiments).
Proof.
  unfold compute_metrics.
  destruct (compute_sentiment_acceleration self sentiments); reflexivity.
Qed.

Lemma acceleration_state_long self sentiments :
  (2 <= length sentiments)%nat ->
  sentiment_history (snd (compute_sentiment_acceleration self sentiments))
  = deque_extend 20 (sentiment_history self) sentiments.
Proof.
  intros Hlen. unfold compute_sentiment_acceleration.
  destruct (Nat.ltb_spec (length sentiments) 2) as [Hlt|_]; [lia|].
  cbv zeta.
  destruct (5 <=? length _)%nat; [|reflexivity].
  destruct (map _ _); reflexivity.
Qed.

Lemma acceleration_short self sentiments :
  (length sentiments < 2)%nat ->
  compute_sentiment_acceleration self sentiments = (0, self).
Proof.
  intros Hlen. unfold compute_sentiment_acceleration.
  destruct (Nat.ltb_spec (length sentiments) 2) as [_|Hge]; [reflexivity|lia].
Qed.

End EscalationFacts.

Section EscalationClaims.
Import Py Escalation.
Local Open Scope Q_scope.

(** C3, as stated, fails twice.  With the window [0, 1, 0, 1, 0] the four
    differences cancel: the code answers 0 where the mean absolute difference
    gives 100.  And a call with a single sentiment answers 0 without looking at
    the window at all. *)
Lemma C3_counterexample :
  (let r := compute_metrics init [0; 1; 0; 1; 0] [] 5 in
   sentiment_history (snd r) = [0; 1; 0; 1; 0]
   /\ ~ sentimentAcceleration (fst r) == Qmin 100 (mean_abs_delta 0 1 0 1 0 * 200))
  /\
  (let self := {| sentiment_history := [0; 1; 0; 1; 0]; volume_history := [] |} in
   let r := compute_metrics self [1] [] 1 in
   deque_extend 20 (sentiment_history self) [1] = [0] ++ [1; 0; 1; 0; 1]
   /\ ~ sentimentAcceleration (fst r) == Qmin 100 (mean_abs_delta 1 0 1 0 1 * 200)).
Proof.
  split; cbv zeta; (split; [reflexivity|]); vm_compute; intros H; discriminate H.
Qed.

(** C3 (amended): for a call of [compute_metrics] with at least two
    sentiments after which the window ends with the five entries
    [a, b, c, d, e], the sentiment acceleration is the absolute value of the
    mean of the four first differences of these entries, times 200, capped at
    100. *)
Theorem C3_sentiment_acceleration_abs_of_mean :
  forall self sentiments clusters volume pre a b c d e,
    (2 <= length sentiments)%nat ->
    sentiment_history (snd (compute_metrics self sentiments clusters volume))
      = pre ++ [a; b; c; d; e] ->
    sentimentAcceleration (fst (compute_metrics self sentiments clusters volume))
      == Qmin 100 (abs_mean_delta a b c d e * 200).
Proof.
  intros self sentiments clusters volume pre a b c d e Hlen Hw.
  rewrite compute_metrics_state, acceleration_state_long in Hw by exact Hlen.
  rewrite compute_metrics_acceleration.
  unfold compute_sentiment_acceleration.
  destruct (Nat.ltb_spec (length sentiments) 2) as [Hlt|_]; [lia|].
  cbv zeta. rewrite Hw.
  assert (Hl : length (pre ++ [a; b; c; d; e]) = (length pre + 5)%nat)
    by (rewrite length_app; reflexivity).
  rewrite Hl.
  destruct (Nat.leb_spec 5 (length pre + 5)) as [_|Hbad]; [|lia].
  replace (Nat.min 5 (length pre + 5) - 1)%nat with 4%nat by lia.
  cbn [seq map fst].
  rewrite !neg_index_app by (simpl; lia).
  change (neg_index [a; b; c; d; e] 1) with e.
  change (neg_index [a; b; c; d; e] (1 + 1)) with d.
  change (neg_index [a; b; c; d; e] 2) with d.
  change (neg_index [a; b; c; d; e] (2 + 1)) with c.
  change (neg_index [a; b; c; d; e] 3) with c.
  change (neg_index [a; b; c; d; e] (3 + 1)) with b.
  change (neg_index [a; b; c; d; e] 4) with b.
  change (neg_index [a; b; c; d; e] (4 + 1)) with a.
  unfold abs_mean_delta, np_mean, Qsum. cbn [foldr length].
  change (inject_Z (Z.of_nat 4)) with 4.
  apply Q.min_compat; [reflexivity|].
  apply Qmult_comp; [|reflexivity].
  apply Qabs_wd. field.
Qed.

Lemma C3_witness :
  sentimentAcceleration (fst (compute_metrics init [0; 1 # 2; 0; 0; 1 # 10] [] 5))
    == Qmin 100 (abs_mean_delta 0 (1 # 2) 0 0 (1 # 10) * 200).
Proof.
  apply (C3_sentiment_acceleration_abs_of_mean init [0; 1 # 2; 0; 0; 1 # 10] [] 5 []).
  - simpl. lia.
  - reflexivity.
Defined.

(** C6, as stated, fails: a call with one sentiment leaves the window as it
    was instead of extending it by that sentiment. *)
Lemma C6_counterexample :
  let r := compute_metrics init [1 # 2] [] 1 in
  sentiment_history (snd r) = []
  /\ sentiment_history (snd r) <> deque_extend 20 (sentiment_history init) [1 # 2].
Proof. cbv zeta. split; [reflexivity|]. vm_compute. discriminate. Qed.

(** C6 (amended): a call of [compute_metrics] with at least two sentiments
    leaves as window the last 20 entries of the old window followed by the
    input; a call with fewer than two sentiments reports acceleration 0 and
    leaves the whole state, the window included, unchanged. *)
Theorem C6_window_extended_from_two_sentiments :
  forall self sentiments clusters volume,
    let r := compute_metrics self sentiments clusters volume in
    ((2 <= length sentiments)%nat ->
       sentiment_history (snd r)
       = drop (length (sentiment_history self ++ sentiments) - 20)
              (sentiment_history self ++ sentiments))
    /\ ((length sentiments < 2)%nat ->
          snd r = self /\ sentimentAcceleration (fst r) = 0).
Proof.
  intros self sentiments clusters volume r. subst r. split; intros Hlen.
  - rewrite compute_metrics_state, acceleration_state_long by exact Hlen.
    destruct sentiments as [|x xs]; [simpl in Hlen; lia|].
    apply deque_extend_cons_drop.
  - rewrite compute_metrics_state, compute_metrics_acceleration.
    rewrite acceleration_short by exact Hlen. split; reflexivity.
Qed.

Lemma C6_witness :
  sentiment_history (snd (compute_metrics init [1 # 2; 1 # 3] [] 2)) = [1 # 2; 1 # 3]
  /\ snd (compute_metrics init [1 # 2] [] 1) = init.
Proof.
  split.
  - rewrite (proj1 (C6_window_extended_from_two_sentiments init [1 # 2; 1 # 3] [] 2))
      by (simpl; lia).
    reflexivity.
  - apply (proj2 (C6_window_extended_from_two_sentiments init [1 # 2] [] 1)).
    simpl. lia.
Defined.

(** C9: for a non-empty cluster list and a volume other than 0, the narrative
    spread speed is the sum, not clamped, of [min(50, 10 * number of
    clusters)], [min(30, 30 * total size / volume)] and [min(20, 5 * number of
    clusters with growth rate above 50)]. *)
Theorem C9_narrative_spread_speed_sum :
  forall clusters volume,
    clusters <> [] -> volume <> 0%Z ->
    compute_narrative_spread_speed clusters volume
    == Qmin 50 (inject_Z (Z.of_nat (length clusters)) * 10)
       + Qmin 30 (inject_Z (foldr Z.add 0%Z (map Clustering.size clusters))
                  / inject_Z volume * 30)
       + Qmin 20 (inject_Z (Z.of_nat
                    (length (filter (fun c => 50 < Clustering.growthRate c) clusters))) * 5).
Proof.
  intros clusters volume Hne Hv.
  unfold compute_narrative_spread_speed.
  destruct clusters as [|c0 cs] eqn:Ecl; [congruence|]. rewrite <- Ecl. clear Ecl Hne.
  destruct (Z.eqb_spec volume 0) as [->|_]; [congruence|].
  cbv zeta.
  assert (Hviral : forall l : list Clustering.ClusterInfo,
    foldr Z.add 0%Z
      (map (fun _ => 1%Z) (filter (fun c => Qltb 50 (Clustering.growthRate c) = true) l))
    = Z.of_nat (length (filter (fun c => 50 < Clustering.growthRate c) l))).
  { induction l as [|c l IH]; [reflexivity|].
    rewrite !filter_cons.
    destruct (decide (Qltb 50 (Clustering.growthRate c) = true)) as [Ht|Hf];
      destruct (decide (50 < Clustering.growthRate c)) as [Hlt|Hnlt].
    - cbn [map foldr length]. rewrite IH. lia.
    - apply Qltb_lt in Ht. contradiction.
    - apply Qltb_lt in Hlt. contradiction.
    - exact IH. }
  rewrite Hviral.
  rewrite !inject_Z_mult. reflexivity.
Qed.

(** The scenario of the claim: one cluster of growth rate 80 and size 10 at
    volume 10 gives 10 + 30 + 5 = 45. *)
Lemma C9_witness :
  let c := {| Clustering.clusterId := "cluster-0"; Clustering.keywords := [];
              Clustering.size := 10; Clustering.avgSentiment := 0;
              Clustering.growthRate := 80; Clustering.volatilityIndex := 0 |} in
  compute_narrative_spread_speed [c] 10 == 45.
Proof.
  intros c.
  rewrite (C9_narrative_spread_speed_sum [c] 10) by discriminate.
  vm_compute. reflexivity.
Defined.

End EscalationClaims.

(** ** The anomaly detector *)

Section AnomalyFacts.
Import Py Anomaly.
Local Open Scope Q_scope.
Context `{Numpy} `{Sklearn}.

Lemma round_half_even_wd (x y : Q) : x == y -> round_half_even x = round_half_even y.
Proof.
  intros E. unfold round_half_even.
  rewrite (Qfloor_comp _ _ E).
  assert (Ec : Qcompare (x - inject_Z (Qfloor y)) (1 # 2)
               = Qcompare (y - inject_Z (Qfloor y)) (1 # 2))
    by (apply Qcompare_comp; [rewrite E|]; reflexivity).
  rewrite Ec. reflexivity.
Qed.

Lemma round2_wd (x y : Q) : x == y -> round2 x = round2 y.
Proof.
  intros E. unfold round2. do 2 f_equal.
  apply round_half_even_wd. rewrite E. reflexivity.
Qed.

(** [abs(x / d)] is [abs(x) / d] for a positive [d]. *)
Lemma Qabs_div_pos (x d : Q) : 0 < d -> Qabs (x / d) == Qabs x / d.
Proof.
  intros Hd. unfold Qdiv. rewrite Qabs_Qmult.
  apply Qmult_comp; [reflexivity|].
  apply Qabs_pos. apply Qlt_le_weak. apply Qinv_lt_0_compat. exact Hd.
Qed.

(** Capping at 100 and flooring at 0 commute. *)
Lemma clamp_order (x : Q) : Qmin 100 (Qmax 0 x) == Qmax 0 (Qmin 100 x).
Proof.
  destruct (Qlt_le_dec 0 x) as [H0x|Hx0]; destruct (Qlt_le_dec 100 x) as [H100|Hx100].
  - rewrite (Q.max_r 0 x) by (apply Qlt_le_weak; exact H0x).
    rewrite (Q.min_l 100 x) by (apply Qlt_le_weak; exact H100).
    rewrite Q.max_r by discriminate. reflexivity.
  - rewrite (Q.max_r 0 x) by (apply Qlt_le_weak; exact H0x).
    rewrite (Q.min_r 100 x) by exact Hx100.
    rewrite (Q.max_r 0 x) by (apply Qlt_le_weak; exact H0x). reflexivity.
  - exfalso. apply (Qlt_irrefl 100).
    apply Qlt_le_trans with x; [exact H100|].
    apply Qle_trans with 0; [exact Hx0|discriminate].
  - rewrite (Q.max_l 0 x) by exact Hx0.
    rewrite (Q.min_r 100 x) by exact Hx100.
    rewrite (Q.max_l 0 x) by exact Hx0.
    apply Q.min_r. discriminate.
Qed.

Lemma detect_keeps_volume_history self v :
  volume_history (snd (detect self v)) = volume_history self.
Proof.
  unfold detect, _detect_zscore.
  destruct (length (volume_history self) <? 5)%nat; [reflexivity|].
  cbv zeta. destruct (Qltb _ _); reflexivity.
Qed.

Lemma detect_empty_history self v :
  volume_history self = [] -> detect self v = (0, self).
Proof.
  intros E. unfold detect, _detect_zscore. rewrite E. reflexivity.
Qed.

Lemma new_volume_history w c : volume_history (new w c) = [].
Proof.
  unfold new, construct_models. cbn.
  destruct SKLEARN_AVAILABLE, scaler_constructs, iforest_constructs; reflexivity.
Qed.

End AnomalyFacts.

Section AnomalyClaims.
Import Py Anomaly.
Local Open Scope Q_scope.

(** C8: the z-score path answers exactly 0 while the volume window holds
    fewer than 5 samples; otherwise, [m] and [d] being the mean and the
    population standard deviation of the window, it answers exactly 0 when
    [d < 0.1] and [clamp(0, 100, |volume - m| / d / 3 * 100)] rounded to 2
    decimals when not. *)
Theorem C8_zscore_fallback :
  forall (np : Numpy) self volume,
    let window := map inject_Z (volume_history self) in
    let m := np_mean window in
    let d := np_std window in
    ((length (volume_history self) < 5)%nat -> fst (_detect_zscore self volume) = 0)
    /\ ((5 <= length (volume_history self))%nat -> d < 1 # 10 ->
          fst (_detect_zscore self volume) = 0)
    /\ ((5 <= length (volume_history self))%nat -> ~ d < 1 # 10 ->
          fst (_detect_zscore self volume)
          = round2 (clamp 0 100 (Qabs (inject_Z volume - m) / d / 3 * 100))).
Proof.
  intros np self volume window m d. subst window m d.
  unfold _detect_zscore.
  destruct (Nat.ltb_spec (length (volume_history self)) 5) as [Hlt|Hge].
  - repeat split; intros; solve [reflexivity | lia].
  - cbv zeta.
    destruct (Qltb (np_std (map inject_Z (volume_history self))) (1 # 10)) eqn:E.
    + apply Qltb_lt in E.
      repeat split; intros; solve [reflexivity | lia | contradiction].
    + apply Qltb_ge in E.
      split; [intros; lia|].
      split; [intros _ Hd; exfalso; exact (Qlt_not_le _ _ Hd E)|].
      intros _ _. cbn [fst]. apply round2_wd.
      unfold clamp. rewrite clamp_order.
      assert (Hd : 0 < np_std (map inject_Z (volume_history self)))
        by (apply Qlt_le_trans with (1 # 10); [reflexivity|exact E]).
      rewrite (Qabs_div_pos _ _ Hd). reflexivity.
Qed.

(** The scenarios of the specification: a window of five 10s has deviation 0,
    so volume 10 scores 0; a window of mean 100 and deviation 10 scores volume
    145 at 100; four samples are too few. *)
Lemma C8_witness :
  let st (w : list Z) :=
    set_histories (@new Demo.sklearn 50 (1 # 10)) w [] [] in
  fst (@_detect_zscore Demo.numpy (st [10; 10; 10; 10]%Z) 99) = 0
  /\ fst (@_detect_zscore Demo.numpy (st [10; 10; 10; 10; 10]%Z) 10) = 0
  /\ fst (@_detect_zscore Demo.numpy (st [90; 110; 90; 110; 90; 110]%Z) 145) == 100.
Proof.
  intros st. split; [|split].
  - apply (proj1 (C8_zscore_fallback Demo.numpy (st [10; 10; 10; 10]%Z) 99)).
    simpl. lia.
  - apply (proj1 (proj2 (C8_zscore_fallback Demo.numpy (st [10; 10; 10; 10; 10]%Z) 10))).
    + simpl. lia.
    + vm_compute. reflexivity.
  - rewrite (proj2 (proj2 (C8_zscore_fallback Demo.numpy
                             (st [90; 110; 90; 110; 90; 110]%Z) 145))).
    + vm_compute. reflexivity.
    + simpl. lia.
    + vm_compute. discriminate.
Defined.

End AnomalyClaims.

Section AnomalyModeClaims.
Import Py Anomaly.
Local Open Scope Q_scope.

(** C4, as stated, fails.  With scikit-learn available, a forest that raises
    when fitted sends the detector to the fallback on its 19th observation;
    [reset] then empties the windows but leaves the detector in the
    fallback. *)
Lemma C4_counterexample :
  let self := @after_calls Demo.numpy Demo.sklearn_failing 19 in
  @SKLEARN_AVAILABLE Demo.sklearn_failing = true
  /\ use_fallback self = true
  /\ volume_history (@reset Demo.sklearn_failing self) = []
  /\ use_fallback (@reset Demo.sklearn_failing self) = true.
Proof. vm_compute. repeat split; reflexivity. Qed.

(** C4 (amended): after [reset] all windows and buffers are empty and the
    stored statistics are mean 0 and deviation 1; a detector that had fallen
    back stays in the fallback, whether or not the multivariate capability is
    available; a detector in multivariate mode stays in it when the capability
    is available and the scaler and the forest are rebuilt without error. *)
Theorem C4_reset_clears_and_keeps_mode :
  forall (sk : Sklearn) self,
    let self' := reset self in
    volume_history self' = []
    /\ sentiment_accel_history self' = []
    /\ growth_rate_history self' = []
    /\ feature_buffer self' = []
    /\ mean_volume self' = 0
    /\ std_volume self' = 1
    /\ (use_fallback self = true -> use_fallback self' = true)
    /\ (use_fallback self = false -> SKLEARN_AVAILABLE = true ->
        scaler_constructs = true -> iforest_constructs = true ->
        use_fallback self' = false
        /\ scaler self' = true /\ isolation_forest self' = true).
Proof.
  intros sk self self'. subst self'.
  unfold reset, construct_models. cbn.
  destruct (use_fallback self) eqn:Ef, SKLEARN_AVAILABLE, scaler_constructs,
    iforest_constructs; cbn; rewrite ?Ef; repeat split; intros; congruence.
Qed.

Lemma C4_witness :
  use_fallback (@reset Demo.sklearn_failing
                  (@after_calls Demo.numpy Demo.sklearn_failing 19)) = true
  /\ use_fallback (@reset Demo.sklearn (@after_calls Demo.numpy Demo.sklearn 19)) = false.
Proof.
  split.
  - destruct (C4_reset_clears_and_keeps_mode Demo.sklearn_failing
                (@after_calls Demo.numpy Demo.sklearn_failing 19))
      as (_ & _ & _ & _ & _ & _ & Hkeep & _).
    apply Hkeep. vm_compute. reflexivity.
  - destruct (C4_reset_clears_and_keeps_mode Demo.sklearn
                (@after_calls Demo.numpy Demo.sklearn 19))
      as (_ & _ & _ & _ & _ & _ & _ & Hstay).
    apply Hstay; vm_compute; reflexivity.
Defined.

(** C5, as stated, fails.  On the 10th observation the detector is in
    multivariate mode, the window holds 10 observations and nothing raises
    (the forest would score the point -1/2, that is 100 on the scale), yet the
    feature buffer holds 1 vector only and the answer is the z-score, 0 for a
    constant volume. *)
Lemma C5_counterexample :
  let self := @after_calls Demo.numpy Demo.sklearn 9 in
  let self1 := record_observation self 10 0 0 in
  let self2 := push_features self1 (_extract_features 10 0 0) in
  use_fallback self = false
  /\ length (volume_history self1) = 10%nat
  /\ @raw_outlier_score Demo.sklearn self2 = Some (- (1 # 2))
  /\ fst (@detect_advanced Demo.numpy Demo.sklearn self 10 0 0) = 0
  /\ ~ 0 == round2 (clamp 0 100 (((1 # 2) - - (1 # 2)) * 200)).
Proof.
  vm_compute. repeat split; try reflexivity. discriminate.
Qed.

(** C5 (amended): for a call of [detect_advanced] in multivariate mode with
    [min_samples = 10], if after recording the observation the window holds at
    least 10 observations and the feature buffer, which fills only from the
    10th observation on, holds at least 10 vectors with the current one, and if
    the multivariate path raises nothing and scores the current standardized
    vector [s], then the answer is [clamp(0, 100, (0.5 - s) * 200)] rounded to
    2 decimals. *)
Theorem C5_multivariate_score :
  forall (np : Numpy) (sk : Sklearn) self volume accel growth s,
    let self1 := record_observation self volume accel growth in
    let self2 := push_features self1 (_extract_features volume accel growth) in
    use_fallback self = false ->
    min_samples_for_iforest self = 10%nat ->
    (10 <= length (volume_history self1))%nat ->
    (10 <= length (feature_buffer self2))%nat ->
    raw_outlier_score self2 = Some s ->
    fst (detect_advanced self volume accel growth)
    = round2 (clamp 0 100 (((1 # 2) - s) * 200)).
Proof.
  intros np sk self volume accel growth s self1 self2 Hmode Hmin Hwin Hbuf Hs.
  unfold detect_advanced. fold self1. fold self2.
  assert (E1 : use_fallback self1 = false) by exact Hmode.
  assert (E2 : min_samples_for_iforest self1 = 10%nat) by exact Hmin.
  assert (E3 : min_samples_for_iforest self2 = 10%nat) by exact Hmin.
  rewrite E1, E2, E3. cbn [negb andb].
  destruct (Nat.leb_spec 10 (length (volume_history self1))) as [_|Hbad]; [|lia].
  destruct (Nat.leb_spec 10 (length (feature_buffer self2))) as [_|Hbad]; [|lia].
  rewrite Hs. reflexivity.
Qed.

(** The 19th observation is the first one the forest scores. *)
Lemma C5_witness :
  fst (@detect_advanced Demo.numpy Demo.sklearn
         (@after_calls Demo.numpy Demo.sklearn 18) 10 0 0) == 100.
Proof.
  rewrite (C5_multivariate_score Demo.numpy Demo.sklearn
             (@after_calls Demo.numpy Demo.sklearn 18) 10 0 0 (- (1 # 2))).
  - vm_compute. reflexivity.
  - vm_compute. reflexivity.
  - vm_compute. reflexivity.
  - vm_compute. lia.
  - vm_compute. lia.
  - vm_compute. reflexivity.
Defined.

End AnomalyModeClaims.

(** ** Cluster summaries and the growth memory *)

Section ClusterFacts.
Import Py Clustering.
Local Open Scope Q_scope.
Context `{Numpy}.

Lemma np_where_eq_length labels label i :
  Z.of_nat (length (np_where_eq labels label i)) = member_count labels label.
Proof.
  unfold member_count. revert i.
  induction labels as [|l ls IH]; intros i; [reflexivity|].
  cbn [np_where_eq]. rewrite filter_cons.
  destruct (Z.eqb_spec l label) as [->|Hne].
  - rewrite decide_True by reflexivity. cbn [length].
    specialize (IH (S i)). lia.
  - rewrite decide_False by exact Hne. apply IH.
Qed.

Lemma np_where_eq_bound labels label i :
  Forall (fun j => (j < i + length labels)%nat) (np_where_eq labels label i).
Proof.
  revert i. induction labels as [|l ls IH]; intros i; [constructor|].
  cbn [np_where_eq length].
  assert (Hrest : Forall (fun j => (j < i + S (length ls))%nat)
                    (np_where_eq ls label (S i))).
  { eapply Forall_impl; [apply IH|]. intros j Hj. cbn beta in *. lia. }
  destruct (l =? label)%Z; [constructor; [lia|]|]; exact Hrest.
Qed.

(** Indexing by the positions of a label succeeds on a sequence as long as
    the labels. *)
Lemma members_in_range {A} (xs : list A) labels label :
  (length labels <= length xs)%nat ->
  is_Some (mapM (fun i => xs !! i) (np_where_eq labels label 0)).
Proof.
  intros Hlen. apply mapM_is_Some.
  eapply Forall_impl; [apply np_where_eq_bound|].
  intros j Hj. cbn beta in *. apply lookup_lt_is_Some. lia.
Qed.

Lemma summarize_label_inv prev labels texts sentiments label c prev' :
  summarize_label prev labels texts sentiments label = Some (c, prev') ->
  clusterId c = cluster_id_of label
  /\ size c = member_count labels label
  /\ growthRate c
     = growth_of (member_count labels label)
                 (default 0%Z (prev !! cluster_id_of label))
  /\ prev' = <[cluster_id_of label := member_count labels label]> prev.
Proof.
  unfold summarize_label. intros Hs.
  destruct (mapM (fun i => texts !! i) (np_where_eq labels label 0)) as [ct|];
    [|discriminate].
  destruct (mapM (fun i => sentiments !! i) (np_where_eq labels label 0)) as [css|];
    [|discriminate].
  cbn in Hs. rewrite np_where_eq_length in Hs.
  injection Hs as <- <-. repeat split; reflexivity.
Qed.

Lemma summarize_label_is_Some prev labels texts sentiments label :
  (length labels <= length texts)%nat ->
  (length labels <= length sentiments)%nat ->
  is_Some (summarize_label prev labels texts sentiments label).
Proof.
  intros Ht Hs. unfold summarize_label.
  destruct (members_in_range texts labels label Ht) as [ct ->].
  destruct (members_in_range sentiments labels label Hs) as [css ->].
  cbn. eexists. reflexivity.
Qed.

Lemma cluster_id_of_inj (l1 l2 : Z) : cluster_id_of l1 = cluster_id_of l2 -> l1 = l2.
Proof.
  unfold cluster_id_of. intros E.
  apply (inj (String.app "cluster-")) in E.
  apply (inj pretty) in E. exact E.
Qed.

(** The loop of [get_cluster_info] over distinct labels [todo]: it ends
    normally, adds one summary per label other than -1, in order, computed
    against the memory of the start, stores the size of each, and touches no
    other key. *)
Lemma cluster_loop_spec labels texts sentiments prev0 :
  (length labels <= length texts)%nat ->
  (length labels <= length sentiments)%nat ->
  forall todo prev acc,
    NoDup todo ->
    (forall l, l ∈ todo -> prev !! cluster_id_of l = prev0 !! cluster_id_of l) ->
    exists new prev',
      cluster_loop prev labels texts sentiments todo acc = (Some (acc ++ new), prev')
      /\ Forall2 (summarizes labels prev0) (filter (fun l => l <> (-1)%Z) todo) new
      /\ (forall l, l ∈ todo -> l <> (-1)%Z ->
            prev' !! cluster_id_of l = Some (member_count labels l))
      /\ (forall k, (forall l, l ∈ todo -> l <> (-1)%Z -> k <> cluster_id_of l) ->
            prev' !! k = prev !! k).
Proof.
  intros Ht Hs todo.
  induction todo as [|l rest IH]; intros prev acc Hnd Hprev.
  - exists [], prev. cbn. rewrite app_nil_r.
    split; [reflexivity|]. split; [constructor|].
    split; [intros l Hl; inversion Hl|reflexivity].
  - apply NoDup_cons in Hnd as [Hl Hnd].
    cbn [cluster_loop]. rewrite filter_cons.
    destruct (Z.eqb_spec l (-1)) as [->|Hne].
    + rewrite decide_False by (intros E; apply E; reflexivity).
      destruct (IH prev acc Hnd) as (new & prev' & Hrun & Hall & Hmem & Hframe).
      { intros l' Hl'. apply Hprev. right. exact Hl'. }
      exists new, prev'. split; [exact Hrun|]. split; [exact Hall|]. split.
      * intros l' Hl' Hl'ne. apply elem_of_cons in Hl' as [->|Hl']; [congruence|].
        apply Hmem; assumption.
      * intros k Hk. apply Hframe. intros l' Hl'. apply Hk. right. exact Hl'.
    + rewrite decide_True by exact Hne.
      destruct (summarize_label_is_Some prev labels texts sentiments l Ht Hs)
        as [[c prev1] Hsum].
      rewrite Hsum.
      destruct (summarize_label_inv _ _ _ _ _ _ _ Hsum) as (Hid & Hsize & Hgrowth & ->).
      destruct (IH (<[cluster_id_of l := member_count labels l]> prev) (acc ++ [c]) Hnd)
        as (new & prev' & Hrun & Hall & Hmem & Hframe).
      { intros l' Hl'. rewrite lookup_insert_ne.
        - apply Hprev. right. exact Hl'.
        - intros E. apply cluster_id_of_inj in E. subst l'. contradiction. }
      exists (c :: new), prev'.
      split; [rewrite Hrun, <- app_assoc; reflexivity|].
      split; [|split].
      * constructor; [|exact Hall].
        repeat split; [exact Hid|exact Hsize|].
        rewrite Hgrowth. rewrite (Hprev l) by (left; reflexivity). reflexivity.
      * intros l' Hl' Hl'ne. apply elem_of_cons in Hl' as [->|Hl'].
        -- rewrite Hframe; [apply lookup_insert_eq|].
           intros l' Hl' _ E. apply cluster_id_of_inj in E. subst l'. contradiction.
        -- apply Hmem; assumption.
      * intros k Hk. rewrite Hframe.
        -- apply lookup_insert_ne. intros E. apply (Hk l); [left; reflexivity|exact Hne|].
           symmetry. exact E.
        -- intros l' Hl'. apply Hk. right. exact Hl'.
Qed.

End ClusterFacts.

Section ClusterClaims.
Import Py Clustering.
Local Open Scope Q_scope.

(** C7: [get_cluster_info], on sequences of equal length, summarizes exactly
    the labels other than -1; a summary with [S] members whose id held [P] in
    the memory before the call (0 for an id never seen) reports the growth
    rate [(S - P) / max(P, 1) * 100], which is [S * 100] for an id never seen,
    and after the call the memory holds [S] for that id. *)
Theorem C7_growth_rate_and_memory :
  forall (np : Numpy) (ps : PySet) self labels texts sentiments,
    length texts = length labels ->
    length sentiments = length labels ->
    exists clusters self',
      get_cluster_info self labels texts sentiments = (Some clusters, self')
      /\ (forall label, label ∈ labels -> label <> (-1)%Z ->
            exists c, c ∈ clusters /\ clusterId c = cluster_id_of label)
      /\ (forall c, c ∈ clusters ->
            exists label,
              label ∈ labels /\ label <> (-1)%Z
              /\ clusterId c = cluster_id_of label
              /\ size c = member_count labels label
              /\ growthRate c
                 == inject_Z (size c - default 0%Z (previous_sizes self !! clusterId c))
                    / inject_Z (Z.max (default 0%Z (previous_sizes self !! clusterId c)) 1)
                    * 100
              /\ (previous_sizes self !! clusterId c = None ->
                    growthRate c == inject_Z (size c) * 100)
              /\ previous_sizes self' !! clusterId c = Some (size c)).
Proof.
  intros np ps self labels texts sentiments Ht Hs.
  unfold get_cluster_info.
  destruct (cluster_loop_spec labels texts sentiments (previous_sizes self)
              ltac:(lia) ltac:(lia) (set_iter labels) (previous_sizes self) []
              (set_iter_NoDup labels) (fun _ _ => eq_refl))
    as (new & prev' & Hrun & Hall & Hmem & _).
  rewrite Hrun. cbn [app].
  exists new, {| previous_sizes := prev' |}.
  split; [reflexivity|]. split.
  - intros label Hin Hne.
    assert (Hf : label ∈ filter (fun l => l <> (-1)%Z) (set_iter labels)).
    { apply list_elem_of_filter. split; [exact Hne|]. apply set_iter_elem. exact Hin. }
    apply list_elem_of_lookup in Hf as [i Hi].
    destruct (Forall2_lookup_l _ _ _ _ _ Hall Hi) as (c & Hc & Hid & _).
    exists c. split; [|exact Hid].
    apply list_elem_of_lookup. exists i. exact Hc.
  - intros c Hc.
    apply list_elem_of_lookup in Hc as [i Hi].
    destruct (Forall2_lookup_r _ _ _ _ _ Hall Hi) as (label & Hl & Hid & Hsize & Hgrowth).
    assert (Hin : label ∈ filter (fun l => l <> (-1)%Z) (set_iter labels))
      by (apply list_elem_of_lookup; exists i; exact Hl).
    apply list_elem_of_filter in Hin as [Hne Hin].
    exists label. split; [apply set_iter_elem; exact Hin|].
    split; [exact Hne|]. split; [exact Hid|]. split; [exact Hsize|].
    cbn [previous_sizes]. rewrite Hgrowth, Hid, Hsize. unfold growth_of.
    split; [reflexivity|]. split.
    + intros ->. cbn [default]. change (Z.max 0 1) with 1%Z.
      rewrite Z.sub_0_r. field.
    + apply Hmem; assumption.
Qed.

End ClusterClaims.

Lemma C7_witness :
  exists clusters self',
    @Clustering.get_cluster_info Demo.numpy Demo.pyset
      {| Clustering.previous_sizes := {[ "cluster-0"%string := 4%Z ]} |}
      [0; 0; 1; -1; 0; 1; 0; 0]%Z
      ["a"; "b"; "c"; "d"; "e"; "f"; "g"; "h"]%string
      [0; 0; 0; 0; 0; 0; 0; 0]%Q
    = (Some clusters, self').
Proof.
  destruct (C7_growth_rate_and_memory Demo.numpy Demo.pyset
              {| Clustering.previous_sizes := {[ "cluster-0"%string := 4%Z ]} |}
              [0; 0; 1; -1; 0; 1; 0; 0]%Z
              ["a"; "b"; "c"; "d"; "e"; "f"; "g"; "h"]%string
              [0; 0; 0; 0; 0; 0; 0; 0]%Q eq_refl eq_refl)
    as (clusters & self' & Hrun & _).
  exists clusters, self'. exact Hrun.
Defined.

(** ** Keyword extraction *)

Section KeywordFacts.
Import Clustering.

Lemma lower_char_not_upper (c : ascii) : is_upper (lower_char c) = false.
Proof. destruct c as [[] [] [] [] [] [] [] []]; reflexivity. Qed.

Lemma letter_not_upper_is_lower (c : ascii) :
  is_letter c = true -> is_upper c = false -> is_lower c = true.
Proof. unfold is_letter. intros Hl Hu. rewrite Hu in Hl. exact Hl. Qed.

Lemma string_of_list_ascii_length (l : list ascii) :
  String.length (string_of_list_ascii l) = length l.
Proof. induction l as [|c l IH]; [reflexivity|]. cbn. rewrite IH. reflexivity. Qed.

Lemma span_letters_spec (s : list ascii) :
  Forall (fun c => is_letter c = true) (span_letters s).1
  /\ s = (span_letters s).1 ++ (span_letters s).2.
Proof.
  induction s as [|c s [IH1 IH2]]; [split; [constructor|reflexivity]|].
  cbn [span_letters]. destruct (is_letter c) eqn:E.
  - destruct (span_letters s) as [run rest]. cbn in *. split.
    + constructor; assumption.
    + rewrite <- IH2. reflexivity.
  - split; [constructor|reflexivity].
Qed.

(** A successful attempt yields at least four letters taken from the text. *)
Lemma match_here_spec prev s tok :
  match_here prev s = Some tok ->
  (4 <= length tok)%nat
  /\ Forall (fun c => is_letter c = true /\ c ∈ s) tok.
Proof.
  unfold match_here. intros Hm.
  destruct (span_letters_spec s) as [Hlet Happ].
  destruct (span_letters s) as [run rest]. cbn in Hlet, Happ.
  destruct (word_boundary prev (head s) && (4 <=? length run)%nat
            && word_boundary (last run) (head rest)) eqn:E; [|discriminate].
  injection Hm as <-.
  apply andb_prop in E as [E _]. apply andb_prop in E as [_ E].
  apply Nat.leb_le in E. split; [exact E|].
  apply Forall_forall. intros c Hc. split.
  - rewrite Forall_forall in Hlet. apply Hlet. exact Hc.
  - rewrite Happ. apply elem_of_app. left. exact Hc.
Qed.

Lemma findall_from_spec s : forall prev skip tok,
  tok ∈ findall_from prev skip s ->
  (4 <= length tok)%nat
  /\ Forall (fun c => is_letter c = true /\ c ∈ s) tok.
Proof.
  induction s as [|c s IH]; intros prev skip tok Hin; [inversion Hin|].
  assert (Hweak : forall t, (4 <= length t)%nat
                    /\ Forall (fun c0 => is_letter c0 = true /\ c0 ∈ s) t ->
                  (4 <= length t)%nat
                    /\ Forall (fun c0 => is_letter c0 = true /\ c0 ∈ c :: s) t).
  { intros t [H4 Hall]. split; [exact H4|].
    eapply Forall_impl; [exact Hall|]. intros x [Hx Hxs].
    split; [exact Hx|]. right. exact Hxs. }
  cbn [findall_from] in Hin. destruct skip as [|k].
  - destruct (match_here prev (c :: s)) as [t|] eqn:Em.
    + apply elem_of_cons in Hin as [->|Hin].
      * eapply match_here_spec. exact Em.
      * apply Hweak. eapply IH. exact Hin.
    + apply Hweak. eapply IH. exact Hin.
  - apply Hweak. eapply IH. exact Hin.
Qed.

Lemma findall_words_spec text w :
  w ∈ findall_words text -> lowercase_word w.
Proof.
  unfold findall_words. intros Hin.
  apply list_elem_of_fmap in Hin as (tok & -> & Htok).
  apply findall_from_spec in Htok as [H4 Hall].
  split.
  - rewrite string_of_list_ascii_length. exact H4.
  - rewrite list_ascii_of_string_of_list_ascii.
    eapply Forall_impl; [exact Hall|]. intros c [Hl Hc].
    apply letter_not_upper_is_lower; [exact Hl|].
    unfold lower in Hc. apply list_elem_of_fmap in Hc as (c0 & -> & _).
    apply lower_char_not_upper.
Qed.

Lemma counted_words_spec text w :
  w ∈ counted_words text -> (w ∉ stop_words) /\ lowercase_word w.
Proof.
  unfold counted_words. intros Hin.
  apply list_elem_of_filter in Hin as [Hstop Hin].
  split; [exact Hstop|]. eapply findall_words_spec. exact Hin.
Qed.

End KeywordFacts.

(** ** The frequency dictionary *)

Section DictFacts.
Import Clustering.

Lemma first_index_lt w ws : w ∈ ws -> first_index w ws < length ws.
Proof.
  induction ws as [|x ws IH]; intros Hin; [inversion Hin|].
  cbn. destruct (decide (x = w)) as [->|Hne]; [lia|].
  apply elem_of_cons in Hin as [->|Hin]; [congruence|].
  specialize (IH Hin). lia.
Qed.

Lemma first_index_app w ws ws' :
  first_index w (ws ++ ws')
  = if decide (w ∈ ws) then first_index w ws else length ws + first_index w ws'.
Proof.
  induction ws as [|x ws IH]; [reflexivity|].
  cbn. destruct (decide (x = w)) as [->|Hne].
  - rewrite decide_True by (left; reflexivity). reflexivity.
  - rewrite IH. destruct (decide (w ∈ ws)) as [Hin|Hnin].
    + rewrite decide_True by (right; exact Hin). reflexivity.
    + rewrite decide_False; [reflexivity|].
      intros Hin. apply elem_of_cons in Hin as [->|Hin]; [congruence|contradiction].
Qed.

Lemma occurrences_app w ws ws' :
  occurrences w (ws ++ ws') = occurrences w ws + occurrences w ws'.
Proof. unfold occurrences. rewrite filter_app, length_app. reflexivity. Qed.

Lemma occurrences_notin w ws : w ∉ ws -> occurrences w ws = 0.
Proof.
  unfold occurrences. induction ws as [|x ws IH]; intros Hnin; [reflexivity|].
  rewrite filter_cons. apply not_elem_of_cons in Hnin as [Hne Hnin].
  rewrite decide_False by congruence. apply IH. exact Hnin.
Qed.

Lemma occurrences_single w k :
  occurrences k [w] = if decide (w = k) then 1 else 0.
Proof.
  unfold occurrences. rewrite filter_cons.
  destruct (decide (w = k)); reflexivity.
Qed.

(** [dict_incr] on a known key adds one to its count, in place. *)
Lemma dict_incr_known w d :
  w ∈ d.*1 ->
  exists d1 c0 d2,
    d = d1 ++ (w, c0) :: d2 /\ (w ∉ d1.*1)
    /\ dict_incr w d = d1 ++ (w, c0 + 1) :: d2.
Proof.
  induction d as [|[k v] d IH]; intros Hin; [inversion Hin|].
  cbn [dict_incr]. destruct (decide (k = w)) as [->|Hne].
  - exists [], v, d. repeat split. cbn. apply not_elem_of_nil.
  - cbn in Hin. apply elem_of_cons in Hin as [->|Hin]; [congruence|].
    destruct (IH Hin) as (d1 & c0 & d2 & -> & Hd1 & ->).
    exists ((k, v) :: d1), c0, d2. repeat split.
    cbn. apply not_elem_of_cons. split; [congruence|exact Hd1].
Qed.

(** [dict_incr] on a new key appends it with count 1. *)
Lemma dict_incr_new w d : w ∉ d.*1 -> dict_incr w d = d ++ [(w, 1)].
Proof.
  induction d as [|[k v] d IH]; intros Hnin; [reflexivity|].
  cbn in Hnin. apply not_elem_of_cons in Hnin as [Hne Hnin].
  cbn [dict_incr]. rewrite decide_False by congruence.
  rewrite IH by exact Hnin. reflexivity.
Qed.

Lemma StronglySorted_impl_elem {A} (R R' : A -> A -> Prop) (l : list A) :
  (forall a b, a ∈ l -> b ∈ l -> R a b -> R' a b) ->
  StronglySorted R l -> StronglySorted R' l.
Proof.
  induction l as [|x l IH]; intros Himpl Hs; [constructor|].
  apply StronglySorted_cons in Hs as [Hx Hs].
  apply StronglySorted_cons. split.
  - rewrite Forall_forall in *. intros y Hy.
    apply Himpl; [left; reflexivity|right; exact Hy|]. apply Hx. exact Hy.
  - apply IH; [|exact Hs]. intros a b Ha Hb. apply Himpl; right; assumption.
Qed.

Lemma StronglySorted_lookup {A} (R : A -> A -> Prop) (l : list A) i j x y :
  StronglySorted R l -> i < j -> l !! i = Some x -> l !! j = Some y -> R x y.
Proof.
  intros Hs. revert i j. induction Hs as [|a l Hs IH Ha]; intros i j Hij Hi Hj.
  - inversion Hi.
  - destruct j as [|j]; [lia|]. cbn in Hj. destruct i as [|i].
    + cbn in Hi. injection Hi as ->.
      rewrite Forall_forall in Ha. apply Ha.
      apply list_elem_of_lookup. exists j. exact Hj.
    + cbn in Hi. apply (IH i j); [lia|assumption..].
Qed.

Lemma dict_inv_step ws d w :
  dict_inv ws d -> dict_inv (ws ++ [w]) (dict_incr w d).
Proof.
  intros (Hnd & Hcount & Hdom & Hsort).
  assert (Hkeys : forall k, k ∈ d.*1 -> k ∈ ws).
  { intros k Hk. apply list_elem_of_fmap in Hk as ([k' c] & -> & Hk).
    apply (Hcount k' c). exact Hk. }
  assert (Hmono : forall a b, a ∈ d.*1 -> b ∈ d.*1 ->
            earlier ws a b -> earlier (ws ++ [w]) a b).
  { intros a b Ha Hb. unfold earlier. rewrite !first_index_app.
    rewrite !decide_True by (apply Hkeys; assumption). tauto. }
  destruct (decide (w ∈ d.*1)) as [Hin|Hnin].
  - destruct (dict_incr_known w d Hin) as (d1 & c0 & d2 & Hd & Hd1 & ->).
    assert (Ekeys : (d1 ++ (w, c0 + 1) :: d2).*1 = d.*1)
      by (rewrite Hd, !fmap_app; reflexivity).
    unfold dict_inv. rewrite Ekeys.
    split; [exact Hnd|]. split; [|split].
    + intros k c Hk.
      assert (Hcases : (k, c) = (w, c0 + 1) \/ ((k, c) ∈ d /\ k <> w)).
      { apply elem_of_app in Hk as [Hk|Hk].
        - right. split; [rewrite Hd; apply elem_of_app; left; exact Hk|].
          intros ->. apply Hd1. apply list_elem_of_fmap. exists (w, c). split; [reflexivity|exact Hk].
        - apply elem_of_cons in Hk as [Hk|Hk]; [left; exact Hk|].
          right. split; [rewrite Hd; apply elem_of_app; right; right; exact Hk|].
          intros ->. rewrite Hd, fmap_app in Hnd.
          apply NoDup_app in Hnd as (_ & _ & Hnd). cbn in Hnd.
          apply NoDup_cons in Hnd as [Hnd _]. apply Hnd.
          apply list_elem_of_fmap. exists (w, c). split; [reflexivity|exact Hk]. }
      destruct Hcases as [Heq|[Hk' Hne]].
      * injection Heq as -> ->.
        split; [apply elem_of_app; left; apply Hkeys; exact Hin|].
        rewrite occurrences_app, occurrences_single, decide_True by reflexivity.
        f_equal. apply (Hcount w c0). rewrite Hd. apply elem_of_app. right. left.
      * destruct (Hcount k c Hk') as [Hkws ->].
        split; [apply elem_of_app; left; exact Hkws|].
        rewrite occurrences_app, occurrences_single, decide_False by congruence. lia.
    + intros k Hk. apply elem_of_app in Hk as [Hk|Hk]; [apply Hdom; exact Hk|].
      apply list_elem_of_singleton in Hk as ->. exact Hin.
    + eapply StronglySorted_impl_elem; [exact Hmono|exact Hsort].
  - rewrite (dict_incr_new w d Hnin).
    assert (Hw : w ∉ ws) by (intros Hw; apply Hnin, Hdom; exact Hw).
    unfold dict_inv. rewrite fmap_app. cbn [fmap list_fmap].
    split; [|split; [|split]].
    + apply NoDup_app. split; [exact Hnd|]. split.
      * intros k Hk Hk'. apply list_elem_of_singleton in Hk' as ->. contradiction.
      * apply NoDup_singleton.
    + intros k c Hk. apply elem_of_app in Hk as [Hk|Hk].
      * destruct (Hcount k c Hk) as [Hkws ->].
        split; [apply elem_of_app; left; exact Hkws|].
        rewrite occurrences_app, occurrences_single.
        rewrite decide_False by (intros ->; contradiction). lia.
      * apply list_elem_of_singleton in Hk. injection Hk as -> ->.
        split; [apply elem_of_app; right; left|].
        rewrite occurrences_app, occurrences_single, decide_True by reflexivity.
        rewrite occurrences_notin by exact Hw. reflexivity.
    + intros k Hk. apply elem_of_app in Hk as [Hk|Hk].
      * apply elem_of_app. left. apply Hdom. exact Hk.
      * apply elem_of_app. right. exact Hk.
    + apply StronglySorted_app. split; [|split].
      * intros a b Ha Hb. apply list_elem_of_singleton in Hb as ->.
        unfold earlier. rewrite !first_index_app.
        rewrite decide_True by (apply Hkeys; exact Ha).
        rewrite decide_False by exact Hw.
        pose proof (first_index_lt a ws (Hkeys a Ha)). lia.
      * eapply StronglySorted_impl_elem; [exact Hmono|exact Hsort].
      * repeat constructor.
Qed.

Lemma count_words_inv ws :
  dict_inv ws (fold_left (fun d w => dict_incr w d) ws []).
Proof.
  induction ws as [|w ws IH] using rev_ind.
  - split; [constructor|]. split; [intros k c Hk; inversion Hk|].
    split; [intros k Hk; inversion Hk|constructor].
  - rewrite fold_left_app. cbn. apply dict_inv_step. exact IH.
Qed.

End DictFacts.

(** ** The stable sort and the keyword list *)

Section SortFacts.
Import Clustering.

Lemma insert_desc_perm x l : insert_desc x l ≡ₚ x :: l.
Proof.
  induction l as [|y l IH]; [reflexivity|].
  cbn [insert_desc]. destruct (snd x <? snd y); [|reflexivity].
  rewrite IH. apply Permutation_swap.
Qed.

Lemma sorted_desc_perm d : sorted_desc d ≡ₚ d.
Proof.
  induction d as [|x d IH]; [reflexivity|].
  cbn. rewrite insert_desc_perm, IH. reflexivity.
Qed.

(** Inserting an item that was met before all the items of a ranked list
    keeps the list ranked. *)
Lemma insert_desc_sorted ws x l :
  StronglySorted (precedes ws) l ->
  Forall (fun z => earlier ws (fst x) (fst z)) l ->
  StronglySorted (precedes ws) (insert_desc x l).
Proof.
  induction l as [|y l IH]; intros Hs Hx; [repeat constructor|].
  apply StronglySorted_cons in Hs as [Hy Hs].
  apply Forall_cons in Hx as [Hxy Hx].
  cbn [insert_desc]. destruct (Nat.ltb_spec (snd x) (snd y)) as [Hlt|Hge].
  - apply StronglySorted_cons. split; [|apply IH; assumption].
    rewrite insert_desc_perm. constructor; [left; exact Hlt|exact Hy].
  - apply StronglySorted_cons. split; [|apply StronglySorted_cons; split; assumption].
    assert (Hrank : forall z, snd z <= snd x -> earlier ws (fst x) (fst z) ->
                      precedes ws x z).
    { intros z Hz He. unfold precedes.
      destruct (decide (snd z < snd x)) as [Hlt|Hnlt]; [left; exact Hlt|].
      right. split; [lia|exact He]. }
    constructor; [apply Hrank; [exact Hge|exact Hxy]|].
    rewrite Forall_forall in *. intros z Hz.
    apply Hrank; [|apply Hx; exact Hz].
    destruct (Hy z Hz) as [Hlt|[Heq _]]; lia.
Qed.

Lemma sorted_desc_sorted ws d :
  StronglySorted (earlier ws) d.*1 ->
  StronglySorted (precedes ws) (sorted_desc d).
Proof.
  induction d as [|x d IH]; intros Hs; [constructor|].
  cbn in Hs. apply StronglySorted_cons in Hs as [Hx Hs].
  cbn [sorted_desc foldr]. apply insert_desc_sorted; [apply IH; exact Hs|].
  fold (sorted_desc d). rewrite sorted_desc_perm.
  rewrite Forall_fmap in Hx. exact Hx.
Qed.

(** Counting text by text is counting the stream of all counted words. *)
Lemma word_freq_stream texts d :
  fold_left count_text texts d
  = fold_left (fun d w => dict_incr w d) (concat (map counted_words texts)) d.
Proof.
  revert d. induction texts as [|t texts IH]; intros d; [reflexivity|].
  cbn. rewrite fold_left_app. apply IH.
Qed.

(** Dropping the stop words changes neither the count of another word nor
    which of two other words comes first. *)
Lemma occurrences_filter (P : string -> Prop) `{forall x, Decision (P x)} w ws :
  P w -> occurrences w (filter P ws) = occurrences w ws.
Proof.
  intros Hw. unfold occurrences.
  induction ws as [|x ws IH]; [reflexivity|].
  rewrite !filter_cons. destruct (decide (P x)) as [Hx|Hx].
  - rewrite filter_cons. destruct (decide (x = w)); cbn; rewrite IH; reflexivity.
  - rewrite decide_False by (intros ->; contradiction). exact IH.
Qed.

Lemma earlier_filter (P : string -> Prop) `{forall x, Decision (P x)} a b ws :
  P a -> P b -> earlier (filter P ws) a b -> earlier ws a b.
Proof.
  intros Ha Hb. unfold earlier.
  induction ws as [|x ws IH]; [cbn; lia|].
  rewrite filter_cons. cbn [first_index].
  destruct (decide (x = a)) as [->|Hxa].
  - rewrite decide_True by exact Ha. cbn [first_index].
    rewrite decide_True by reflexivity.
    destruct (decide (a = b)); lia.
  - destruct (decide (x = b)) as [->|Hxb].
    + rewrite (decide_True (P := P b)) by exact Hb. cbn [first_index].
      rewrite (decide_False (P := b = a)) by exact Hxa.
      rewrite (decide_True (P := b = b)) by reflexivity. lia.
    + destruct (decide (P x)).
      * cbn [first_index].
        rewrite (decide_False (P := x = a)) by exact Hxa.
        rewrite (decide_False (P := x = b)) by exact Hxb.
        intros Hlt. apply Nat.succ_lt_mono in Hlt. apply IH in Hlt. lia.
      * intros Hlt. apply IH in Hlt. lia.
Qed.

End SortFacts.

Section KeywordClaims.
Import Clustering.

Lemma counted_stream texts :
  concat (map counted_words texts)
  = filter (fun w => w ∉ stop_words) (all_tokens texts).
Proof.
  unfold all_tokens. induction texts as [|t texts IH]; [reflexivity|].
  cbn. rewrite filter_app, IH. reflexivity.
Qed.

Lemma all_tokens_spec texts w : w ∈ all_tokens texts -> lowercase_word w.
Proof.
  unfold all_tokens. induction texts as [|t texts IH]; intros Hin; [inversion Hin|].
  cbn in Hin. apply elem_of_app in Hin as [Hin|Hin].
  - eapply findall_words_spec. exact Hin.
  - apply IH. exact Hin.
Qed.

(** The entries behind the keyword list: the dictionary of the counted
    stream, ranked. *)
Lemma keywords_ranked texts :
  let ws := filter (fun w => w ∉ stop_words) (all_tokens texts) in
  exists s,
    _extract_keywords texts = (take 5 s).*1
    /\ StronglySorted (precedes ws) s
    /\ (forall k c, (k, c) ∈ s -> k ∈ ws /\ c = occurrences k ws)
    /\ (forall k, k ∈ ws -> k ∈ s.*1).
Proof.
  intros ws. unfold _extract_keywords.
  rewrite word_freq_stream, counted_stream. fold ws.
  destruct (count_words_inv ws) as (Hnd & Hcount & Hdom & Hsort).
  set (d := fold_left (fun d w => dict_incr w d) ws []) in *.
  exists (sorted_desc d). split; [reflexivity|].
  split; [apply sorted_desc_sorted; exact Hsort|]. split.
  - intros k c Hk. rewrite sorted_desc_perm in Hk. apply Hcount. exact Hk.
  - intros k Hk. rewrite sorted_desc_perm. apply Hdom. exact Hk.
Qed.

(** C10: the keyword list has at most 5 entries; each is a word of the
    texts, made of at least four lower-case letters, and no stop word; an
    earlier entry has a higher combined frequency than a later one, or the same
    frequency and an earlier first occurrence in the scan; and a counted word
    left out is outranked in that order by all five entries. *)
Theorem C10_keywords_ranked :
  forall texts,
    let kws := _extract_keywords texts in
    let toks := all_tokens texts in
    length kws <= 5
    /\ (forall w, w ∈ kws ->
          w ∈ toks /\ (w ∉ stop_words) /\ lowercase_word w)
    /\ (forall i j a b, i < j -> kws !! i = Some a -> kws !! j = Some b ->
          occurrences b toks < occurrences a toks
          \/ (occurrences a toks = occurrences b toks
              /\ first_index a toks < first_index b toks))
    /\ (forall w, w ∈ toks -> w ∉ stop_words -> w ∉ kws ->
          length kws = 5
          /\ forall k, k ∈ kws ->
               occurrences w toks < occurrences k toks
               \/ (occurrences k toks = occurrences w toks
                   /\ first_index k toks < first_index w toks)).
Proof.
  intros texts kws toks.
  destruct (keywords_ranked texts) as (s & Ekws & Hsort & Hcount & Hdom).
  fold toks in Hsort, Hcount, Hdom.
  set (ws := filter (fun w => w ∉ stop_words) toks) in *.
  fold kws in Ekws.
  assert (Hws : forall k, k ∈ ws -> k ∈ toks /\ (k ∉ stop_words)).
  { intros k Hk. apply list_elem_of_filter in Hk as [Hstop Hk]. split; assumption. }
  (* the ranking over the counted stream, read over all tokens *)
  assert (Hrank : forall a ca b cb, (a, ca) ∈ s -> (b, cb) ∈ s ->
            precedes ws (a, ca) (b, cb) ->
            occurrences b toks < occurrences a toks
            \/ (occurrences a toks = occurrences b toks
                /\ first_index a toks < first_index b toks)).
  { intros a ca b cb Ha Hb Hp.
    destruct (Hcount a ca Ha) as [Haws Hca], (Hcount b cb Hb) as [Hbws Hcb].
    destruct (Hws a Haws) as [_ Hasw], (Hws b Hbws) as [_ Hbsw].
    unfold ws in Hca, Hcb.
    rewrite occurrences_filter in Hca, Hcb by assumption.
    unfold precedes in Hp. cbn [fst snd] in Hp.
    destruct Hp as [Hlt|[Heq He]]; [left; lia|right].
    split; [lia|].
    exact (earlier_filter (fun w => w ∉ stop_words) a b toks Hasw Hbsw He). }
  assert (Hitem : forall i a, kws !! i = Some a ->
            exists ca, s !! i = Some (a, ca) /\ i < 5).
  { intros i a Hi. rewrite Ekws in Hi.
    apply list_lookup_fmap_Some in Hi as ([a' ca] & -> & Hi).
    apply lookup_take_Some in Hi. exists ca. exact Hi. }
  split; [|split; [|split]].
  - rewrite Ekws, length_fmap, length_take. lia.
  - intros w Hw. apply list_elem_of_lookup in Hw as [i Hi].
    destruct (Hitem i w Hi) as (c & Hs & _).
    assert (Hin : (w, c) ∈ s) by (apply list_elem_of_lookup; exists i; exact Hs).
    destruct (Hcount w c Hin) as [Hwws _].
    destruct (Hws w Hwws) as [Htok Hstop].
    split; [exact Htok|]. split; [exact Hstop|].
    eapply all_tokens_spec. exact Htok.
  - intros i j a b Hij Hi Hj.
    destruct (Hitem i a Hi) as (ca & Hsi & _), (Hitem j b Hj) as (cb & Hsj & _).
    apply (Hrank a ca b cb).
    + apply list_elem_of_lookup. exists i. exact Hsi.
    + apply list_elem_of_lookup. exists j. exact Hsj.
    + eapply StronglySorted_lookup; [exact Hsort|exact Hij|exact Hsi|exact Hsj].
  - intros w Hw Hstop Hout.
    assert (Hwws : w ∈ ws) by (apply list_elem_of_filter; split; assumption).
    apply Hdom in Hwws. apply list_elem_of_fmap in Hwws as ([w' c] & -> & Hin).
    cbn [fst] in *.
    rewrite <- (take_drop 5 s) in Hin, Hsort.
    apply elem_of_app in Hin as [Hin|Hin].
    { exfalso. apply Hout. rewrite Ekws. apply list_elem_of_fmap.
      exists (w', c). split; [reflexivity|exact Hin]. }
    split.
    + rewrite Ekws, length_fmap, length_take.
      apply list_elem_of_lookup in Hin as [i Hi].
      apply lookup_lt_Some in Hi. rewrite length_drop in Hi. lia.
    + intros k Hk. rewrite Ekws in Hk.
      apply list_elem_of_fmap in Hk as ([k' ck] & -> & Hk). cbn [fst].
      apply (Hrank k' ck w' c).
      * rewrite <- (take_drop 5 s). apply elem_of_app. left. exact Hk.
      * rewrite <- (take_drop 5 s). apply elem_of_app. right. exact Hin.
      * eapply StronglySorted_app_1_elem_of; [exact Hsort|exact Hk|exact Hin].
Qed.

End KeywordClaims.

Lemma C10_witness :
  let texts := ["Fire downtown, FIRE spreading"; "world downtown; this world"]%string in
  Clustering._extract_keywords texts = ["fire"; "downtown"; "world"; "spreading"]%string
  /\ (occurrences "downtown" (all_tokens texts) < occurrences "fire" (all_tokens texts)
      \/ (occurrences "fire" (all_tokens texts) = occurrences "downtown" (all_tokens texts)
          /\ first_index "fire" (all_tokens texts)
             < first_index "downtown" (all_tokens texts))).
Proof.
  intros texts. split; [reflexivity|].
  destruct (C10_keywords_ranked texts) as (_ & _ & Horder & _).
  apply (Horder 0 1); [lia|reflexivity|reflexivity].
Defined.

(** ** The batch endpoint *)

Section RouterFacts.
Import Py Clustering Router.
Local Open Scope Q_scope.
Context `{Numpy} `{Anomaly.Sklearn} `{Models} `{Clusterer} `{PySet}.

Lemma get_cluster_info_Some self labels texts sentiments :
  (length labels <= length texts)%nat ->
  (length labels <= length sentiments)%nat ->
  exists clusters self',
    get_cluster_info self labels texts sentiments = (Some clusters, self').
Proof.
  intros Ht Hs. unfold get_cluster_info.
  destruct (cluster_loop_spec labels texts sentiments (previous_sizes self)
              Ht Hs (set_iter labels) (previous_sizes self) []
              (set_iter_NoDup labels) (fun _ _ => eq_refl))
    as (new & prev' & Hrun & _).
  rewrite Hrun. eexists _, _. reflexivity.
Qed.

Lemma cluster_labels_length embeddings :
  (forall e labels, fit_predict e = Some labels -> length labels = length e) ->
  length (cluster embeddings).1 = length embeddings.
Proof.
  intros Hfit. unfold cluster, np_zeros.
  destruct (length embeddings <? 3)%nat; [apply length_replicate|].
  destruct (fit_predict embeddings) as [labels|] eqn:E.
  - cbn. apply Hfit. exact E.
  - apply length_replicate.
Qed.

(** One call of the endpoint on a detector whose volume window is empty
    leaves it empty and reports the anomaly score 0. *)
Lemma analyze_posts_anomaly s posts :
  Anomaly.volume_history (anomaly_service s) = [] ->
  Anomaly.volume_history (anomaly_service (analyze_posts s posts).2) = []
  /\ forall resp, (analyze_posts s posts).1 = Some resp ->
       anomalyScore (metrics resp) = 0.
Proof.
  intros Hempty. unfold analyze_posts.
  destruct posts as [|p posts].
  - cbn. split; [exact Hempty|]. intros resp E. injection E as <-. reflexivity.
  - destruct (cluster _) as [labels n_clusters].
    destruct (get_cluster_info _ _ _ _) as [[clusters|] cs].
    + rewrite (detect_empty_history (anomaly_service s) _ Hempty).
      destruct (Escalation.compute_metrics _ _ _ _) as [m es].
      cbn. split; [exact Hempty|]. intros resp E. injection E as <-. reflexivity.
    + cbn. split; [exact Hempty|]. intros resp E. discriminate E.
Qed.

Lemma serve_anomaly batches : forall s,
  Anomaly.volume_history (anomaly_service s) = [] ->
  Forall (fun r => forall resp, r = Some resp -> anomalyScore (metrics resp) = 0)
         (serve s batches).1.
Proof.
  induction batches as [|posts rest IH]; intros s Hempty; [constructor|].
  cbn [serve].
  destruct (analyze_posts_anomaly s posts Hempty) as [Hempty' Hscore].
  destruct (analyze_posts s posts) as [r s'].
  specialize (IH s' Hempty').
  destruct (serve s' rest) as [rs s'']. cbn in *.
  constructor; assumption.
Qed.

Lemma analyze_posts_responds s posts :
  providers_keep_length -> is_Some (analyze_posts s posts).1.
Proof.
  intros (Henc & Hsent & Hfit). unfold analyze_posts.
  destruct posts as [|p posts]; [eexists; reflexivity|].
  pose proof (cluster_labels_length (encode (map text (p :: posts))) Hfit) as Hlab.
  destruct (cluster _) as [labels n_clusters]. cbn [fst] in Hlab.
  destruct (get_cluster_info_Some (clustering_service s) labels
              (map text (p :: posts)) (analyze (map text (p :: posts))))
    as (clusters & cs & ->).
  { rewrite Hlab, Henc. reflexivity. }
  { rewrite Hlab, Henc, Hsent. reflexivity. }
  destruct (Anomaly.detect _ _) as [score an].
  destruct (Escalation.compute_metrics _ _ _ _) as [m es].
  eexists. reflexivity.
Qed.

Lemma serve_responds batches : forall s,
  providers_keep_length -> Forall is_Some (serve s batches).1.
Proof.
  induction batches as [|posts rest IH]; intros s Hp; [constructor|].
  cbn [serve].
  pose proof (analyze_posts_responds s posts Hp) as Hr.
  destruct (analyze_posts s posts) as [r s'].
  specialize (IH s' Hp).
  destruct (serve s' rest) as [rs s'']. cbn in *.
  constructor; assumption.
Qed.

Lemma NoDup_all_equal {A} (a : A) (l : list A) :
  NoDup l -> (forall x, x ∈ l <-> x = a) -> l = [a].
Proof.
  intros Hnd Hall. destruct l as [|x [|y l]].
  - exfalso. assert (Ha : a ∈ []) by (apply Hall; reflexivity). inversion Ha.
  - f_equal. apply Hall. left.
  - exfalso. assert (Hx : x = a) by (apply Hall; left).
    assert (Hy : y = a) by (apply Hall; right; left).
    subst. apply NoDup_cons in Hnd as [Hnd _]. apply Hnd. left.
Qed.

Lemma member_count_zeros n : member_count (np_zeros n) 0 = Z.of_nat n.
Proof.
  unfold member_count, np_zeros. f_equal.
  induction n as [|n IH]; [reflexivity|].
  cbn [replicate]. rewrite filter_cons, decide_True by reflexivity.
  cbn [length]. rewrite IH. reflexivity.
Qed.

(** Every batch of one or two posts, whatever the state of the services, gets
    a response with exactly one cluster summary, "cluster-0", holding all the
    posts of the batch. *)
Lemma small_batch_has_cluster_zero s posts :
  providers_keep_length ->
  (1 <= length posts < 3)%nat ->
  exists resp c,
    (analyze_posts s posts).1 = Some resp
    /\ clusters resp = [c]
    /\ clusterId c = "cluster-0"%string
    /\ size c = Z.of_nat (length posts).
Proof.
  intros (Henc & Hsent & Hfit) Hlen. unfold analyze_posts.
  destruct posts as [|p posts]; [cbn in Hlen; lia|].
  set (texts := map text (p :: posts)).
  assert (Hn : length texts = length (p :: posts)) by apply length_map.
  unfold cluster. rewrite Henc.
  destruct (Nat.ltb_spec (length texts) 3) as [_|Hbad]; [|lia].
  unfold get_cluster_info.
  assert (Hset : set_iter (np_zeros (length texts)) = [0%Z]).
  { apply NoDup_all_equal; [apply set_iter_NoDup|].
    intros x. rewrite set_iter_elem. unfold np_zeros.
    rewrite elem_of_replicate. split; [tauto|]. intros ->. split; [reflexivity|lia]. }
  rewrite Hset. cbn [cluster_loop]. change (0 =? -1)%Z with false. cbv iota.
  destruct (summarize_label_is_Some (previous_sizes (clustering_service s))
              (np_zeros (length texts)) texts (analyze texts) 0%Z)
    as [[c prev'] Hsum].
  { unfold np_zeros. rewrite length_replicate. reflexivity. }
  { unfold np_zeros. rewrite length_replicate, Hsent. reflexivity. }
  rewrite Hsum.
  destruct (summarize_label_inv _ _ _ _ _ _ _ Hsum) as (Hid & Hsize & _ & _).
  destruct (Anomaly.detect _ _) as [score an].
  destruct (Escalation.compute_metrics _ _ _ _) as [m es].
  eexists _, c. cbn. split; [reflexivity|]. split; [reflexivity|].
  split; [exact Hid|]. rewrite Hsize, member_count_zeros, Hn. reflexivity.
Qed.

End RouterFacts.

Section RouterClaims.
Import Py Clustering Router.
Local Open Scope Q_scope.

(** C2: [detect], the entry point the endpoint calls, never changes the
    volume history; so, from the detector built at startup, every response of
    every sequence of batches carries the anomaly score 0, and with providers
    that keep the number of items every batch does get a response. *)
Theorem C2_endpoint_anomaly_score_zero :
  forall (np : Numpy) (sk : Anomaly.Sklearn) (md : Models)
         (cl : Clusterer) (ps : PySet) (batches : list (list PostInput)),
    (forall self volume,
       Anomaly.volume_history (Anomaly.detect self volume).2
       = Anomaly.volume_history self)
    /\ Forall (fun r => forall resp, r = Some resp -> anomalyScore (metrics resp) = 0)
              (serve startup batches).1
    /\ (providers_keep_length -> Forall is_Some (serve startup batches).1).
Proof.
  intros np sk md cl ps batches. split; [|split].
  - apply detect_keeps_volume_history.
  - apply serve_anomaly. apply new_volume_history.
  - apply serve_responds.
Qed.

Lemma demo_providers_keep_length :
  @providers_keep_length Demo.models Demo.clusterer.
Proof.
  split; [|split].
  - intros texts. apply length_map.
  - intros texts. cbn.
    rewrite length_app, length_take, length_replicate. cbn. lia.
  - intros e labels E. cbn in E. injection E as <-. apply length_replicate.
Qed.

Lemma C2_witness :
  Forall is_Some
    (@serve Demo.numpy Demo.models Demo.clusterer Demo.pyset
       (@startup Demo.sklearn) demo_batches).1
  /\ Forall (fun r => forall resp, r = Some resp -> anomalyScore (metrics resp) = 0)
       (@serve Demo.numpy Demo.models Demo.clusterer Demo.pyset
          (@startup Demo.sklearn) demo_batches).1.
Proof.
  destruct (C2_endpoint_anomaly_score_zero Demo.numpy Demo.sklearn Demo.models
              Demo.clusterer Demo.pyset demo_batches) as (_ & Hzero & Hsome).
  split; [apply Hsome; exact demo_providers_keep_length|exact Hzero].
Defined.

(** C1 fails on the code.  For the two-post batch with sentiments
    [0.9, -0.9], on fresh services, [cluster] skips the provider and reports 0
    clusters, but the labels it returns are all 0, not -1, and
    [get_cluster_info] summarizes them: the response holds the cluster
    "cluster-0" of size 2, the cluster growth rate is 200 and the narrative
    spread speed 45, where the claim has no cluster and 0 for both. *)
Theorem C1_two_posts_summarized_as_cluster_zero :
  let posts := map demo_post ["fire downtown"; "all calm"]%string in
  let run := @analyze_posts Demo.numpy Demo.models Demo.clusterer Demo.pyset
               (@startup Demo.sklearn) posts in
  @analyze Demo.models (map text posts) = [9 # 10; - (9 # 10)]
  /\ @cluster Demo.clusterer Demo.pyset (@encode Demo.models (map text posts))
     = ([0; 0]%Z, 0%Z)
  /\ exists resp,
       run.1 = Some resp
       /\ map clusterId (clusters resp) = ["cluster-0"%string]
       /\ map size (clusters resp) = [2%Z]
       /\ sentimentAcceleration (metrics resp) == 0
       /\ clusterGrowthRate (metrics resp) == 200
       /\ narrativeSpreadSpeed (metrics resp) == 45.
Proof.
  cbv zeta. split; [reflexivity|]. split; [reflexivity|].
  eexists. split; [vm_compute; reflexivity|].
  cbn [clusters metrics sentimentAcceleration clusterGrowthRate narrativeSpreadSpeed].
  repeat split; reflexivity.
Qed.

End RouterClaims.

(** * Further properties of the code *)

(** ** The anomaly detector: scores, windows and modes *)

Section AnomalyScoreFacts.
Import Py Anomaly.
Local Open Scope Q_scope.
Context {np : Numpy} {sk : Sklearn}.

Lemma round_half_even_range (y : Q) :
  0 <= y -> y <= 10000 -> (0 <= round_half_even y <= 10000)%Z.
Proof.
  intros Hy0 Hy1.
  assert (Hf0 : (0 <= Qfloor y)%Z) by (apply (Qfloor_resp_le 0 y); exact Hy0).
  assert (Hf1 : (Qfloor y <= 10000)%Z) by (apply (Qfloor_resp_le y 10000); exact Hy1).
  assert (Hup : ~ y - inject_Z (Qfloor y) < 1 # 2 -> (Qfloor y + 1 <= 10000)%Z).
  { intros Hfrac.
    assert (Hlt : inject_Z (Qfloor y) < inject_Z 10000).
    { change (inject_Z 10000) with 10000. lra. }
    rewrite <- Zlt_Qlt in Hlt. lia. }
  unfold round_half_even.
  destruct (Qcompare (y - inject_Z (Qfloor y)) (1 # 2)) eqn:E.
  - apply Qeq_alt in E.
    destruct (Z.even (Qfloor y)); [lia|].
    split; [lia|]. apply Hup. rewrite E. apply Qlt_irrefl.
  - lia.
  - apply Qgt_alt in E. split; [lia|]. apply Hup. lra.
Qed.

Lemma round2_range (x : Q) : 0 <= x -> x <= 100 -> 0 <= round2 x /\ round2 x <= 100.
Proof.
  intros Hx0 Hx1. unfold round2.
  destruct (round_half_even_range (x * 100)) as [Hr0 Hr1]; [lra|lra|].
  rewrite Zle_Qle in Hr0, Hr1.
  change (inject_Z 0) with 0 in Hr0. change (inject_Z 10000) with 10000 in Hr1.
  split.
  - apply Qle_shift_div_l; [reflexivity|]. lra.
  - apply Qle_shift_div_r; [reflexivity|]. lra.
Qed.

Lemma detect_zscore_range self v :
  0 <= (_detect_zscore self v).1 /\ (_detect_zscore self v).1 <= 100.
Proof.
  unfold _detect_zscore.
  destruct (length (volume_history self) <? 5)%nat; [cbn; split; lra|].
  cbv zeta. destruct (Qltb _ _); [cbn; split; lra|].
  cbn [fst]. apply round2_range.
  - apply Q.min_glb; [lra|]. apply Q.le_max_l.
  - apply Q.le_min_l.
Qed.

End AnomalyScoreFacts.

Section AnomalyStateFacts.
Import Py Anomaly.
Local Open Scope Q_scope.
Context {np : Numpy} {sk : Sklearn}.

(** The z-score path writes the two statistics and nothing else. *)
Lemma detect_zscore_frame self v : frame (_detect_zscore self v).2 = frame self.
Proof.
  unfold _detect_zscore.
  destruct (length (volume_history self) <? 5)%nat; [reflexivity|].
  cbv zeta. destruct (Qltb _ _); reflexivity.
Qed.

Lemma deque_append_length_eq {A} (n : nat) (d : list A) (x : A) :
  length (deque_append n d x) = Nat.min n (length d + 1).
Proof. unfold deque_append. rewrite length_drop, length_app. cbn. lia. Qed.

(** What one call of [detect_advanced] does to the detector: the observation
    enters the three histories; the feature buffer is left alone or, in
    multivariate mode with enough observations, takes the new vector; the
    fallback flag is left alone or raised. *)
Lemma detect_advanced_frame self v sa gr :
  let self1 := record_observation self v sa gr in
  let self2 := push_features self1 (_extract_features v sa gr) in
  exists fb fallback,
    frame (detect_advanced self v sa gr).2
    = (window_size self, contamination self, min_samples_for_iforest self,
       volume_history self1, sentiment_accel_history self1,
       growth_rate_history self1,
       scaler self, isolation_forest self, fb, fallback)
    /\ (fb = feature_buffer self
        \/ (fb = feature_buffer self2 /\ use_fallback self = false
            /\ (min_samples_for_iforest self <= length (volume_history self1))%nat))
    /\ (fallback = use_fallback self \/ fallback = true).
Proof.
  intros self1 self2. unfold detect_advanced. fold self1. fold self2.
  destruct (negb (use_fallback self1)
            && (min_samples_for_iforest self1 <=? length (volume_history self1))%nat)
    eqn:Egate.
  - apply andb_prop in Egate as [Emode Ewin].
    apply negb_true_iff in Emode. apply Nat.leb_le in Ewin.
    change (use_fallback self1) with (use_fallback self) in Emode.
    change (min_samples_for_iforest self1) with (min_samples_for_iforest self) in Ewin.
    assert (Hpush : feature_buffer self2 = feature_buffer self2
                    /\ use_fallback self = false
                    /\ (min_samples_for_iforest self <= length (volume_history self1))%nat)
      by (repeat split; assumption).
    destruct (min_samples_for_iforest self2 <=? length (feature_buffer self2))%nat.
    + destruct (raw_outlier_score self2).
      * exists (feature_buffer self2), (use_fallback self).
        split; [reflexivity|]. split; [right; exact Hpush|left; reflexivity].
      * rewrite detect_zscore_frame.
        exists (feature_buffer self2), true.
        split; [reflexivity|]. split; [right; exact Hpush|right; reflexivity].
    + rewrite detect_zscore_frame.
      exists (feature_buffer self2), (use_fallback self).
      split; [reflexivity|]. split; [right; exact Hpush|left; reflexivity].
  - rewrite detect_zscore_frame.
    exists (feature_buffer self), (use_fallback self).
    split; [reflexivity|]. split; left; reflexivity.
Qed.

Lemma well_formed_frame self self' :
  frame self' = frame self -> well_formed self -> well_formed self'.
Proof.
  unfold frame. intros E.
  injection E as Ews _ Ems Evh Esa Egr Esc Eif Efb Euf.
  unfold well_formed. rewrite Ews, Ems, Evh, Esa, Egr, Esc, Eif, Efb, Euf. tauto.
Qed.

Lemma detect_advanced_well_formed self v sa gr :
  well_formed self -> well_formed (detect_advanced self v sa gr).2.
Proof.
  intros (Hmin & Hsa & Hgr & Hwin & Hbuf & Hvec & Hmodels).
  destruct (detect_advanced_frame self v sa gr) as (fb & fallback & E & Hfb & Hfall).
  unfold frame in E. injection E as Ews _ Ems Evh Esa Egr Esc Eif Efb Euf.
  unfold well_formed.
  rewrite Ews, Ems, Evh, Esa, Egr, Esc, Eif, Efb, Euf.
  cbn [record_observation set_histories volume_history sentiment_accel_history
       growth_rate_history].
  rewrite !deque_append_length_eq, Hsa, Hgr.
  split; [exact Hmin|]. split; [reflexivity|]. split; [reflexivity|].
  split; [lia|].
  assert (Hfbok : (length fb <= window_size self)%nat /\ Forall (fun f => length f = 3%nat) fb).
  { destruct Hfb as [Efb'|[Efb' [_ Hgate]]]; rewrite Efb'; [split; assumption|].
    cbn [record_observation set_histories volume_history] in Hgate.
    rewrite deque_append_length_eq, Hmin in Hgate.
    cbn [push_features set_feature_buffer feature_buffer record_observation
         set_histories window_size].
    assert (Hall : Forall (fun f => length f = 3%nat)
                     (feature_buffer self ++ [_extract_features v sa gr])).
    { apply Forall_app. split; [exact Hvec|]. repeat constructor. }
    destruct (Nat.ltb_spec (window_size self)
                (length (feature_buffer self ++ [_extract_features v sa gr])))
      as [Hlong|Hshort].
    - unfold last_n. destruct (window_size self) as [|n] eqn:Ew; [lia|].
      split; [rewrite length_drop; lia|]. apply Forall_drop. exact Hall.
    - split; [exact Hshort|exact Hall]. }
  destruct Hfbok as [Hlen Hthree].
  split; [exact Hlen|]. split; [exact Hthree|].
  intros Hf. apply Hmodels. destruct Hfall as [Ef|Ef]; rewrite Ef in Hf; [exact Hf|discriminate].
Qed.

Lemma reset_well_formed self : well_formed self -> well_formed (reset self).
Proof.
  intros (Hmin & _ & _ & _ & _ & _ & Hmodels).
  unfold well_formed, reset, construct_models. cbn.
  destruct (use_fallback self) eqn:Ef, SKLEARN_AVAILABLE, scaler_constructs,
    iforest_constructs; cbn; rewrite ?Ef;
    (split; [exact Hmin|]); (split; [reflexivity|]); (split; [reflexivity|]);
    (split; [lia|]); (split; [lia|]); (split; [constructor|]);
    intros Hf; try discriminate Hf; try (split; reflexivity);
    apply Hmodels; reflexivity.
Qed.

Lemma new_well_formed w c : well_formed (new w c).
Proof.
  unfold well_formed, new, construct_models. cbn.
  destruct SKLEARN_AVAILABLE, scaler_constructs, iforest_constructs; cbn;
    (split; [reflexivity|]); (split; [reflexivity|]); (split; [reflexivity|]);
    (split; [lia|]); (split; [lia|]); (split; [constructor|]);
    intros Hf; try discriminate Hf; split; reflexivity.
Qed.

Lemma detect_batch_loop_well_formed volumes : forall self i sas grs,
  well_formed self -> well_formed (detect_batch_loop self i volumes sas grs).2.
Proof.
  induction volumes as [|v rest IH]; intros self i sas grs Hwf; [exact Hwf|].
  cbn [detect_batch_loop].
  pose proof (detect_advanced_well_formed self v (default 0 (sas !! i))
                (default 0 (grs !! i)) Hwf) as Hstep.
  destruct (detect_advanced self v _ _) as [score self'].
  specialize (IH self' (S i) sas grs Hstep).
  destruct (detect_batch_loop self' (S i) rest sas grs) as [scores self''].
  exact IH.
Qed.

Lemma call_step_well_formed self c : well_formed self -> well_formed (call_step self c).
Proof.
  intros Hwf. destruct c as [v|v|v sa gr|vs sas grs|]; cbn [call_step].
  - eapply well_formed_frame; [apply detect_zscore_frame|exact Hwf].
  - eapply well_formed_frame; [apply detect_zscore_frame|exact Hwf].
  - apply detect_advanced_well_formed. exact Hwf.
  - apply detect_batch_loop_well_formed. exact Hwf.
  - apply reset_well_formed. exact Hwf.
Qed.

End AnomalyStateFacts.

Section AnomalyExtras.
Import Py Anomaly.
Local Open Scope Q_scope.

Lemma detect_advanced_range {np : Numpy} {sk : Sklearn} self v sa gr :
  0 <= (detect_advanced self v sa gr).1 /\ (detect_advanced self v sa gr).1 <= 100.
Proof.
  unfold detect_advanced.
  destruct (negb _ && _); [|apply detect_zscore_range].
  destruct (_ <=? _)%nat; [|apply detect_zscore_range].
  destruct (raw_outlier_score _); [|apply detect_zscore_range].
  cbn [fst]. apply round2_range.
  - apply Q.le_max_l.
  - apply Q.max_lub; [lra|apply Q.le_min_l].
Qed.

Lemma detect_batch_loop_range {np : Numpy} {sk : Sklearn} volumes :
  forall self i sas grs,
    Forall (fun score => 0 <= score /\ score <= 100)
           (detect_batch_loop self i volumes sas grs).1.
Proof.
  induction volumes as [|v rest IH]; intros self i sas grs; [constructor|].
  cbn [detect_batch_loop].
  pose proof (detect_advanced_range self v (default 0 (sas !! i))
                (default 0 (grs !! i))) as Hstep.
  destruct (detect_advanced self v _ _) as [score self'].
  specialize (IH self' (S i) sas grs).
  destruct (detect_batch_loop self' (S i) rest sas grs) as [scores self''].
  constructor; assumption.
Qed.

(** X1: every score the detector returns lies between 0 and 100, whatever the
    state and the inputs: from [detect], from [detect_advanced] and each score
    of [detect_batch]. *)
Theorem anomaly_scores_within_0_100 :
  forall (np : Numpy) (sk : Sklearn) self volume accel growth volumes accels growths,
    (0 <= (detect self volume).1 /\ (detect self volume).1 <= 100)
    /\ (0 <= (detect_advanced self volume accel growth).1
        /\ (detect_advanced self volume accel growth).1 <= 100)
    /\ Forall (fun score => 0 <= score /\ score <= 100)
              (detect_batch self volumes accels growths).1.
Proof.
  intros np sk self volume accel growth volumes accels growths.
  split; [apply detect_zscore_range|].
  split; [apply detect_advanced_range|].
  apply detect_batch_loop_range.
Qed.

Lemma run_calls_well_formed {np : Numpy} {sk : Sklearn} calls :
  forall self, well_formed self -> well_formed (run_calls calls self).
Proof.
  unfold run_calls.
  induction calls as [|c calls IH]; intros self Hwf; [exact Hwf|].
  cbn [fold_left]. apply IH. apply call_step_well_formed. exact Hwf.
Qed.

(** X2: after any sequence of calls on a detector built by the constructor,
    the three histories have the same length, no more than the window size;
    the feature buffer holds no more than the window size of three-feature
    vectors; and while the detector is in multivariate mode its scaler and
    forest exist. *)
Theorem detector_invariants_hold :
  forall (np : Numpy) (sk : Sklearn) window contamination calls,
    well_formed (run_calls calls (new window contamination)).
Proof.
  intros np sk window contamination calls.
  apply run_calls_well_formed. apply new_well_formed.
Qed.

Lemma detect_batch_loop_fallback {np : Numpy} {sk : Sklearn} volumes :
  forall self i sas grs,
    use_fallback self = true ->
    use_fallback (detect_batch_loop self i volumes sas grs).2 = true.
Proof.
  induction volumes as [|v rest IH]; intros self i sas grs Hf; [exact Hf|].
  cbn [detect_batch_loop].
  destruct (detect_advanced_frame self v (default 0 (sas !! i)) (default 0 (grs !! i)))
    as (fb & fallback & E & _ & Hfall).
  unfold frame in E. injection E as _ _ _ _ _ _ _ _ _ Euf.
  assert (Hstep : use_fallback (detect_advanced self v (default 0 (sas !! i))
                                  (default 0 (grs !! i))).2 = true).
  { rewrite Euf. destruct Hfall as [->| ->]; [exact Hf|reflexivity]. }
  destruct (detect_advanced self v _ _) as [score self'].
  specialize (IH self' (S i) sas grs Hstep).
  destruct (detect_batch_loop self' (S i) rest sas grs) as [scores self''].
  exact IH.
Qed.

Lemma call_step_fallback {np : Numpy} {sk : Sklearn} self c :
  use_fallback self = true -> use_fallback (call_step self c) = true.
Proof.
  intros Hf. destruct c as [v|v|v sa gr|vs sas grs|]; cbn [call_step].
  - pose proof (detect_zscore_frame self v) as E. unfold frame in E.
    injection E as _ _ _ _ _ _ _ _ _ Euf. unfold detect. rewrite Euf. exact Hf.
  - pose proof (detect_zscore_frame self v) as E. unfold frame in E.
    injection E as _ _ _ _ _ _ _ _ _ Euf. unfold detect_simple. rewrite Euf. exact Hf.
  - destruct (detect_advanced_frame self v sa gr) as (fb & fallback & E & _ & Hfall).
    unfold frame in E. injection E as _ _ _ _ _ _ _ _ _ Euf.
    rewrite Euf. destruct Hfall as [->| ->]; [exact Hf|reflexivity].
  - apply detect_batch_loop_fallback. exact Hf.
  - unfold reset. cbn. rewrite Hf. cbn. exact Hf.
Qed.

(** X3: the fallback is final.  Once a detector is in fallback mode, it is
    still in fallback mode after any sequence of calls, [reset] included, and
    [detect_advanced] answers with the z-score of the volume over the window
    that includes it. *)
Theorem fallback_is_absorbing :
  forall (np : Numpy) (sk : Sklearn) self calls volume accel growth,
    use_fallback self = true ->
    use_fallback (run_calls calls self) = true
    /\ detect_advanced self volume accel growth
       = _detect_zscore (record_observation self volume accel growth) volume.
Proof.
  intros np sk self calls volume accel growth Hf. split.
  - unfold run_calls. revert self Hf.
    induction calls as [|c calls IH]; intros self Hf; [exact Hf|].
    cbn [fold_left]. apply IH. apply call_step_fallback. exact Hf.
  - unfold detect_advanced.
    change (use_fallback (record_observation self volume accel growth))
      with (use_fallback self).
    rewrite Hf. reflexivity.
Qed.

Lemma fallback_is_absorbing_witness :
  use_fallback
    (@run_calls Demo.numpy Demo.sklearn_failing
       [CallDetectAdvanced 12 0 0; CallReset; CallDetectBatch [3; 4]%Z None None;
        CallDetect 7]
       (@after_calls Demo.numpy Demo.sklearn_failing 19)) = true.
Proof.
  apply (fallback_is_absorbing Demo.numpy Demo.sklearn_failing
           (@after_calls Demo.numpy Demo.sklearn_failing 19) _ 0%Z 0 0).
  vm_compute. reflexivity.
Defined.

(** X4: the warm-up.  With the sample threshold at 5 or more,
    [detect_advanced] answers exactly 0 whenever the window holds fewer than 4
    earlier observations, and always when the window size is below 5. *)
Theorem detect_advanced_zero_while_warming_up :
  forall (np : Numpy) (sk : Sklearn) self volume accel growth,
    (5 <= min_samples_for_iforest self)%nat ->
    (length (volume_history self) < 4)%nat \/ (window_size self < 5)%nat ->
    (detect_advanced self volume accel growth).1 = 0.
Proof.
  intros np sk self volume accel growth Hmin Hshort.
  assert (Hlen : (length (volume_history
                            (record_observation self volume accel growth)) < 5)%nat).
  { cbn [record_observation set_histories volume_history].
    rewrite deque_append_length_eq. lia. }
  unfold detect_advanced.
  change (min_samples_for_iforest (record_observation self volume accel growth))
    with (min_samples_for_iforest self).
  destruct (Nat.leb_spec (min_samples_for_iforest self)
              (length (volume_history
                         (record_observation self volume accel growth))))
    as [Hbad|_]; [lia|].
  rewrite andb_false_r. unfold _detect_zscore.
  destruct (Nat.ltb_spec
              (length (volume_history
                         (record_observation self volume accel growth))) 5)
    as [_|Hbad]; [reflexivity|lia].
Qed.

Lemma detect_advanced_zero_while_warming_up_witness :
  (@detect_advanced Demo.numpy Demo.sklearn
     (@after_calls Demo.numpy Demo.sklearn 3) 1000 0 0).1 = 0
  /\ (@detect_advanced Demo.numpy Demo.sklearn
        (Nat.iter 30 (fun s => (@detect_advanced Demo.numpy Demo.sklearn s 7 0 0).2)
           (@new Demo.sklearn 4 (1 # 10))) 1000 0 0).1 = 0.
Proof.
  split.
  - apply detect_advanced_zero_while_warming_up.
    + vm_compute. lia.
    + left. vm_compute. lia.
  - apply detect_advanced_zero_while_warming_up.
    + vm_compute. lia.
    + right. vm_compute. lia.
Defined.

End AnomalyExtras.

Section AnomalyBatchExtras.
Import Py Anomaly.
Local Open Scope Q_scope.

Lemma detect_advanced_volume_history {np : Numpy} {sk : Sklearn} self v sa gr :
  volume_history (detect_advanced self v sa gr).2
  = deque_append (window_size self) (volume_history self) v
  /\ window_size (detect_advanced self v sa gr).2 = window_size self.
Proof.
  destruct (detect_advanced_frame self v sa gr) as (fb & fallback & E & _ & _).
  unfold frame in E. injection E as Ews _ _ Evh _ _ _ _ _ _.
  split; assumption.
Qed.

Lemma detect_batch_loop_spec {np : Numpy} {sk : Sklearn} volumes :
  forall self i sas grs,
    length (detect_batch_loop self i volumes sas grs).1 = length volumes
    /\ volume_history (detect_batch_loop self i volumes sas grs).2
       = deque_extend (window_size self) (volume_history self) volumes
    /\ window_size (detect_batch_loop self i volumes sas grs).2 = window_size self.
Proof.
  induction volumes as [|v rest IH]; intros self i sas grs; [repeat split|].
  cbn [detect_batch_loop].
  destruct (detect_advanced_volume_history self v (default 0 (sas !! i))
              (default 0 (grs !! i))) as [Evh Ews].
  destruct (detect_advanced self v _ _) as [score self'].
  destruct (IH self' (S i) sas grs) as (Hlen & Hvh & Hws).
  destruct (detect_batch_loop self' (S i) rest sas grs) as [scores self''].
  cbn [fst snd] in *. rewrite Hvh, Hws, Evh, Ews.
  split; [cbn; rewrite Hlen; reflexivity|]. split; reflexivity.
Qed.

(** The loop reads the feature lists only at the indices of the volumes, and
    reads 0 where a list is too short. *)
Lemma detect_batch_loop_ext {np : Numpy} {sk : Sklearn} volumes :
  forall self i sas grs sas' grs',
    (forall j, (i <= j < i + length volumes)%nat ->
       default 0 (sas !! j) = default 0 (sas' !! j)
       /\ default 0 (grs !! j) = default 0 (grs' !! j)) ->
    detect_batch_loop self i volumes sas grs
    = detect_batch_loop self i volumes sas' grs'.
Proof.
  induction volumes as [|v rest IH]; intros self i sas grs sas' grs' Hagree;
    [reflexivity|].
  cbn [detect_batch_loop].
  destruct (Hagree i) as [-> ->]; [cbn; lia|].
  destruct (detect_advanced self v _ _) as [score self'].
  rewrite (IH self' (S i) sas grs sas' grs'); [reflexivity|].
  intros j Hj. apply Hagree. cbn. lia.
Qed.

Lemma default_lookup_replicate_zero (n j : nat) :
  default 0 (replicate n 0 !! j) = 0.
Proof.
  destruct (replicate n 0 !! j) as [x|] eqn:E; [|reflexivity].
  apply lookup_replicate in E as [-> _]. reflexivity.
Qed.

Lemma default_lookup_take_pad (n j : nat) (l : list Q) :
  (j < n)%nat -> default 0 ((take n l ++ [0]) !! j) = default 0 (l !! j).
Proof.
  intros Hj. destruct (decide (j < length l)%nat) as [Hin|Hout].
  - rewrite lookup_app_l by (rewrite length_take; lia).
    rewrite lookup_take_lt by lia. reflexivity.
  - rewrite (lookup_ge_None_2 l j) by lia.
    rewrite take_ge by lia.
    destruct (decide (j = length l)) as [->|Hne].
    + rewrite list_lookup_middle by reflexivity. reflexivity.
    + rewrite lookup_ge_None_2; [reflexivity|].
      rewrite length_app. cbn. lia.
Qed.

(** X5: [detect_batch] returns one score per volume and leaves as volume
    history the old one extended by the volumes of the batch, in order, cut to
    the window size.  A feature list left out, an empty one and a list of zeros
    give the same result; entries of a feature list beyond the number of
    volumes are never read, and a list that is too short counts as continued
    with zeros. *)
Theorem detect_batch_scores_and_defaults :
  forall (np : Numpy) (sk : Sklearn) self volumes accels growths,
    length (detect_batch self volumes (Some accels) (Some growths)).1 = length volumes
    /\ volume_history (detect_batch self volumes (Some accels) (Some growths)).2
       = deque_extend (window_size self) (volume_history self) volumes
    /\ detect_batch self volumes None None = detect_batch self volumes (Some []) (Some [])
    /\ detect_batch self volumes None None
       = detect_batch self volumes (Some (replicate (length volumes) 0))
                      (Some (replicate (length volumes) 0))
    /\ detect_batch self volumes (Some accels) (Some growths)
       = detect_batch self volumes
           (Some (take (length volumes) accels ++ [0]))
           (Some (take (length volumes) growths)).
Proof.
  intros np sk self volumes accels growths. unfold detect_batch.
  destruct (detect_batch_loop_spec volumes self 0%nat accels growths) as (Hlen & Hvh & _).
  split; [exact Hlen|]. split; [exact Hvh|]. split; [|split; [reflexivity|]].
  - apply detect_batch_loop_ext. intros j _.
    rewrite !default_lookup_replicate_zero. split; reflexivity.
  - apply detect_batch_loop_ext. intros j Hj. split.
    + rewrite default_lookup_take_pad by lia. reflexivity.
    + rewrite lookup_take_lt by lia. reflexivity.
Qed.

End AnomalyBatchExtras.

Section AnomalyCompatExtras.
Import Py.
Local Open Scope Q_scope.

(** X6: the batch method of the backwards-compatible [AnomalyService] only
    calls [detect], which never records a volume: on a wrapper whose service
    holds fewer than 5 volumes it returns 0 for every volume and leaves the
    wrapper as it was. *)
Theorem compat_detect_batch_all_zero :
  forall (np : Numpy) (self : AnomalyCompat.AnomalyService) volumes,
    (length (Anomaly.volume_history (AnomalyCompat._service self)) < 5)%nat ->
    AnomalyCompat.detect_batch self volumes = (replicate (length volumes) 0, self).
Proof.
  intros np self volumes Hshort.
  induction volumes as [|v rest IH]; [reflexivity|].
  cbn [AnomalyCompat.detect_batch].
  assert (Estep : AnomalyCompat.detect self v = (0, self)).
  { unfold AnomalyCompat.detect, Anomaly.detect, Anomaly._detect_zscore.
    destruct (Nat.ltb_spec
                (length (Anomaly.volume_history (AnomalyCompat._service self))) 5)
      as [_|Hbad]; [|lia].
    destruct self; reflexivity. }
  rewrite Estep, IH. reflexivity.
Qed.

Lemma compat_detect_batch_all_zero_witness :
  (@AnomalyCompat.detect_batch Demo.numpy (@AnomalyCompat.new Demo.sklearn 50)
     [10; 10; 10; 10; 10; 10; 5000]%Z).1
  = [0; 0; 0; 0; 0; 0; 0].
Proof.
  rewrite (compat_detect_batch_all_zero Demo.numpy (@AnomalyCompat.new Demo.sklearn 50)).
  - reflexivity.
  - vm_compute. lia.
Defined.

End AnomalyCompatExtras.

Section AnomalyResetExtras.
Import Py Anomaly.
Local Open Scope Q_scope.

(** X7: [reset] twice is [reset] once; and with scikit-learn available, a
    detector that is in multivariate mode after [reset] is, its sample
    threshold being 10, exactly the detector the constructor builds for the
    same window size and contamination. *)
Theorem reset_idempotent_and_fresh :
  forall (sk : Sklearn) self,
    reset (reset self) = reset self
    /\ (SKLEARN_AVAILABLE = true ->
        min_samples_for_iforest self = 10%nat ->
        use_fallback (reset self) = false ->
        reset self = new (window_size self) (contamination self)).
Proof.
  intros sk self. unfold reset, new, construct_models. cbn.
  destruct (use_fallback self) eqn:Ef, SKLEARN_AVAILABLE eqn:Esk,
    scaler_constructs eqn:Esc, iforest_constructs eqn:Eif;
    cbn; rewrite ?Ef, ?Esk, ?Esc, ?Eif; cbn;
    (split; [reflexivity|]); intros Hsk Hmin Hmode;
    try discriminate Hsk; try discriminate Hmode;
    try (rewrite Ef in Hmode; discriminate Hmode).
  unfold set_models. cbn. rewrite Hmin. reflexivity.
Qed.

Lemma reset_idempotent_and_fresh_witness :
  @reset Demo.sklearn (@after_calls Demo.numpy Demo.sklearn 25)
  = @new Demo.sklearn 50 (1 # 10).
Proof.
  apply (reset_idempotent_and_fresh Demo.sklearn (@after_calls Demo.numpy Demo.sklearn 25));
    vm_compute; reflexivity.
Defined.

End AnomalyResetExtras.

Section ZScoreExtras.
Import Py Anomaly.
Local Open Scope Q_scope.

(** X8: with at least 5 volumes in the window and a deviation [d] of at
    least 0.1, the z-score path answers 100 for every volume at least three
    deviations away from the window mean, and 0 for a volume equal to the
    mean. *)
Theorem zscore_saturates_at_three_sigma :
  forall (np : Numpy) self volume,
    let window := map inject_Z (volume_history self) in
    (5 <= length (volume_history self))%nat ->
    ~ np_std window < 1 # 10 ->
    (3 * np_std window <= Qabs (inject_Z volume - np_mean window) ->
       (_detect_zscore self volume).1 == 100)
    /\ (inject_Z volume == np_mean window -> (_detect_zscore self volume).1 == 0).
Proof.
  intros np self volume window Hlen Hd.
  assert (Hd' : 1 # 10 <= np_std window) by (apply Qnot_lt_le; exact Hd).
  assert (Hpos : 0 < np_std window) by lra.
  unfold _detect_zscore.
  destruct (Nat.ltb_spec (length (volume_history self)) 5) as [Hbad|_]; [lia|].
  cbv zeta. fold window.
  destruct (Qltb (np_std window) (1 # 10)) eqn:E;
    [apply Qltb_lt in E; contradiction|].
  cbn [fst]. split.
  - intros Hfar.
    assert (Hz : 3 <= Qabs ((inject_Z volume - np_mean window) / np_std window)).
    { rewrite (Qabs_div_pos _ _ Hpos). apply Qle_shift_div_l; [exact Hpos|exact Hfar]. }
    set (a := Qabs ((inject_Z volume - np_mean window) / np_std window)) in *.
    assert (Hy : 100 <= a / 3 * 100).
    { assert (E3 : a / 3 * 100 == a * (100 # 3)) by field. rewrite E3. lra. }
    rewrite (round2_wd _ 100); [reflexivity|].
    apply Q.min_l. apply Qle_trans with (a / 3 * 100); [exact Hy|apply Q.le_max_r].
  - intros Hmean.
    set (a := Qabs ((inject_Z volume - np_mean window) / np_std window)).
    assert (Hz : a == 0).
    { unfold a. rewrite (Qabs_div_pos _ _ Hpos).
      assert (Hnum : inject_Z volume - np_mean window == 0) by lra.
      rewrite Hnum. reflexivity. }
    assert (Hy : a / 3 * 100 == 0) by (rewrite Hz; reflexivity).
    assert (Hmax : Qmax 0 (a / 3 * 100) == 0) by (apply Q.max_l; lra).
    rewrite (round2_wd _ 0); [reflexivity|].
    rewrite (Q.min_compat 100 100 (Qeq_refl 100) _ _ Hmax). reflexivity.
Qed.

(** The scenario with mean 100 and deviation 10: volume 145 is 4.5
    deviations away. *)
Lemma zscore_saturates_at_three_sigma_witness :
  (@_detect_zscore Demo.numpy
     (set_histories (@new Demo.sklearn 50 (1 # 10))
        [90; 110; 90; 110; 90; 110]%Z [] []) 145).1 == 100.
Proof.
  apply (zscore_saturates_at_three_sigma Demo.numpy
           (set_histories (@new Demo.sklearn 50 (1 # 10))
              [90; 110; 90; 110; 90; 110]%Z [] []) 145).
  - simpl. lia.
  - vm_compute. discriminate.
  - vm_compute. discriminate.
Defined.

Lemma Qsum_all_eq (c : Q) (xs : list Q) :
  Forall (fun x => x == c) xs -> Qsum xs == inject_Z (Z.of_nat (length xs)) * c.
Proof.
  induction 1 as [|x xs Hx _ IH];
    [unfold Qsum; cbn [foldr length]; change (inject_Z (Z.of_nat 0)) with 0; ring|].
  cbn [Qsum foldr length]. fold (Qsum xs). rewrite IH, Hx.
  rewrite Nat2Z.inj_succ. unfold Z.succ. rewrite inject_Z_plus.
  change (inject_Z 1) with 1. ring.
Qed.

(** The mean of a non-empty list whose entries all equal [c] is [c]. *)
Lemma np_mean_all_eq (c : Q) (xs : list Q) :
  xs <> [] -> Forall (fun x => x == c) xs -> np_mean xs == c.
Proof.
  intros Hne Hall. unfold np_mean. rewrite (Qsum_all_eq c xs Hall).
  assert (Hn : ~ inject_Z (Z.of_nat (length xs)) == 0).
  { destruct xs as [|x xs]; [congruence|].
    intros E. unfold Qeq in E. cbn [inject_Z Qnum Qden length] in E. lia. }
  field. exact Hn.
Qed.

Lemma np_var_all_eq (c : Q) (xs : list Q) :
  xs <> [] -> Forall (fun x => x == c) xs -> np_var xs == 0.
Proof.
  intros Hne Hall. unfold np_var.
  apply np_mean_all_eq.
  - destruct xs; [congruence|discriminate].
  - apply Forall_fmap. eapply Forall_impl; [exact Hall|].
    intros x Hx. cbn. rewrite (np_mean_all_eq c xs Hne Hall), Hx. ring.
Qed.

(** X9: a window of at least 5 equal volumes has variance 0; when the square
    root takes a zero variance below 0.1, the z-score path answers exactly 0
    for every volume, however far from the window. *)
Theorem zscore_zero_on_constant_window :
  forall (np : Numpy) self c volume,
    (forall q, q == 0 -> np_sqrt q < 1 # 10) ->
    (5 <= length (volume_history self))%nat ->
    Forall (fun v => v = c) (volume_history self) ->
    np_var (map inject_Z (volume_history self)) == 0
    /\ (_detect_zscore self volume).1 = 0.
Proof.
  intros np self c volume Hsqrt Hlen Hconst.
  assert (Hvar : np_var (map inject_Z (volume_history self)) == 0).
  { apply (np_var_all_eq (inject_Z c)).
    - destruct (volume_history self); [cbn in Hlen; lia|discriminate].
    - apply Forall_fmap. eapply Forall_impl; [exact Hconst|].
      intros v ->. reflexivity. }
  split; [exact Hvar|].
  unfold _detect_zscore.
  destruct (Nat.ltb_spec (length (volume_history self)) 5) as [_|_]; [reflexivity|].
  cbv zeta. unfold np_std.
  destruct (Qltb (np_sqrt (np_var (map inject_Z (volume_history self)))) (1 # 10))
    eqn:E; [reflexivity|].
  apply Qltb_ge in E. exfalso.
  apply (Qlt_not_le _ _ (Hsqrt _ Hvar)). exact E.
Qed.

Lemma demo_sqrt_of_zero (q : Q) : q == 0 -> Demo.sqrt_milli q < 1 # 10.
Proof.
  intros E. unfold Demo.sqrt_milli.
  assert (Ef : Qfloor (q * 1000000) = 0%Z).
  { rewrite (Qfloor_comp (q * 1000000) 0); [reflexivity|]. rewrite E. reflexivity. }
  rewrite Ef. reflexivity.
Qed.

Lemma zscore_zero_on_constant_window_witness :
  (@_detect_zscore Demo.numpy
     (set_histories (@new Demo.sklearn 50 (1 # 10)) [10; 10; 10; 10; 10]%Z [] [])
     9999).1 = 0.
Proof.
  apply (zscore_zero_on_constant_window Demo.numpy
           (set_histories (@new Demo.sklearn 50 (1 # 10)) [10; 10; 10; 10; 10]%Z [] [])
           10%Z 9999).
  - exact demo_sqrt_of_zero.
  - simpl. lia.
  - repeat constructor.
Defined.

End ZScoreExtras.

(** ** The escalation metrics: ranges and the window *)

Section EscalationExtras.
Import Py Clustering Escalation.
Local Open Scope Q_scope.



Lemma acceleration_range self sentiments :
  0 <= (compute_sentiment_acceleration self sentiments).1
  /\ (compute_sentiment_acceleration self sentiments).1 <= 100.
Proof.
  assert (Hcap : forall a k, 0 <= k ->
            0 <= Qmin 100 (Qabs a * k) /\ Qmin 100 (Qabs a * k) <= 100).
  { intros a k Hk. split; [|apply Q.le_min_l].
    apply Q.min_glb; [lra|]. apply Qmult_le_0_compat; [apply Qabs_nonneg|exact Hk]. }
  unfold compute_sentiment_acceleration.
  destruct (length sentiments <? 2)%nat; [cbn; split; lra|].
  cbv zeta.
  set (tail := if Qltb _ _ then _ else _).
  assert (Htail : 0 <= tail /\ tail <= 100).
  { unfold tail. destruct (Qltb _ _); [apply Hcap; lra|split; lra]. }
  destruct (5 <=? _)%nat; [|exact Htail].
  destruct (map _ _); [exact Htail|]. cbn [fst]. apply Hcap. lra.
Qed.

(** X10: the sentiment acceleration [compute_metrics] reports lies between 0
    and 100, for every state of the window and every input. *)
Theorem sentiment_acceleration_within_0_100 :
  forall self sentiments clusters volume,
    0 <= sentimentAcceleration (compute_metrics self sentiments clusters volume).1
    /\ sentimentAcceleration (compute_metrics self sentiments clusters volume).1 <= 100.
Proof.
  intros self sentiments clusters volume.
  rewrite compute_metrics_acceleration. apply acceleration_range.
Qed.

Lemma sum_sizes_nonneg (clusters : list ClusterInfo) :
  Forall (fun c => (0 <= size c)%Z) clusters ->
  (0 <= foldr Z.add 0 (map size clusters))%Z.
Proof.
  induction 1 as [|c cs Hc _ IH]; [reflexivity|]. cbn. lia.
Qed.

Lemma spread_speed_upper clusters volume :
  compute_narrative_spread_speed clusters volume <= 100.
Proof.
  unfold compute_narrative_spread_speed.
  destruct clusters as [|c cs]; [lra|].
  destruct (volume =? 0)%Z; [lra|]. cbv zeta.
  pose proof (Q.le_min_l 50 (inject_Z (Z.of_nat (length (c :: cs)) * 10))).
  pose proof (Q.le_min_l 30
                (inject_Z (foldr Z.add 0%Z (map size (c :: cs))) / inject_Z volume * 30)).
  pose proof (Q.le_min_l 20
                (inject_Z
                   (foldr Z.add 0%Z
                      (map (fun _ => 1%Z)
                         (filter (fun c0 => Qltb 50 (growthRate c0) = true) (c :: cs)))
                    * 5))).
  lra.
Qed.

Lemma spread_speed_lower clusters volume :
  clusters <> [] -> (0 < volume)%Z ->
  Forall (fun c => (0 <= size c)%Z) clusters ->
  10 <= compute_narrative_spread_speed clusters volume.
Proof.
  intros Hne Hv Hsizes. unfold compute_narrative_spread_speed.
  destruct clusters as [|c cs] eqn:Ecl; [congruence|]. rewrite <- Ecl in *.
  destruct (Z.eqb_spec volume 0) as [->|_]; [lia|]. cbv zeta.
  assert (H1 : 10 <= Qmin 50 (inject_Z (Z.of_nat (length clusters) * 10))).
  { apply Q.min_glb; [lra|]. change 10 with (inject_Z 10). rewrite <- Zle_Qle.
    rewrite Ecl. cbn [length]. lia. }
  assert (H2 : 0 <= Qmin 30 (inject_Z (foldr Z.add 0%Z (map size clusters))
                             / inject_Z volume * 30)).
  { apply Q.min_glb; [lra|].
    apply Qmult_le_0_compat; [|lra].
    apply Qle_shift_div_l.
    - change 0 with (inject_Z 0). rewrite <- Zlt_Qlt. exact Hv.
    - rewrite Qmult_0_l. change 0 with (inject_Z 0). rewrite <- Zle_Qle.
      apply sum_sizes_nonneg. exact Hsizes. }
  assert (H3 : 0 <= Qmin 20 (inject_Z
                   (foldr Z.add 0%Z
                      (map (fun _ => 1%Z)
                         (filter (fun c0 => Qltb 50 (growthRate c0) = true) clusters))
                    * 5))).
  { apply Q.min_glb; [lra|]. change 0 with (inject_Z 0). rewrite <- Zle_Qle.
    assert (Hones : forall l : list ClusterInfo,
              (0 <= foldr Z.add 0 (map (fun _ => 1) l))%Z).
    { induction l as [|x l IH]; [reflexivity|]. cbn. lia. }
    specialize (Hones (filter (fun c0 => Qltb 50 (growthRate c0) = true) clusters)).
    lia. }
  lra.
Qed.

(** X11: the narrative spread speed never exceeds 100; and for a non-empty
    cluster list with sizes that are not negative, at a positive volume, it is
    at least 10. *)
Theorem spread_speed_range :
  forall clusters volume,
    compute_narrative_spread_speed clusters volume <= 100
    /\ (clusters <> [] -> (0 < volume)%Z ->
        Forall (fun c => (0 <= size c)%Z) clusters ->
        10 <= compute_narrative_spread_speed clusters volume).
Proof.
  intros clusters volume. split;
    [apply spread_speed_upper|apply spread_speed_lower].
Qed.

Lemma spread_speed_range_witness :
  let c := {| clusterId := "cluster-3"; keywords := []; size := 4;
              avgSentiment := 0; growthRate := 0; volatilityIndex := 0 |} in
  10 <= compute_narrative_spread_speed [c] 8.
Proof.
  intros c. apply (proj2 (spread_speed_range [c] 8)).
  - discriminate.
  - lia.
  - repeat constructor. discriminate.
Defined.



Lemma acceleration_window_length self sentiments :
  (length (sentiment_history self) <= 20)%nat ->
  (length (sentiment_history (compute_sentiment_acceleration self sentiments).2) <= 20)%nat
  /\ volume_history (compute_sentiment_acceleration self sentiments).2
     = volume_history self.
Proof.
  intros Hlen.
  destruct (Nat.lt_ge_cases (length sentiments) 2) as [Hshort|Hlong].
  - rewrite acceleration_short by exact Hshort. split; [exact Hlen|reflexivity].
  - split.
    + rewrite acceleration_state_long by exact Hlong.
      rewrite deque_extend_drop by exact Hlen. rewrite length_drop. lia.
    + unfold compute_sentiment_acceleration.
      destruct (Nat.ltb_spec (length sentiments) 2) as [Hlt|_]; [lia|].
      cbv zeta. destruct (5 <=? length _)%nat; [|reflexivity].
      destruct (map _ _); reflexivity.
Qed.

(** X13: after any sequence of [compute_metrics] calls on the compositor
    built at startup, the sentiment window holds at most 20 values, and the
    volume history of the compositor is still empty: no method writes it. *)
Theorem escalation_window_bounded :
  forall calls,
    (length (sentiment_history (run_metrics calls init)) <= 20)%nat
    /\ volume_history (run_metrics calls init) = [].
Proof.
  intros calls. unfold run_metrics.
  assert (Hgen : forall self,
    (length (sentiment_history self) <= 20)%nat ->
    (length (sentiment_history (fold_left metrics_step calls self)) <= 20)%nat
    /\ volume_history (fold_left metrics_step calls self) = volume_history self).
  { induction calls as [|[[sentiments clusters] volume] calls IH]; intros self Hlen;
      [split; [exact Hlen|reflexivity]|].
    cbn [fold_left]. unfold metrics_step at 2 4. cbn [fst snd].
    rewrite compute_metrics_state.
    destruct (acceleration_window_length self sentiments Hlen) as [Hlen' Hvol].
    destruct (IH _ Hlen') as [IH1 IH2].
    split; [exact IH1|]. rewrite IH2. exact Hvol. }
  apply Hgen. cbn. lia.
Qed.

End EscalationExtras.

(** ** Cluster summaries: what a call writes and what it reports *)

Section ClusterExtraFacts.
Import Py Clustering.
Local Open Scope Q_scope.
Context {np : Numpy} {ps : PySet}.

(** The labels [get_cluster_info] summarizes, in the order it meets them. *)
Lemma get_cluster_info_spec self labels texts sentiments :
  (length labels <= length texts)%nat ->
  (length labels <= length sentiments)%nat ->
  exists new prev',
    get_cluster_info self labels texts sentiments
    = (Some new, {| previous_sizes := prev' |})
    /\ Forall2 (summarizes labels (previous_sizes self))
               (filter (fun l => l <> (-1)%Z) (set_iter labels)) new
    /\ (forall l, l ∈ labels -> l <> (-1)%Z ->
          prev' !! cluster_id_of l = Some (member_count labels l))
    /\ (forall k, (forall l, l ∈ labels -> l <> (-1)%Z -> k <> cluster_id_of l) ->
          prev' !! k = previous_sizes self !! k).
Proof.
  intros Ht Hs. unfold get_cluster_info.
  destruct (cluster_loop_spec labels texts sentiments (previous_sizes self)
              Ht Hs (set_iter labels) (previous_sizes self) []
              (set_iter_NoDup labels) (fun _ _ => eq_refl))
    as (new & prev' & Hrun & Hall & Hmem & Hframe).
  rewrite Hrun. exists new, prev'. split; [reflexivity|]. split; [exact Hall|].
  split.
  - intros l Hl. apply Hmem. apply set_iter_elem. exact Hl.
  - intros k Hk. apply Hframe. intros l Hl. apply Hk. apply set_iter_elem. exact Hl.
Qed.

Lemma summaries_ids labels prev0 ls cs :
  Forall2 (summarizes labels prev0) ls cs ->
  map clusterId cs = map cluster_id_of ls
  /\ map size cs = map (member_count labels) ls.
Proof.
  induction 1 as [|l c ls cs (Hid & Hsize & _) _ [IH1 IH2]]; [split; reflexivity|].
  cbn. rewrite Hid, Hsize, IH1, IH2. split; reflexivity.
Qed.

Lemma cluster_id_of_Inj : Inj (=) (=) cluster_id_of.
Proof. intros l1 l2. apply cluster_id_of_inj. Qed.

Lemma member_count_pos labels l : l ∈ labels -> (1 <= member_count labels l)%Z.
Proof.
  intros Hin. unfold member_count.
  assert (Hf : l ∈ filter (fun x => x = l) labels)
    by (apply list_elem_of_filter; split; [reflexivity|exact Hin]).
  destruct (filter (fun x => x = l) labels); [inversion Hf|]. cbn [length]. lia.
Qed.

Lemma filter_none_length (labels : list Z) :
  length (filter (fun x => x ∈ @nil Z) labels) = 0%nat.
Proof.
  induction labels as [|x xs IH]; [reflexivity|].
  rewrite filter_cons, decide_False by apply not_elem_of_nil. exact IH.
Qed.

Lemma filter_cons_count (l : Z) (rest labels : list Z) :
  l ∉ rest ->
  (length (filter (fun x => x = l) labels) + length (filter (fun x => x ∈ rest) labels)
   = length (filter (fun x => x ∈ l :: rest) labels))%nat.
Proof.
  intros Hl. induction labels as [|x xs IH]; [reflexivity|].
  rewrite !filter_cons.
  destruct (decide (x = l)) as [E|Hne].
  - subst x. rewrite (decide_False (P := l ∈ rest)) by exact Hl.
    rewrite (decide_True (P := l ∈ l :: rest)) by (left; reflexivity).
    cbn [length]. rewrite <- IH. lia.
  - destruct (decide (x ∈ rest)) as [Hin|Hnin].
    + rewrite (decide_True (P := x ∈ l :: rest)) by (right; exact Hin).
      cbn [length]. rewrite <- IH. lia.
    + rewrite (decide_False (P := x ∈ l :: rest)); [exact IH|].
      intros Hx. apply elem_of_cons in Hx as [Hx|Hx]; [congruence|contradiction].
Qed.

(** The member counts of distinct labels add up to the number of entries
    carrying one of them. *)
Lemma member_count_sum labels todo :
  NoDup todo ->
  foldr Z.add 0%Z (map (member_count labels) todo)
  = Z.of_nat (length (filter (fun x => x ∈ todo) labels)).
Proof.
  induction 1 as [|l rest Hl _ IH].
  - cbn [map foldr]. rewrite filter_none_length. reflexivity.
  - cbn [map foldr]. rewrite IH. unfold member_count.
    rewrite <- Nat2Z.inj_add. f_equal. apply filter_cons_count. exact Hl.
Qed.

Lemma filter_ext_length {A} (P Q : A -> Prop)
    `{forall x, Decision (P x)} `{forall x, Decision (Q x)} (l : list A) :
  (forall x, x ∈ l -> P x <-> Q x) -> length (filter P l) = length (filter Q l).
Proof.
  induction l as [|x l IH]; intros Hext; [reflexivity|].
  rewrite !filter_cons.
  assert (IH' : length (filter P l) = length (filter Q l))
    by (apply IH; intros y Hy; apply Hext; right; exact Hy).
  destruct (decide (P x)) as [HP|HP]; destruct (decide (Q x)) as [HQ|HQ];
    cbn [length]; try (rewrite IH'; reflexivity).
  - exfalso. apply HQ, (Hext x); [left|exact HP].
  - exfalso. apply HP, (Hext x); [left|exact HQ].
Qed.

(** Dropping one value from a list without repetition shortens it by one if
    the value is there. *)
Lemma filter_ne_length (a : Z) (l : list Z) :
  NoDup l ->
  (length (filter (fun x => x <> a) l) + (if decide (a ∈ l) then 1 else 0)
   = length l)%nat.
Proof.
  induction 1 as [|x l Hx _ IH]; [reflexivity|].
  rewrite filter_cons. destruct (decide (x = a)) as [->|Hne].
  - rewrite decide_False by (intros E; apply E; reflexivity).
    rewrite decide_True by (left; reflexivity).
    rewrite decide_False in IH by exact Hx. cbn [length]. lia.
  - rewrite decide_True by exact Hne. cbn [length].
    destruct (decide (a ∈ l)) as [Hin|Hnin].
    + rewrite decide_True by (right; exact Hin). lia.
    + rewrite decide_False; [lia|].
      intros Ha. apply elem_of_cons in Ha as [Ha|Ha]; [congruence|contradiction].
Qed.

End ClusterExtraFacts.

Section ClusterExtras.
Import Py Clustering.
Local Open Scope Q_scope.

(** X14: [get_cluster_info] writes the growth memory only at the ids of the
    labels of the batch other than -1: every other key keeps its value.  In
    particular a batch labelled -1 throughout yields no summary and leaves the
    service as it was, and no summary ever carries the id of the label
    -1. *)
Theorem cluster_info_memory_frame :
  forall (np : Numpy) (ps : PySet) self labels texts sentiments,
    length texts = length labels ->
    length sentiments = length labels ->
    let r := get_cluster_info self labels texts sentiments in
    (forall k, (forall l, l ∈ labels -> l <> (-1)%Z -> k <> cluster_id_of l) ->
       previous_sizes r.2 !! k = previous_sizes self !! k)
    /\ (Forall (fun l => l = (-1)%Z) labels -> r = (Some [], self))
    /\ (forall clusters c, r.1 = Some clusters -> c ∈ clusters ->
          clusterId c <> cluster_id_of (-1)).
Proof.
  intros np ps self labels texts sentiments Ht Hs r. subst r.
  destruct (get_cluster_info_spec self labels texts sentiments ltac:(lia) ltac:(lia))
    as (new & prev' & -> & Hall & _ & Hframe).
  cbn [fst snd previous_sizes]. split; [exact Hframe|]. split.
  - intros Hnoise.
    assert (Hflt : filter (fun l => l <> (-1)%Z) (set_iter labels) = []).
    { destruct (filter (fun l => l <> (-1)%Z) (set_iter labels)) as [|x xs] eqn:E;
        [reflexivity|].
      assert (Hx : x ∈ filter (fun l => l <> (-1)%Z) (set_iter labels))
        by (rewrite E; left).
      apply list_elem_of_filter in Hx as [Hne Hx].
      apply (proj1 (set_iter_elem labels x)) in Hx.
      rewrite Forall_forall in Hnoise. specialize (Hnoise x Hx). contradiction. }
    rewrite Hflt in Hall. inversion Hall; subst.
    assert (Hprev : prev' = previous_sizes self).
    { apply map_eq. intros k. apply Hframe. intros l Hl Hne.
      rewrite Forall_forall in Hnoise. specialize (Hnoise l Hl). contradiction. }
    rewrite Hprev. destruct self; reflexivity.
  - intros clusters c E Hc. injection E as <-.
    apply list_elem_of_lookup in Hc as [i Hi].
    destruct (Forall2_lookup_r _ _ _ _ _ Hall Hi) as (l & Hl & Hid & _).
    assert (Hin : l ∈ filter (fun l => l <> (-1)%Z) (set_iter labels))
      by (apply list_elem_of_lookup; exists i; exact Hl).
    apply list_elem_of_filter in Hin as [Hne _].
    rewrite Hid. intros E. apply cluster_id_of_inj in E. contradiction.
Qed.

Lemma cluster_info_memory_frame_witness :
  @get_cluster_info Demo.numpy Demo.pyset
    {| previous_sizes := {[ "cluster-7"%string := 3%Z ]} |}
    [-1; -1; -1]%Z ["a"; "b"; "c"]%string [0; 0; 0]
  = (Some [], {| previous_sizes := {[ "cluster-7"%string := 3%Z ]} |}).
Proof.
  apply (cluster_info_memory_frame Demo.numpy Demo.pyset
           {| previous_sizes := {[ "cluster-7"%string := 3%Z ]} |}
           [-1; -1; -1]%Z ["a"; "b"; "c"]%string [0; 0; 0] eq_refl eq_refl).
  repeat constructor.
Defined.

(** X15: the summaries of one call partition the clustered posts: their ids
    are pairwise distinct, there is one per distinct label other than -1, each
    has at least one member, and the sizes add up to the number of posts whose
    label is not -1. *)
Theorem cluster_summaries_partition :
  forall (np : Numpy) (ps : PySet) self labels texts sentiments,
    length texts = length labels ->
    length sentiments = length labels ->
    exists clusters self',
      get_cluster_info self labels texts sentiments = (Some clusters, self')
      /\ NoDup (map clusterId clusters)
      /\ length clusters
         = length (remove_dups (filter (fun l => l <> (-1)%Z) labels))
      /\ Forall (fun c => (1 <= size c)%Z) clusters
      /\ foldr Z.add 0%Z (map size clusters)
         = Z.of_nat (length (filter (fun l => l <> (-1)%Z) labels)).
Proof.
  intros np ps self labels texts sentiments Ht Hs.
  destruct (get_cluster_info_spec self labels texts sentiments ltac:(lia) ltac:(lia))
    as (new & prev' & -> & Hall & _ & _).
  set (flt := filter (fun l => l <> (-1)%Z) (set_iter labels)) in *.
  assert (Hnd : NoDup flt) by (apply NoDup_filter, set_iter_NoDup).
  assert (Helem : forall x, x ∈ flt <-> x <> (-1)%Z /\ x ∈ labels).
  { intros x. unfold flt. rewrite list_elem_of_filter, set_iter_elem. tauto. }
  destruct (summaries_ids _ _ _ _ Hall) as [Hids Hsizes].
  exists new, {| previous_sizes := prev' |}. split; [reflexivity|].
  split; [|split; [|split]].
  - rewrite Hids. apply (NoDup_fmap_2 cluster_id_of (Inj0 := cluster_id_of_Inj)). exact Hnd.
  - rewrite <- (Forall2_length _ _ _ Hall).
    apply Permutation_length. apply NoDup_Permutation;
      [exact Hnd|apply NoDup_remove_dups|].
    intros x. rewrite Helem, elem_of_remove_dups, list_elem_of_filter. tauto.
  - apply Forall_forall. intros c Hc.
    apply list_elem_of_lookup in Hc as [i Hi].
    destruct (Forall2_lookup_r _ _ _ _ _ Hall Hi) as (l & Hl & _ & Hsize & _).
    rewrite Hsize. apply member_count_pos.
    apply (Helem l). apply list_elem_of_lookup. exists i. exact Hl.
  - rewrite Hsizes, (member_count_sum labels flt Hnd). f_equal.
    apply filter_ext_length. intros x Hx. rewrite Helem. tauto.
Qed.

Lemma cluster_summaries_partition_witness :
  exists clusters self',
    @get_cluster_info Demo.numpy Demo.pyset init
      [2; -1; 0; 2; 2; -1; 0]%Z
      ["a"; "b"; "c"; "d"; "e"; "f"; "g"]%string [0; 0; 0; 0; 0; 0; 0]
    = (Some clusters, self')
    /\ foldr Z.add 0%Z (map size clusters) = 5%Z.
Proof.
  destruct (cluster_summaries_partition Demo.numpy Demo.pyset init
              [2; -1; 0; 2; 2; -1; 0]%Z
              ["a"; "b"; "c"; "d"; "e"; "f"; "g"]%string [0; 0; 0; 0; 0; 0; 0]
              eq_refl eq_refl)
    as (clusters & self' & Hrun & _ & _ & _ & Hsum).
  exists clusters, self'. split; [exact Hrun|exact Hsum].
Defined.

(** X16: for at least 3 embeddings on which the provider succeeds, the
    cluster count [cluster] returns is the number of summaries
    [get_cluster_info] builds from the labels it returns. *)
Theorem cluster_count_matches_summaries :
  forall (np : Numpy) (cl : Clusterer) (ps : PySet) self embeddings labels texts sentiments,
    (3 <= length embeddings)%nat ->
    fit_predict embeddings = Some labels ->
    length texts = length labels ->
    length sentiments = length labels ->
    (cluster embeddings).1 = labels
    /\ exists clusters self',
         get_cluster_info self (cluster embeddings).1 texts sentiments
         = (Some clusters, self')
         /\ (cluster embeddings).2 = Z.of_nat (length clusters).
Proof.
  intros np cl ps self embeddings labels texts sentiments Hlen Hfit Ht Hs.
  unfold cluster.
  destruct (Nat.ltb_spec (length embeddings) 3) as [Hbad|_]; [lia|].
  rewrite Hfit. cbn [fst snd]. split; [reflexivity|].
  destruct (get_cluster_info_spec self labels texts sentiments ltac:(lia) ltac:(lia))
    as (new & prev' & -> & Hall & _ & _).
  exists new, {| previous_sizes := prev' |}. split; [reflexivity|].
  rewrite <- (Forall2_length _ _ _ Hall).
  pose proof (filter_ne_length (-1) (set_iter labels) (set_iter_NoDup labels)) as Hcount.
  destruct (decide ((-1)%Z ∈ labels)) as [Hin|Hnin].
  - rewrite decide_True in Hcount by (apply set_iter_elem; exact Hin). lia.
  - rewrite decide_False in Hcount by (rewrite set_iter_elem; exact Hnin). lia.
Qed.

Lemma cluster_count_matches_summaries_witness :
  (@cluster Demo.clusterer Demo.pyset [[0]; [1]; [2]; [3]]).2 = 1%Z.
Proof.
  destruct (cluster_count_matches_summaries Demo.numpy Demo.clusterer Demo.pyset
              init [[0]; [1]; [2]; [3]] [0; 0; 0; 0]%Z
              ["a"; "b"; "c"; "d"]%string [0; 0; 0; 0]
              ltac:(simpl; lia) eq_refl eq_refl eq_refl)
    as (_ & clusters & self' & Hrun & Hcount).
  rewrite Hcount. vm_compute in Hrun. injection Hrun as <- _. reflexivity.
Defined.

End ClusterExtras.

Section ClusterContentFacts.
Import Py Clustering.
Local Open Scope Q_scope.
Context {np : Numpy}.


(** Every summary the loop adds comes from [summarize_label] on a label of
    the list other than -1. *)
Lemma cluster_loop_origin labels texts sentiments todo :
  forall prev acc res prev',
    cluster_loop prev labels texts sentiments todo acc = (Some res, prev') ->
    forall c, c ∈ res ->
      c ∈ acc
      \/ exists l p p', l ∈ todo /\ l <> (-1)%Z
           /\ summarize_label p labels texts sentiments l = Some (c, p').
Proof.
  induction todo as [|l rest IH]; intros prev acc res prev' Hrun c Hc.
  - cbn in Hrun. injection Hrun as <- _. left. exact Hc.
  - cbn [cluster_loop] in Hrun.
    destruct (Z.eqb_spec l (-1)) as [->|Hne].
    + destruct (IH _ _ _ _ Hrun c Hc) as [Hacc|(l' & p & p' & Hl' & Hrest)];
        [left; exact Hacc|].
      right. exists l', p, p'. split; [right; exact Hl'|exact Hrest].
    + destruct (summarize_label prev labels texts sentiments l) as [[c0 prev1]|] eqn:Es;
        [|discriminate].
      destruct (IH _ _ _ _ Hrun c Hc) as [Hacc|(l' & p & p' & Hl' & Hrest)].
      * apply elem_of_app in Hacc as [Hacc|Hacc]; [left; exact Hacc|].
        apply list_elem_of_singleton in Hacc as ->.
        right. exists l, prev, prev1. split; [left|]. split; [exact Hne|exact Es].
      * right. exists l', p, p'. split; [right; exact Hl'|exact Hrest].
Qed.


End ClusterContentFacts.

Section ClusterContentExtras.
Import Py Clustering.
Local Open Scope Q_scope.



(** A call on labels whose sizes the memory already holds reports growth 0
    for every summary and leaves the service as it was. *)
Lemma steady_call (np : Numpy) (ps : PySet) self labels texts sentiments :
  length texts = length labels -> length sentiments = length labels ->
  (forall l, l ∈ labels -> l <> (-1)%Z ->
     previous_sizes self !! cluster_id_of l = Some (member_count labels l)) ->
  exists clusters,
    get_cluster_info self labels texts sentiments = (Some clusters, self)
    /\ Forall (fun c => growthRate c == 0) clusters.
Proof.
  intros Ht Hs Hheld.
  destruct (get_cluster_info_spec self labels texts sentiments ltac:(lia) ltac:(lia))
    as (new & prev' & -> & Hall & Hmem & Hframe).
  exists new. split.
  - f_equal. destruct self as [prev]. f_equal. cbn [previous_sizes] in *.
    apply map_eq. intros k.
    destruct (decide (k ∈ map cluster_id_of
                        (filter (fun l => l <> (-1)%Z) labels))) as [Hk|Hk].
    + apply list_elem_of_fmap in Hk as (l & -> & Hl).
      apply list_elem_of_filter in Hl as [Hne Hl].
      rewrite (Hmem l Hl Hne), (Hheld l Hl Hne). reflexivity.
    + apply Hframe. intros l Hl Hne ->. apply Hk.
      apply list_elem_of_fmap. exists l. split; [reflexivity|].
      apply list_elem_of_filter. split; assumption.
  - apply Forall_forall. intros c Hc.
    apply list_elem_of_lookup in Hc as [i Hi].
    destruct (Forall2_lookup_r _ _ _ _ _ Hall Hi) as (l & Hl & _ & _ & Hgrowth).
    assert (Hin : l ∈ filter (fun l => l <> (-1)%Z) (set_iter labels))
      by (apply list_elem_of_lookup; exists i; exact Hl).
    apply list_elem_of_filter in Hin as [Hne Hin].
    apply (proj1 (set_iter_elem labels l)) in Hin.
    rewrite Hgrowth, (Hheld l Hin Hne). cbn [default]. unfold growth_of.
    rewrite Z.sub_diag. unfold Qdiv. rewrite Qmult_0_l. reflexivity.
Qed.

(** X18: summarizing the same labels twice in a row reports growth 0 the
    second time: every summary of the second call has growth rate 0, and the
    second call leaves the growth memory as the first one left it. *)
Theorem repeated_batch_has_zero_growth :
  forall (np : Numpy) (ps : PySet) self labels texts1 sentiments1 texts2 sentiments2,
    length texts1 = length labels -> length sentiments1 = length labels ->
    length texts2 = length labels -> length sentiments2 = length labels ->
    let r1 := get_cluster_info self labels texts1 sentiments1 in
    let r2 := get_cluster_info r1.2 labels texts2 sentiments2 in
    exists clusters2,
      r2.1 = Some clusters2
      /\ Forall (fun c => growthRate c == 0) clusters2
      /\ r2.2 = r1.2.
Proof.
  intros np ps self labels texts1 sentiments1 texts2 sentiments2 Ht1 Hs1 Ht2 Hs2 r1 r2.
  subst r1 r2.
  destruct (get_cluster_info_spec self labels texts1 sentiments1 ltac:(lia) ltac:(lia))
    as (new1 & prev1 & -> & _ & Hmem1 & _).
  cbn [snd].
  destruct (steady_call np ps {| previous_sizes := prev1 |} labels texts2 sentiments2
              Ht2 Hs2 Hmem1) as (clusters2 & -> & Hzero).
  exists clusters2. cbn [fst snd]. repeat split; [exact Hzero].
Qed.

Lemma repeated_batch_has_zero_growth_witness :
  let r1 := @get_cluster_info Demo.numpy Demo.pyset init [0; 0; 1; -1]%Z
              ["a"; "b"; "c"; "d"]%string [0; 0; 0; 0] in
  exists clusters2,
    (@get_cluster_info Demo.numpy Demo.pyset r1.2 [0; 0; 1; -1]%Z
       ["e"; "f"; "g"; "h"]%string [1; 1; 1; 1]).1 = Some clusters2
    /\ Forall (fun c => growthRate c == 0) clusters2.
Proof.
  intros r1.
  destruct (repeated_batch_has_zero_growth Demo.numpy Demo.pyset init [0; 0; 1; -1]%Z
              ["a"; "b"; "c"; "d"]%string [0; 0; 0; 0]
              ["e"; "f"; "g"; "h"]%string [1; 1; 1; 1]
              eq_refl eq_refl eq_refl eq_refl)
    as (clusters2 & Hrun & Hzero & _).
  exists clusters2. split; [exact Hrun|exact Hzero].
Defined.

End ClusterContentExtras.

(** ** Keywords: distinctness and letter case *)

Section KeywordExtras.
Import Clustering.

(** The keyword list is the head of the ranked dictionary of the counted
    words. *)
Lemma keywords_dict texts :
  let ws := filter (fun w => w ∉ stop_words) (all_tokens texts) in
  exists d,
    dict_inv ws d
    /\ _extract_keywords texts = (take 5 (sorted_desc d)).*1.
Proof.
  intros ws. unfold _extract_keywords.
  rewrite word_freq_stream, counted_stream. fold ws.
  exists (fold_left (fun d w => dict_incr w d) ws []).
  split; [apply count_words_inv|reflexivity].
Qed.

(** X19: no keyword is listed twice, and the list has 5 entries or, when
    the texts hold fewer than 5 distinct counted words, one entry per distinct
    counted word; it is empty exactly when the texts hold no counted
    word. *)
Theorem keywords_distinct_and_complete :
  forall texts,
    let distinct := remove_dups (filter (fun w => w ∉ stop_words) (all_tokens texts)) in
    NoDup (_extract_keywords texts)
    /\ length (_extract_keywords texts) = Nat.min 5 (length distinct)
    /\ (_extract_keywords texts = [] <-> distinct = []).
Proof.
  intros texts distinct.
  destruct (keywords_dict texts) as (d & (Hnd & Hcount & Hdom & _) & ->).
  set (ws := filter (fun w => w ∉ stop_words) (all_tokens texts)) in *.
  assert (Hperm : d.*1 ≡ₚ distinct).
  { apply NoDup_Permutation; [exact Hnd|apply NoDup_remove_dups|].
    intros w. unfold distinct. rewrite elem_of_remove_dups. split.
    - intros Hw. apply list_elem_of_fmap in Hw as ([w' c] & -> & Hw).
      apply (Hcount w' c). exact Hw.
    - apply Hdom. }
  assert (Hlen : length (take 5 (sorted_desc d)).*1 = Nat.min 5 (length distinct)).
  { rewrite length_fmap, length_take.
    rewrite (Permutation_length (sorted_desc_perm d)).
    rewrite <- (Permutation_length Hperm), length_fmap. reflexivity. }
  split; [|split].
  - rewrite fmap_take.
    apply (sublist_NoDup _ (sorted_desc d).*1); [|apply sublist_take].
    rewrite (fmap_Permutation fst _ _ (sorted_desc_perm d)). exact Hnd.
  - exact Hlen.
  - split; intros E.
    + rewrite E in Hlen. cbn in Hlen.
      destruct distinct; [reflexivity|cbn in Hlen; lia].
    + rewrite E in Hlen. cbn in Hlen.
      destruct ((take 5 (sorted_desc d)).*1); [reflexivity|cbn in Hlen; lia].
Qed.

Lemma lower_idempotent (s : list ascii) : lower (lower s) = lower s.
Proof.
  unfold lower. rewrite map_map. apply map_ext. intros c.
  unfold lower_char at 1. rewrite lower_char_not_upper. reflexivity.
Qed.

Lemma findall_words_lower text : findall_words (str_lower text) = findall_words text.
Proof.
  unfold findall_words, str_lower.
  rewrite list_ascii_of_string_of_list_ascii, lower_idempotent. reflexivity.
Qed.

(** The keywords depend on the texts through the words found in each. *)
Lemma keywords_from_words texts1 texts2 :
  map findall_words texts1 = map findall_words texts2 ->
  _extract_keywords texts1 = _extract_keywords texts2.
Proof.
  intros E. unfold _extract_keywords. rewrite !word_freq_stream.
  assert (Ec : map counted_words texts1 = map counted_words texts2).
  { unfold counted_words.
    change (fun text => filter (fun w => w ∉ stop_words) (findall_words text))
      with (fun text => (fun ws => filter (fun w => w ∉ stop_words) ws)
                          (findall_words text)).
    rewrite <- !(map_map findall_words
                   (fun ws => filter (fun w => w ∉ stop_words) ws)).
    rewrite E. reflexivity. }
  rewrite Ec. reflexivity.
Qed.

(** X20: keyword extraction ignores letter case: two lists of texts that
    are equal once lower-cased have the same keywords, which are those of the
    lower-cased texts. *)
Theorem keywords_ignore_case :
  forall texts1 texts2,
    map str_lower texts1 = map str_lower texts2 ->
    _extract_keywords texts1 = _extract_keywords texts2
    /\ _extract_keywords (map str_lower texts1) = _extract_keywords texts1.
Proof.
  assert (Hlow : forall texts,
            map findall_words (map str_lower texts) = map findall_words texts).
  { intros texts. rewrite map_map. apply map_ext. intros t.
    apply findall_words_lower. }
  intros texts1 texts2 E. split.
  - apply keywords_from_words. rewrite <- (Hlow texts1), <- (Hlow texts2), E.
    reflexivity.
  - apply keywords_from_words. apply Hlow.
Qed.

Lemma keywords_ignore_case_witness :
  _extract_keywords ["FIRE Downtown"; "Fire now"]%string
  = _extract_keywords ["fire downTOWN"; "fiRe NOW"]%string.
Proof.
  apply (keywords_ignore_case ["FIRE Downtown"; "Fire now"]%string
           ["fire downTOWN"; "fiRe NOW"]%string).
  reflexivity.
Defined.

End KeywordExtras.

(** ** The sentiment and embedding services *)

Section SentimentExtras.
Import Sentiment.
Local Open Scope Q_scope.

Lemma polarity_range (r : string * Q) :
  0 <= r.2 /\ r.2 <= 1 ->
  (-(1) <= polarity r /\ polarity r <= 1)
  /\ (r.1 = "NEGATIVE"%string -> polarity r <= 0)
  /\ (r.1 <> "NEGATIVE"%string -> 0 <= polarity r).
Proof.
  intros [H0 H1]. unfold polarity.
  destruct (decide (r.1 = "NEGATIVE"%string)) as [E|E].
  - split; [split; lra|]. split; [intros _; lra|intros Hne; contradiction].
  - split; [split; lra|]. split; [intros Heq; contradiction|intros _; lra].
Qed.

(** X21: when the pipeline gives scores between 0 and 1, [analyze] returns
    one polarity per result, each in [-1, 1], not positive for a result labelled
    "NEGATIVE" and not negative for any other label; and for no text it returns
    the empty list whatever the pipeline would answer. *)
Theorem sentiment_polarities_in_range :
  forall (cls : Classifier) texts,
    Forall (fun r => 0 <= r.2 /\ r.2 <= 1) (classifier (map truncate texts)) ->
    analyze [] = []
    /\ Forall (fun p => -(1) <= p /\ p <= 1) (analyze texts)
    /\ (texts <> [] ->
        Forall2 (fun r p =>
                   (r.1 = "NEGATIVE"%string -> p <= 0)
                   /\ (r.1 <> "NEGATIVE"%string -> 0 <= p))
                (classifier (map truncate texts)) (analyze texts)).
Proof.
  intros cls texts Hscores. split; [reflexivity|].
  unfold analyze. destruct texts as [|t ts] eqn:Et; [split; [constructor|congruence]|].
  rewrite <- Et in *. clear Et.
  split.
  - apply Forall_fmap. eapply Forall_impl; [exact Hscores|].
    intros r Hr. apply polarity_range. exact Hr.
  - intros _. apply Forall2_fmap_r.
    induction Hscores as [|r rs Hr _ IH]; constructor; [|exact IH].
    apply polarity_range. exact Hr.
Qed.

Lemma sentiment_polarities_in_range_witness :
  Forall (fun p => -(1) <= p /\ p <= 1)
         (@analyze Demo.classifier ["bad news"; "good news"]%string).
Proof.
  apply (sentiment_polarities_in_range Demo.classifier ["bad news"; "good news"]%string).
  repeat constructor; cbn; lra.
Defined.

Lemma substring_0_idempotent (n : nat) (s : string) :
  substring 0 n (substring 0 n s) = substring 0 n s.
Proof.
  revert s. induction n as [|n IH]; intros s; destruct s as [|c s]; cbn;
    try reflexivity.
  rewrite IH. reflexivity.
Qed.

Lemma substring_0_length (n : nat) (s : string) :
  String.length (substring 0 n s) = Nat.min n (String.length s).
Proof.
  revert s. induction n as [|n IH]; intros s; destruct s as [|c s]; cbn;
    try reflexivity.
  rewrite IH. reflexivity.
Qed.

(** X22: [analyze] sees the first 512 characters of each text only: texts
    that agree once cut to 512 characters get the same polarities, and cutting
    the texts beforehand changes nothing.  The cut text has at most 512
    characters. *)
Theorem sentiment_reads_first_512_characters :
  forall (cls : Classifier) texts1 texts2,
    map truncate texts1 = map truncate texts2 ->
    analyze texts1 = analyze texts2
    /\ analyze (map truncate texts1) = analyze texts1
    /\ Forall (fun t => (String.length t <= 512)%nat) (map truncate texts1).
Proof.
  assert (Hdep : forall (cls : Classifier) a b,
            map truncate a = map truncate b -> analyze a = analyze b).
  { intros cls a b E. unfold analyze.
    destruct a as [|x a], b as [|y b]; try discriminate E; [reflexivity|].
    rewrite E. reflexivity. }
  intros cls texts1 texts2 E. split; [apply Hdep; exact E|]. split.
  - apply Hdep. rewrite map_map. apply map_ext. intros t.
    apply substring_0_idempotent.
  - apply Forall_fmap. apply Forall_forall. intros t _. cbn.
    unfold truncate. rewrite substring_0_length. lia.
Qed.

(** Two texts of 515 characters that differ in the 514th. *)
Lemma sentiment_reads_first_512_characters_witness :
  let long := string_of_list_ascii (replicate 512 "a"%char) in
  @analyze Demo.classifier [long +:+ "bad"]%string
  = @analyze Demo.classifier [long +:+ "bid"]%string.
Proof.
  intros long.
  apply (sentiment_reads_first_512_characters Demo.classifier
           [long +:+ "bad"]%string [long +:+ "bid"]%string).
  vm_compute. reflexivity.
Defined.

End SentimentExtras.

(** ** The batch endpoint: what a response holds *)

Section RouterExtraFacts.
Import Py Clustering Router.
Local Open Scope Q_scope.
Context {np : Numpy} {sk : Anomaly.Sklearn} {md : Models} {cl : Clusterer} {ps : PySet}.

Lemma get_cluster_info_sizes self labels texts sentiments clusters self' :
  get_cluster_info self labels texts sentiments = (Some clusters, self') ->
  Forall (fun c => (1 <= size c)%Z) clusters.
Proof.
  intros Hrun. unfold get_cluster_info in Hrun.
  destruct (cluster_loop _ _ _ _ _ _) as [r prev] eqn:Eloop.
  injection Hrun as -> _.
  apply Forall_forall. intros c Hc.
  destruct (cluster_loop_origin _ _ _ _ _ _ _ _ Eloop c Hc)
    as [Hnil|(l & p & p' & Hl & _ & Hsum)]; [inversion Hnil|].
  destruct (summarize_label_inv _ _ _ _ _ _ _ Hsum) as (_ & -> & _).
  apply member_count_pos. apply set_iter_elem. exact Hl.
Qed.

(** A response to a non-empty batch, taken apart. *)
Lemma analyze_posts_inv s posts resp :
  posts <> [] ->
  (analyze_posts s posts).1 = Some resp ->
  let texts := map text posts in
  let sentiments := analyze texts in
  let volume := Z.of_nat (length posts) in
  exists cs,
    get_cluster_info (clustering_service s) (cluster (encode texts)).1 texts sentiments
    = (Some (clusters resp), cs)
    /\ clustering_service (analyze_posts s posts).2 = cs
    /\ anomalyScore (metrics resp) = (Anomaly.detect (anomaly_service s) volume).1
    /\ sentimentAcceleration (metrics resp)
       = Escalation.sentimentAcceleration
           (Escalation.compute_metrics (escalation_service s) sentiments
              (clusters resp) volume).1
    /\ clusterGrowthRate (metrics resp)
       = Escalation.compute_cluster_growth_rate (clusters resp)
    /\ narrativeSpreadSpeed (metrics resp)
       = Escalation.compute_narrative_spread_speed (clusters resp) volume
    /\ enrichedPosts resp
       = imap (fun i post =>
                 {| post_id := id post; post_text := text post;
                    sentimentScore := default 0 (sentiments !! i);
                    embedding := default [] (encode texts !! i) |}) posts.
Proof.
  intros Hne. unfold analyze_posts.
  destruct posts as [|p rest]; [congruence|]. clear Hne.
  destruct (cluster _) as [labels n_clusters]. cbn [fst].
  destruct (get_cluster_info _ _ _ _) as [[cls|] cs]; [|discriminate].
  destruct (Anomaly.detect _ _) as [score an].
  unfold Escalation.compute_metrics.
  destruct (Escalation.compute_sentiment_acceleration _ _) as [acc es].
  cbn. intros E. injection E as <-. cbn.
  exists cs. repeat split; reflexivity.
Qed.

Lemma imap_fields (posts : list PostInput) :
  forall (f : nat -> PostInput -> EnrichedPost),
    (forall i p, post_id (f i p) = id p /\ post_text (f i p) = text p) ->
    map post_id (imap f posts) = map id posts
    /\ map post_text (imap f posts) = map text posts.
Proof.
  induction posts as [|p posts IH]; intros f Hf; [split; reflexivity|].
  cbn. destruct (Hf 0%nat p) as [-> ->].
  destruct (IH (f ∘ S)) as [-> ->]; [intros i q; apply Hf|]. split; reflexivity.
Qed.

End RouterExtraFacts.

Section RouterExtras.
Import Py Clustering Router.
Local Open Scope Q_scope.

(** X23: a response lists the posts of the batch one to one and in order,
    each with its own id and text, its sentiment (0 if the provider returned
    too few) and its embedding (empty if the provider returned too few). *)
Theorem response_lists_posts_in_order :
  forall (np : Numpy) (sk : Anomaly.Sklearn) (md : Models) (cl : Clusterer)
         (ps : PySet) s posts resp,
    (analyze_posts s posts).1 = Some resp ->
    map post_id (enrichedPosts resp) = map id posts
    /\ map post_text (enrichedPosts resp) = map text posts
    /\ forall i e, enrichedPosts resp !! i = Some e ->
         sentimentScore e = default 0 (analyze (map text posts) !! i)
         /\ embedding e = default [] (encode (map text posts) !! i).
Proof.
  intros np sk md cl ps s posts resp Hresp.
  destruct posts as [|p rest] eqn:Ep.
  - cbn in Hresp. injection Hresp as <-. cbn.
    split; [reflexivity|]. split; [reflexivity|]. intros i e Hi. inversion Hi.
  - rewrite <- Ep in *.
    destruct (analyze_posts_inv s posts resp ltac:(rewrite Ep; discriminate) Hresp)
      as (cs & _ & _ & _ & _ & _ & _ & ->).
    destruct (imap_fields posts
                (fun i post =>
                   {| post_id := id post; post_text := text post;
                      sentimentScore := default 0 (analyze (map text posts) !! i);
                      embedding := default [] (encode (map text posts) !! i) |}))
      as [Hids Htexts]; [intros i q; split; reflexivity|].
    split; [exact Hids|]. split; [exact Htexts|].
    intros i e Hi. rewrite list_lookup_imap in Hi.
    destruct (posts !! i) as [q|]; [|discriminate Hi].
    cbn in Hi. injection Hi as <-. split; reflexivity.
Qed.

Lemma response_lists_posts_in_order_witness :
  exists resp,
    (@analyze_posts Demo.numpy Demo.models Demo.clusterer Demo.pyset
       (@startup Demo.sklearn)
       (map demo_post ["fire downtown"; "all calm"; "smoke"]%string)).1 = Some resp
    /\ map post_id (enrichedPosts resp) = ["fire downtown"; "all calm"; "smoke"]%string.
Proof.
  eexists. split; [vm_compute; reflexivity|].
  apply (response_lists_posts_in_order Demo.numpy Demo.sklearn Demo.models
           Demo.clusterer Demo.pyset (@startup Demo.sklearn)
           (map demo_post ["fire downtown"; "all calm"; "smoke"]%string)).
  vm_compute. reflexivity.
Defined.

(** X24: in every response of the endpoint, whatever the state of the
    services and the answers of the providers, the sentiment acceleration, the
    anomaly score and the narrative spread speed lie between 0 and 100, and
    every cluster summary has at least one member. *)
Theorem response_metrics_within_0_100 :
  forall (np : Numpy) (sk : Anomaly.Sklearn) (md : Models) (cl : Clusterer)
         (ps : PySet) s posts resp,
    (analyze_posts s posts).1 = Some resp ->
    (0 <= sentimentAcceleration (metrics resp)
     /\ sentimentAcceleration (metrics resp) <= 100)
    /\ (0 <= anomalyScore (metrics resp) /\ anomalyScore (metrics resp) <= 100)
    /\ (0 <= narrativeSpreadSpeed (metrics resp)
        /\ narrativeSpreadSpeed (metrics resp) <= 100)
    /\ Forall (fun c => (1 <= size c)%Z) (clusters resp).
Proof.
  intros np sk md cl ps s posts resp Hresp.
  destruct posts as [|p rest] eqn:Ep.
  - cbn in Hresp. injection Hresp as <-. cbn.
    repeat split; try lra. constructor.
  - rewrite <- Ep in *.
    assert (Hne : posts <> []) by (rewrite Ep; discriminate).
    destruct (analyze_posts_inv s posts resp Hne Hresp)
      as (cs & Hinfo & _ & -> & -> & _ & -> & _).
    pose proof (get_cluster_info_sizes _ _ _ _ _ _ Hinfo) as Hsizes.
    split; [rewrite compute_metrics_acceleration; apply acceleration_range|].
    split; [apply detect_zscore_range|].
    split; [|exact Hsizes]. split; [|apply spread_speed_upper].
    destruct (clusters resp) as [|c cs'] eqn:Ecl; [cbn; lra|].
    apply Qle_trans with 10; [lra|].
    apply spread_speed_lower.
    + discriminate.
    + rewrite Ep. cbn [length]. lia.
    + eapply Forall_impl; [exact Hsizes|]. intros c0 Hc0. cbn in *. lia.
Qed.

Lemma response_metrics_within_0_100_witness :
  exists resp,
    (@analyze_posts Demo.numpy Demo.models Demo.clusterer Demo.pyset
       (@startup Demo.sklearn)
       (map demo_post ["fire downtown"; "all calm"; "smoke"]%string)).1 = Some resp
    /\ narrativeSpreadSpeed (metrics resp) <= 100.
Proof.
  eexists. split; [vm_compute; reflexivity|].
  apply (response_metrics_within_0_100 Demo.numpy Demo.sklearn Demo.models
           Demo.clusterer Demo.pyset (@startup Demo.sklearn)
           (map demo_post ["fire downtown"; "all calm"; "smoke"]%string)).
  vm_compute. reflexivity.
Defined.

End RouterExtras.

Section RouterCompositionExtras.
Import Py Clustering Router.
Local Open Scope Q_scope.

(** X25: sending the same batch twice in a row, with providers that keep
    the number of items, the second response reports growth 0: every cluster
    summary has growth rate 0 and the cluster growth rate of the metrics is
    0. *)
Theorem resubmitted_batch_reports_zero_growth :
  forall (np : Numpy) (sk : Anomaly.Sklearn) (md : Models) (cl : Clusterer)
         (ps : PySet) s posts,
    providers_keep_length ->
    let r1 := analyze_posts s posts in
    let r2 := analyze_posts r1.2 posts in
    exists resp2,
      r2.1 = Some resp2
      /\ Forall (fun c => growthRate c == 0) (clusters resp2)
      /\ clusterGrowthRate (metrics resp2) == 0.
Proof.
  intros np sk md cl ps s posts Hkeep r1 r2. subst r1 r2.
  destruct (analyze_posts_responds s posts Hkeep) as [resp1 Hresp1].
  destruct (analyze_posts_responds (analyze_posts s posts).2 posts Hkeep)
    as [resp2 Hresp2].
  exists resp2. split; [exact Hresp2|].
  destruct posts as [|p rest] eqn:Ep.
  { cbn in Hresp2. injection Hresp2 as <-. cbn. split; [constructor|reflexivity]. }
  rewrite <- Ep in *.
  assert (Hne : posts <> []) by (rewrite Ep; discriminate).
  destruct Hkeep as (Henc & Hsent & Hfit).
  set (texts := map text posts) in *.
  set (labels := (cluster (encode texts)).1) in *.
  assert (Hlab : length labels = length texts).
  { unfold labels. rewrite (cluster_labels_length _ Hfit). apply Henc. }
  destruct (analyze_posts_inv s posts resp1 Hne Hresp1)
    as (cs1 & Hinfo1 & Hcs1 & _).
  destruct (analyze_posts_inv _ posts resp2 Hne Hresp2)
    as (cs2 & Hinfo2 & _ & _ & _ & Hrate & _).
  fold texts in Hinfo1, Hinfo2. fold labels in Hinfo1, Hinfo2.
  rewrite Hcs1 in Hinfo2.
  destruct (get_cluster_info_spec (clustering_service s) labels texts (analyze texts)
              ltac:(lia) ltac:(rewrite Hsent; lia))
    as (new1 & prev1 & Hrun1 & _ & Hmem1 & _).
  rewrite Hrun1 in Hinfo1. injection Hinfo1 as _ <-.
  destruct (steady_call np ps {| previous_sizes := prev1 |} labels texts (analyze texts)
              ltac:(lia) ltac:(rewrite Hsent; lia) Hmem1)
    as (clusters2 & Hrun2 & Hzero).
  rewrite Hrun2 in Hinfo2. injection Hinfo2 as Ecl2 _.
  rewrite Ecl2 in Hzero.
  split; [exact Hzero|].
  rewrite Hrate. unfold Escalation.compute_cluster_growth_rate.
  destruct (clusters resp2) as [|c cs'] eqn:Ecl; [reflexivity|].
  apply np_mean_all_eq; [discriminate|].
  apply Forall_fmap. exact Hzero.
Qed.

Lemma resubmitted_batch_reports_zero_growth_witness :
  let batch := map demo_post ["smoke rising"; "smoke rising fast"; "smoke"]%string in
  let r1 := @analyze_posts Demo.numpy Demo.models Demo.clusterer Demo.pyset
              (@startup Demo.sklearn) batch in
  exists resp2,
    (@analyze_posts Demo.numpy Demo.models Demo.clusterer Demo.pyset r1.2 batch).1
    = Some resp2
    /\ clusterGrowthRate (metrics resp2) == 0.
Proof.
  intros batch r1.
  destruct (resubmitted_batch_reports_zero_growth Demo.numpy Demo.sklearn Demo.models
              Demo.clusterer Demo.pyset (@startup Demo.sklearn) batch
              demo_providers_keep_length)
    as (resp2 & Hrun & _ & Hrate).
  exists resp2. split; [exact Hrun|exact Hrate].
Defined.

(** X26: with the embedding and sentiment services as providers, when the
    embedding model and the pipeline return one item per text and the
    clustering provider one label per embedding, the two services return one
    item per text, for the empty list too, and the endpoint answers every batch
    in every state: no exception escapes. *)
Theorem services_answer_every_batch :
  forall (np : Numpy) (sk : Anomaly.Sklearn) (enc : Embedding.Encoder)
         (cls : Sentiment.Classifier) (cl : Clusterer) (ps : PySet) s posts,
    (forall texts, length (Embedding.model_encode texts) = length texts) ->
    (forall texts, length (Sentiment.classifier texts) = length texts) ->
    (forall e labels, fit_predict e = Some labels -> length labels = length e) ->
    (forall texts, length (Embedding.encode texts) = length texts)
    /\ (forall texts, length (Sentiment.analyze texts) = length texts)
    /\ is_Some (@analyze_posts np service_models cl ps s posts).1.
Proof.
  intros np sk enc cls cl ps s posts Henc Hcls Hfit.
  assert (He : forall texts, length (Embedding.encode texts) = length texts).
  { intros [|t ts]; [reflexivity|]. apply Henc. }
  assert (Ha : forall texts, length (Sentiment.analyze texts) = length texts).
  { intros [|t ts]; [reflexivity|]. unfold Sentiment.analyze.
    rewrite length_map, Hcls, length_map. reflexivity. }
  split; [exact He|]. split; [exact Ha|].
  apply (@analyze_posts_responds np service_models cl ps).
  split; [exact He|]. split; [exact Ha|exact Hfit].
Qed.

Lemma services_answer_every_batch_witness :
  is_Some
    (@analyze_posts Demo.numpy (@service_models Demo.encoder Demo.classifier)
       Demo.clusterer Demo.pyset (@startup Demo.sklearn)
       (map demo_post ["bad fire"; "calm"; "bad smoke"; "quiet"]%string)).1.
Proof.
  apply (services_answer_every_batch Demo.numpy Demo.sklearn Demo.encoder
           Demo.classifier Demo.clusterer Demo.pyset).
  - intros texts. apply length_map.
  - intros texts. apply length_map.
  - intros e labels E. cbn in E. injection E as <-. apply length_replicate.
Defined.

End RouterCompositionExtras.

Section SingleItemExtras.
Local Open Scope Q_scope.

(** X27: the single-item entry points agree with the batch ones:
    [analyze_single] of a text is the first polarity [analyze] returns for the
    list of that text alone, and [encode_single] the first row of [encode];
    both fail exactly when the model returns nothing. *)
Theorem single_item_entry_points_agree :
  forall (cls : Sentiment.Classifier) (enc : Embedding.Encoder) text,
    Sentiment.analyze_single text = head (Sentiment.analyze [text])
    /\ Embedding.encode_single text = head (Embedding.encode [text])
    /\ (Sentiment.analyze_single text = None
        <-> Sentiment.classifier [Sentiment.truncate text] = [])
    /\ (Embedding.encode_single text = None <-> Embedding.model_encode [text] = []).
Proof.
  intros cls enc text.
  unfold Sentiment.analyze_single, Sentiment.analyze, Embedding.encode_single,
    Embedding.encode.
  cbn [map].
  destruct (Sentiment.classifier [Sentiment.truncate text]) as [|r rs];
    destruct (Embedding.model_encode [text]) as [|e es]; cbn;
    repeat split; intros; congruence.
Qed.

End SingleItemExtras.
